(** * Astronomy Engine (C): the event-search core

    A shallow embedding of the numerical event-search engine of
    [astronomy.c]: the Delta-T table and the time arithmetic, the quadratic
    bracket refiner [QuadInterp], the core engine [Astronomy_Search] and the
    orchestrators built on it (moon phase and quarter, hour angle, rise/set,
    lunar apsis).

    C [double] is IEEE binary64, so it is modelled by Rocq's primitive
    [float]: [+ - * /], [sqrt], [fabs] and the comparisons are the hardware
    operations and every definition below evaluates.  C [int] is [Z] (the
    counters of this file stay far below 2^31).

    A C function that may loop forever is given a [fuel : nat] and returns
    [option]: [None] means that the fuel ran out before the function
    returned.  The bounded loops are proved to return with the fuel their cap
    allows. *)

From Stdlib Require Import ZArith List Bool Lia Floats.
Import ListNotations.

Set Warnings "-inexact-float".

Local Open Scope float_scope.

(** ** C arithmetic on [double] and [int] *)

(** [(double) n] for an [int] that fits 53 bits. *)
Definition double_of_int (n : Z) : float :=
  if (n <? 0)%Z then - of_uint63 (Uint63.of_Z (- n)) else of_uint63 (Uint63.of_Z n).

(** C [a != b] on doubles: true when unordered. *)
Definition fne (a b : float) : bool := negb (a =? b).

(** C [a > b] and [a >= b] are [b < a] and [b <= a] (false when unordered). *)
Definition fgt (a b : float) : bool := b <? a.
Definition fge (a b : float) : bool := b <=? a.

(** The integer a finite double stands for, rounded toward minus infinity:
    [floor].  [None] for NaN and the infinities. *)
Definition floor_Z (x : float) : option Z :=
  match Prim2SF x with
  | S754_zero _ => Some 0%Z
  | S754_finite s m e =>
      let n := Z.shiftl (Zpos m) e in      (* floor (m * 2^e), also for e < 0 *)
      if s then
        (* - floor' where the magnitude rounds up *)
        Some (- (if (Z.shiftl n (- e) =? Zpos m)%Z then n else n + 1))%Z
      else Some n
  | S754_infinity _ | S754_nan => None
  end.

(** [(int) floor (x)].  The conversion of a NaN, an infinity or a value
    outside [int] is undefined in C; x86-64 [cvttsd2si] yields [INT_MIN],
    which is what the model returns there. *)
Definition INT_MIN : Z := (- 2 ^ 31)%Z.
Definition INT_MAX : Z := (2 ^ 31 - 1)%Z.

Definition int_of_floor (x : float) : Z :=
  match floor_Z x with
  | Some n => if ((INT_MIN <=? n) && (n <=? INT_MAX))%Z then n else INT_MIN
  | None => INT_MIN
  end.

(** C [a % b] on [int]: the remainder of the division that truncates. *)
Definition c_rem (a b : Z) : Z := Z.rem a b.

(** ** Status codes and result records *)

(** Modelled from the spec: the header [astronomy.h], which declares the
    enumerations and the records of the interface, is not among the source
    files.  [astro_status_t] has the status codes that [astronomy.c] names
    (the error taxonomy of the specification); the records below have the
    fields that [astronomy.c] reads and writes. *)
Inductive astro_status_t : Type :=
  | ASTRO_SUCCESS
  | ASTRO_INVALID_BODY
  | ASTRO_NO_CONVERGE
  | ASTRO_BAD_TIME
  | ASTRO_BAD_VECTOR
  | ASTRO_SEARCH_FAILURE
  | ASTRO_EARTH_NOT_ALLOWED
  | ASTRO_NO_MOON_QUARTER
  | ASTRO_WRONG_MOON_QUARTER
  | ASTRO_INTERNAL_ERROR
  | ASTRO_INVALID_PARAMETER.

Definition status_eqb (a b : astro_status_t) : bool :=
  match a, b with
  | ASTRO_SUCCESS, ASTRO_SUCCESS
  | ASTRO_INVALID_BODY, ASTRO_INVALID_BODY
  | ASTRO_NO_CONVERGE, ASTRO_NO_CONVERGE
  | ASTRO_BAD_TIME, ASTRO_BAD_TIME
  | ASTRO_BAD_VECTOR, ASTRO_BAD_VECTOR
  | ASTRO_SEARCH_FAILURE, ASTRO_SEARCH_FAILURE
  | ASTRO_EARTH_NOT_ALLOWED, ASTRO_EARTH_NOT_ALLOWED
  | ASTRO_NO_MOON_QUARTER, ASTRO_NO_MOON_QUARTER
  | ASTRO_WRONG_MOON_QUARTER, ASTRO_WRONG_MOON_QUARTER
  | ASTRO_INTERNAL_ERROR, ASTRO_INTERNAL_ERROR
  | ASTRO_INVALID_PARAMETER, ASTRO_INVALID_PARAMETER => true
  | _, _ => false
  end.

(** Modelled from the spec: [astro_time_t] (the TimeValue of the
    specification), days since noon 2000-01-01 on the civil scale [ut] and on
    the uniform scale [tt]. *)
Record astro_time_t : Type := mk_time { ut : float; tt : float }.

(** Modelled from the spec: [astro_func_result_t] (the FunctionSample of the
    specification), what a search callback returns. *)
Record astro_func_result_t : Type :=
  mk_func_result { func_status : astro_status_t; func_value : float }.

(** Modelled from the spec: [astro_search_result_t] (the SearchResult of the
    specification). *)
Record astro_search_result_t : Type :=
  mk_search_result { search_time : astro_time_t; search_status : astro_status_t }.

Definition NAN_time : astro_time_t := mk_time nan nan.

Definition FuncError (status : astro_status_t) : astro_func_result_t :=
  mk_func_result status nan.

Definition SearchError (status : astro_status_t) : astro_search_result_t :=
  mk_search_result NAN_time status.

(** ** Constants *)

Definition T0 : float := 2451545.0.
Definition MJD_BASIS : float := 2400000.5.
Definition RAD2DEG : float := 57.295779513082321.
Definition SECONDS_PER_DAY : float := 24.0 * 3600.0.
Definition SOLAR_DAYS_PER_SIDEREAL_DAY : float := 0.9972695717592592.
Definition MEAN_SYNODIC_MONTH : float := 29.530588.
Definition REFRACTION_NEAR_HORIZON : float := 34.0 / 60.0.
Definition SUN_RADIUS_AU : float := 4.6505e-3.
Definition MOON_RADIUS_AU : float := 1.15717e-5.
Definition KM_PER_AU : float := 1.4959787069098932e+8.
Definition Y2000_IN_MJD : float := T0 - MJD_BASIS.

(** ** Delta-T and the two time scales *)

(** [deltat_entry_t] rows [(mjd, dt)] of the table [DT]. *)
Definition DT : list (float * float) := [
  ((-72638.0), 38.0); ((-65333.0), 26.0); ((-58028.0), 21.0);
  ((-50724.0), 21.1); ((-43419.0), 13.5); ((-39766.0), 13.7);
  ((-36114.0), 14.8); ((-32461.0), 15.7); ((-28809.0), 15.6);
  ((-25156.0), 13.3); ((-21504.0), 12.6); ((-17852.0), 11.2);
  ((-14200.0), 11.13); ((-10547.0), 7.95); ((-6895.0), 6.22);
  ((-3242.0), 6.55); ((-1416.0), 7.26); (410.0, 7.35);
  (2237.0, 5.92); (4063.0, 1.04); (5889.0, (-3.19));
  (7715.0, (-5.36)); (9542.0, (-5.74)); (11368.0, (-5.86));
  (13194.0, (-6.41)); (15020.0, (-2.7)); (16846.0, 3.92);
  (18672.0, 10.38); (20498.0, 17.19); (22324.0, 21.41);
  (24151.0, 23.63); (25977.0, 24.02); (27803.0, 23.91);
  (29629.0, 24.35); (31456.0, 26.76); (33282.0, 29.15);
  (35108.0, 31.07); (36934.0, 33.15); (38761.0, 35.738);
  (40587.0, 40.182); (42413.0, 45.477); (44239.0, 50.54);
  (44605.0, 51.3808); (44970.0, 52.1668); (45335.0, 52.9565);
  (45700.0, 53.7882); (46066.0, 54.3427); (46431.0, 54.8712);
  (46796.0, 55.3222); (47161.0, 55.8197); (47527.0, 56.3);
  (47892.0, 56.8553); (48257.0, 57.5653); (48622.0, 58.3092);
  (48988.0, 59.1218); (49353.0, 59.9845); (49718.0, 60.7853);
  (50083.0, 61.6287); (50449.0, 62.295); (50814.0, 62.9659);
  (51179.0, 63.4673); (51544.0, 63.8285); (51910.0, 64.0908);
  (52275.0, 64.2998); (52640.0, 64.4734); (53005.0, 64.5736);
  (53371.0, 64.6876); (53736.0, 64.8452); (54101.0, 65.1464);
  (54466.0, 65.4573); (54832.0, 65.7768); (55197.0, 66.0699);
  (55562.0, 66.3246); (55927.0, 66.603); (56293.0, 66.9069);
  (56658.0, 67.281); (57023.0, 67.6439); (57388.0, 68.1024);
  (57754.0, 68.5927); (58119.0, 68.9676); (58484.0, 69.2201);
  (58849.0, 69.87); (59214.0, 70.39); (59580.0, 70.91);
  (59945.0, 71.4); (60310.0, 71.88); (60675.0, 72.36);
  (61041.0, 72.83); (61406.0, 73.32); (61680.0, 73.66)
].

Definition DT_LENGTH : Z := Z.of_nat (length DT).

Definition DT_mjd (i : Z) : float := fst (nth (Z.to_nat i) DT (nan, nan)).
Definition DT_dt (i : Z) : float := snd (nth (Z.to_nat i) DT (nan, nan)).

(** The binary search of [DeltaT].  [None] stands for the call of
    [FatalError] (and for the fuel running out); [DeltaT_search_returns]
    shows that neither happens. *)
Fixpoint DeltaT_search (fuel : nat) (mjd : float) (lo hi : Z) : option float :=
  match fuel with
  | O => None
  | S fuel' =>
      if (lo >? hi)%Z then None
      else
        let c := ((lo + hi) / 2)%Z in
        if mjd <? DT_mjd c then DeltaT_search fuel' mjd lo (c - 1)
        else if fgt mjd (DT_mjd (c + 1)) then DeltaT_search fuel' mjd (c + 1) hi
        else
          let frac := (mjd - DT_mjd c) / (DT_mjd (c + 1) - DT_mjd c) in
          Some (DT_dt c + frac * (DT_dt (c + 1) - DT_dt c))
  end.

Definition DeltaT (mjd : float) : float :=
  if mjd <=? DT_mjd 0 then DT_dt 0
  else if fge mjd (DT_mjd (DT_LENGTH - 1)) then DT_dt (DT_LENGTH - 1)
  else
    match DeltaT_search (length DT) mjd 0 (DT_LENGTH - 2) with
    | Some dt => dt
    | None => nan
    end.

Definition TerrestrialTime (ut : float) : float :=
  ut + DeltaT (ut + Y2000_IN_MJD) / 86400.0.

Definition UniversalTime (ut : float) : astro_time_t :=
  mk_time ut (TerrestrialTime ut).

Definition Astronomy_AddDays (time : astro_time_t) (days : float) : astro_time_t :=
  let sum_ut := ut time + days in
  mk_time sum_ut (TerrestrialTime sum_ut).

(** ** The quadratic bracket refiner *)

(** [QuadInterp]: the parabola through [(-1,fa)], [(0,fm)], [(1,fb)].  The C
    function returns 1 and fills [*out_x], [*out_t], [*out_df_dt], or
    returns 0; the model returns the triple or [None]. *)
Definition QuadInterp (tm dt fa fm fb : float) : option (float * float * float) :=
  let Q := (fb + fa) / 2.0 - fm in
  let R := (fb - fa) / 2.0 in
  let S := fm in
  let accept (out_x : float) :=
    Some (out_x, tm + out_x * dt, (2 * Q * out_x + R) / dt) in
  if Q =? 0.0 then
    (* This is a line, not a parabola. *)
    if R =? 0.0 then None
    else
      let out_x := - S / R in
      if (out_x <? -1.0) || fgt out_x 1.0 then None else accept out_x
  else
    (* This really is a parabola. Find roots x1, x2. *)
    let u := R * R - 4 * Q * S in
    if u <=? 0.0 then None
    else
      let ru := sqrt u in
      let x1 := (- R + ru) / (2.0 * Q) in
      let x2 := (- R - ru) / (2.0 * Q) in
      if (-1.0 <=? x1) && (x1 <=? 1.0) then
        if (-1.0 <=? x2) && (x2 <=? 1.0) then None
        else accept x1
      else if (-1.0 <=? x2) && (x2 <=? 1.0) then accept x2
      else None.

(** The quantities [QuadInterp] computes, named for the statements below. *)
Definition quad_Q (fa fm fb : float) : float := (fb + fa) / 2.0 - fm.

(** [x] lies in the normalized interval [[-1, 1]]. *)
Definition in_unit (x : float) : bool := (-1.0 <=? x) && (x <=? 1.0).


(** ** The core search engine *)

(** A search callback: [func(context, t)] with the context captured.  [None]
    when the callback itself does not return. *)
Definition astro_search_func_t : Type := astro_time_t -> option astro_func_result_t.

(** One pass through a loop body either goes round again or returns. *)
Inductive loop_step (State Result : Type) : Type :=
  | Continue (s : State)
  | Return (r : Result).
Arguments Continue {State Result} s.
Arguments Return {State Result} r.

(** The macro [CALLFUNC(f,t)]: evaluate, return [SearchError] of a status
    that is not success, bind the value otherwise.  [early] wraps the value
    the enclosing function returns. *)
Definition CALLFUNC {A : Type} (early : astro_search_result_t -> A)
    (funcres : option astro_func_result_t) (k : float -> option A) : option A :=
  match funcres with
  | None => None
  | Some r =>
      if status_eqb (func_status r) ASTRO_SUCCESS then k (func_value r)
      else Some (early (SearchError (func_status r)))
  end.

(** The variables of [Astronomy_Search] that live across iterations. *)
Record search_state : Type := mk_search_state {
  st_iter : Z;
  st_t1 : astro_time_t;
  st_t2 : astro_time_t;
  st_f1 : float;
  st_f2 : float;
  st_fmid : float;
  st_calc_fmid : bool
}.

Definition iter_limit : Z := 20.

Definition search_success (t : astro_time_t) : astro_search_result_t :=
  mk_search_result t ASTRO_SUCCESS.

(** "Now just divide the region in two parts and pick whichever one appears
    to contain a root." *)
Definition Search_bisect (iter : Z) (t1 t2 tmid : astro_time_t) (f1 f2 fmid : float)
  : loop_step search_state astro_search_result_t :=
  if (f1 <? 0.0) && fge fmid 0.0 then
    Continue (mk_search_state iter t1 tmid f1 fmid fmid true)
  else if (fmid <? 0.0) && fge f2 0.0 then
    Continue (mk_search_state iter tmid t2 fmid f2 fmid true)
  else Return (SearchError ASTRO_SEARCH_FAILURE).

(** The quadratic attempt once [QuadInterp] has produced [q_ut] and
    [q_df_dt]; [otherwise] is the fall through to the bisection. *)
Definition Search_quad (func : astro_search_func_t) (dt_days : float) (iter : Z)
    (t1 t2 : astro_time_t) (dt q_ut q_df_dt : float)
    (otherwise : loop_step search_state astro_search_result_t)
  : option (loop_step search_state astro_search_result_t) :=
  let tq := UniversalTime q_ut in
  CALLFUNC Return (func tq) (fun fq =>
    if fne q_df_dt 0.0 then
      if abs (fq / q_df_dt) <? dt_days then Some (Return (search_success tq))
      else
        let dt_guess := 1.2 * abs (fq / q_df_dt) in
        if dt_guess <? dt / 10.0 then
          let tleft := Astronomy_AddDays tq (- dt_guess) in
          let tright := Astronomy_AddDays tq dt_guess in
          if (ut tleft - ut t1) * (ut tleft - ut t2) <? 0 then
            if (ut tright - ut t1) * (ut tright - ut t2) <? 0 then
              CALLFUNC Return (func tleft) (fun fleft =>
              CALLFUNC Return (func tright) (fun fright =>
                if (fleft <? 0.0) && fge fright 0.0 then
                  Some (Continue (mk_search_state iter tleft tright fleft fright fq false))
                else Some otherwise))
            else Some otherwise
          else Some otherwise
        else Some otherwise
    else Some otherwise).

(** The body of the [for(;;)] loop of [Astronomy_Search]. *)
Definition Search_body (func : astro_search_func_t) (dt_days : float) (s : search_state)
  : option (loop_step search_state astro_search_result_t) :=
  let iter := (st_iter s + 1)%Z in
  if (iter >? iter_limit)%Z then Some (Return (SearchError ASTRO_NO_CONVERGE))
  else
    let t1 := st_t1 s in
    let t2 := st_t2 s in
    let dt := (tt t2 - tt t1) / 2.0 in
    let tmid := Astronomy_AddDays t1 dt in
    if abs dt <? dt_days then Some (Return (search_success tmid))
    else
      CALLFUNC Return
        (if st_calc_fmid s then func tmid
         else Some (mk_func_result ASTRO_SUCCESS (st_fmid s)))
        (fun fmid =>
           let otherwise := Search_bisect iter t1 t2 tmid (st_f1 s) (st_f2 s) fmid in
           match QuadInterp (ut tmid) (ut t2 - ut tmid) (st_f1 s) fmid (st_f2 s) with
           | Some (_, q_ut, q_df_dt) =>
               Search_quad func dt_days iter t1 t2 dt q_ut q_df_dt otherwise
           | None => Some otherwise
           end).

Fixpoint Search_loop (fuel : nat) (func : astro_search_func_t) (dt_days : float)
    (s : search_state) : option astro_search_result_t :=
  match fuel with
  | O => None
  | S fuel' =>
      match Search_body func dt_days s with
      | None => None
      | Some (Return r) => Some r
      | Some (Continue s') => Search_loop fuel' func dt_days s'
      end
  end.

(** The state on entry to the loop; [fmid] is not initialised in C and is
    not read before [calc_fmid] has made the body assign it. *)
Definition Search_init (t1 t2 : astro_time_t) (f1 f2 : float) : search_state :=
  mk_search_state 0 t1 t2 f1 f2 0 true.

Definition tolerance_days (dt_tolerance_seconds : float) : float :=
  abs (dt_tolerance_seconds / SECONDS_PER_DAY).

Definition Astronomy_Search (fuel : nat) (func : astro_search_func_t)
    (t1 t2 : astro_time_t) (dt_tolerance_seconds : float)
  : option astro_search_result_t :=
  let dt_days := tolerance_days dt_tolerance_seconds in
  CALLFUNC (fun r => r) (func t1) (fun f1 =>
  CALLFUNC (fun r => r) (func t2) (fun f2 =>
    Search_loop fuel func dt_days (Search_init t1 t2 f1 f2))).

(** ** Longitude helpers *)

(** [while (offset <= -180.0) offset += 360.0;] *)
Fixpoint LongitudeOffset_raise (fuel : nat) (offset : float) : option float :=
  match fuel with
  | O => None
  | S fuel' =>
      if offset <=? -180.0 then LongitudeOffset_raise fuel' (offset + 360.0)
      else Some offset
  end.

(** [while (offset > 180.0) offset -= 360.0;] *)
Fixpoint LongitudeOffset_lower (fuel : nat) (offset : float) : option float :=
  match fuel with
  | O => None
  | S fuel' =>
      if fgt offset 180.0 then LongitudeOffset_lower fuel' (offset - 360.0)
      else Some offset
  end.

Definition LongitudeOffset (fuel : nat) (diff : float) : option float :=
  match LongitudeOffset_raise fuel diff with
  | None => None
  | Some offset => LongitudeOffset_lower fuel offset
  end.

(** ** Records of the orchestrators *)

(** Modelled from the spec: the result records and enumerations of the
    orchestrators, declared in [astronomy.h]; fields and constructors are the
    ones [astronomy.c] uses (the EventKind tags of the specification). *)
Record astro_angle_result_t : Type :=
  mk_angle_result { angle_status : astro_status_t; angle : float }.

Record astro_moon_quarter_t : Type := mk_moon_quarter {
  mq_status : astro_status_t;
  mq_quarter : Z;
  mq_time : astro_time_t
}.

Definition MoonQuarterError (status : astro_status_t) : astro_moon_quarter_t :=
  mk_moon_quarter status (-1) NAN_time.

Inductive astro_apsis_kind_t : Type :=
  | APSIS_PERICENTER
  | APSIS_APOCENTER
  | APSIS_INVALID.

Definition apsis_kind_eqb (a b : astro_apsis_kind_t) : bool :=
  match a, b with
  | APSIS_PERICENTER, APSIS_PERICENTER
  | APSIS_APOCENTER, APSIS_APOCENTER
  | APSIS_INVALID, APSIS_INVALID => true
  | _, _ => false
  end.

Record astro_apsis_t : Type := mk_apsis {
  apsis_status : astro_status_t;
  apsis_time : astro_time_t;
  apsis_kind : astro_apsis_kind_t;
  apsis_dist_au : float;
  apsis_dist_km : float
}.

Definition ApsisError (status : astro_status_t) : astro_apsis_t :=
  mk_apsis status NAN_time APSIS_INVALID nan nan.

Inductive astro_body_t : Type :=
  | BODY_INVALID | BODY_MERCURY | BODY_VENUS | BODY_EARTH | BODY_MARS
  | BODY_JUPITER | BODY_SATURN | BODY_URANUS | BODY_NEPTUNE | BODY_PLUTO
  | BODY_SUN | BODY_MOON.

Record astro_observer_t : Type :=
  mk_observer { latitude : float; longitude : float; height : float }.

Record astro_equatorial_t : Type := mk_equatorial {
  equ_status : astro_status_t;
  ra : float;
  dec : float;
  dist : float
}.

Record astro_horizon_t : Type := mk_horizon {
  azimuth : float;
  altitude : float;
  hor_ra : float;
  hor_dec : float
}.

Record astro_hour_angle_t : Type := mk_hour_angle {
  ha_status : astro_status_t;
  ha_time : astro_time_t;
  ha_hor : astro_horizon_t
}.

Definition HourAngleError (status : astro_status_t) : astro_hour_angle_t :=
  mk_hour_angle status NAN_time (mk_horizon nan nan nan nan).

Inductive astro_equator_date_t : Type := EQUATOR_J2000 | EQUATOR_OF_DATE.
Inductive astro_aberration_t : Type := ABERRATION | NO_ABERRATION.
Inductive astro_refraction_t : Type :=
  REFRACTION_NONE | REFRACTION_NORMAL | REFRACTION_JPLHOR.

(** Modelled from the spec: [astro_direction_t], the Rise and Set tags.  It
    is a C enumeration, so a caller can pass any [int]; [peak_altitude]
    multiplies the altitude by the value, "positive above the horizon or
    positive below the horizon", so the two named values are [+1] and
    [-1]. *)
Definition astro_direction_t : Type := Z.
Definition DIRECTION_RISE : astro_direction_t := 1%Z.
Definition DIRECTION_SET : astro_direction_t := (-1)%Z.

(** [context_peak_altitude_t] *)
Record context_peak_altitude_t : Type := mk_context_peak_altitude {
  ctx_body : astro_body_t;
  ctx_direction : Z;
  ctx_observer : astro_observer_t;
  ctx_body_radius_au : float
}.

(** C library [fmod]: the exact remainder [x - n*y] with [n] the quotient
    truncated toward zero; it carries the sign of [x]. *)
Definition fmod (x y : float) : float :=
  match Prim2SF x, Prim2SF y with
  | S754_nan, _ | _, S754_nan => nan
  | S754_infinity _, _ => nan
  | _, S754_zero _ => nan
  | S754_zero _, _ => x
  | _, S754_infinity _ => x
  | S754_finite sx mx ex, S754_finite _ my ey =>
      let e := Z.min ex ey in
      let X := Z.shiftl (Zpos mx) (ex - e) in
      let Y := Z.shiftl (Zpos my) (ey - e) in
      let r := Z.rem X Y in
      SF2Prim (binary_normalize prec emax (if sx then - r else r)%Z e sx)
  end.

(** ** The orchestrators

    The ephemeris routines of the source (planetary and lunar series,
    precession, nutation, sidereal time, horizon geometry) are sums of
    trigonometric terms; the search code consumes them as functions of a
    time value.  They are the variables of this section: every statement
    proved below holds whatever they compute. *)
Section Orchestrators.

(** [Astronomy_MoonPhase]: the Moon's ecliptic longitude from the Sun. *)
Variable Astronomy_MoonPhase : astro_time_t -> astro_angle_result_t.

(** The distance that [CalcMoon] stores through [&dist], as a function of
    its first argument (Julian centuries). *)
Variable CalcMoon_dist : float -> float.

Variable sidereal_time : astro_time_t -> float.

Variable Astronomy_Equator :
  astro_body_t -> astro_time_t -> astro_observer_t ->
  astro_equator_date_t -> astro_aberration_t -> astro_equatorial_t.

Variable Astronomy_Horizon :
  astro_time_t -> astro_observer_t -> float -> float ->
  astro_refraction_t -> astro_horizon_t.

(** *** Moon phase and moon quarter *)

Definition moon_offset (fuel : nat) (targetLon : float) : astro_search_func_t :=
  fun time =>
    let angres := Astronomy_MoonPhase time in
    if negb (status_eqb (angle_status angres) ASTRO_SUCCESS) then
      Some (FuncError (angle_status angres))
    else
      match LongitudeOffset fuel (angle angres - targetLon) with
      | None => None
      | Some value => Some (mk_func_result ASTRO_SUCCESS value)
      end.

Definition uncertainty : float := 0.9.

(** The estimate [est_dt] of [Astronomy_SearchMoonPhase] from the offset
    [ya] measured at the start date. *)
Definition moon_phase_estimate (ya : float) : float :=
  let ya := if fgt ya 0.0 then ya - 360.0 else ya in
  - (MEAN_SYNODIC_MONTH * ya) / 360.0.

(** [Astronomy_SearchMoonPhase], with the engine it hands the window to as
    an argument. *)
Definition SearchMoonPhase_with
    (engine : astro_search_func_t -> astro_time_t -> astro_time_t -> float ->
              option astro_search_result_t)
    (fuel : nat) (targetLon : float) (dateStart : astro_time_t) (limitDays : float)
  : option astro_search_result_t :=
  match moon_offset fuel targetLon dateStart with
  | None => None
  | Some funcres =>
      if negb (status_eqb (func_status funcres) ASTRO_SUCCESS) then
        Some (SearchError (func_status funcres))
      else
        let est_dt := moon_phase_estimate (func_value funcres) in
        let dt1 := est_dt - uncertainty in
        if fgt dt1 limitDays then Some (SearchError ASTRO_NO_MOON_QUARTER)
        else
          let dt2 := est_dt + uncertainty in
          let dt2 := if limitDays <? dt2 then limitDays else dt2 in
          let t1 := Astronomy_AddDays dateStart dt1 in
          let t2 := Astronomy_AddDays dateStart dt2 in
          engine (moon_offset fuel targetLon) t1 t2 1.0
  end.

Definition Astronomy_SearchMoonPhase (fuel : nat) (targetLon : float)
    (dateStart : astro_time_t) (limitDays : float) : option astro_search_result_t :=
  SearchMoonPhase_with (Astronomy_Search fuel) fuel targetLon dateStart limitDays.

Definition Astronomy_SearchMoonQuarter (fuel : nat) (dateStart : astro_time_t)
  : option astro_moon_quarter_t :=
  let angres := Astronomy_MoonPhase dateStart in
  if negb (status_eqb (angle_status angres) ASTRO_SUCCESS) then
    Some (MoonQuarterError (angle_status angres))
  else
    let quarter := c_rem (1 + int_of_floor (angle angres / 90.0)) 4 in
    match Astronomy_SearchMoonPhase fuel (90.0 * double_of_int quarter) dateStart 10.0 with
    | None => None
    | Some srchres =>
        if negb (status_eqb (search_status srchres) ASTRO_SUCCESS) then
          Some (MoonQuarterError (search_status srchres))
        else Some (mk_moon_quarter ASTRO_SUCCESS quarter (search_time srchres))
    end.

Definition Astronomy_NextMoonQuarter (fuel : nat) (mq : astro_moon_quarter_t)
  : option astro_moon_quarter_t :=
  let time := Astronomy_AddDays (mq_time mq) 6.0 in
  match Astronomy_SearchMoonQuarter fuel time with
  | None => None
  | Some next_mq =>
      if status_eqb (mq_status next_mq) ASTRO_SUCCESS
         && negb (mq_quarter next_mq =? c_rem (1 + mq_quarter mq) 4)%Z
      then Some (MoonQuarterError ASTRO_WRONG_MOON_QUARTER)
      else Some next_mq
  end.

(** *** Lunar apsis *)

Definition MoonDistance (t : astro_time_t) : float :=
  CalcMoon_dist (tt t / 36525.0).

Definition distance_slope (direction : Z) (time : astro_time_t) : astro_func_result_t :=
  let dt := 0.001 in
  let t1 := Astronomy_AddDays time (- dt / 2.0) in
  let t2 := Astronomy_AddDays time (dt / 2.0) in
  let dist1 := MoonDistance t1 in
  let dist2 := MoonDistance t2 in
  mk_func_result ASTRO_SUCCESS (double_of_int direction * (dist2 - dist1) / dt).

Definition increment : float := 5.0.

(** The loop variables of [Astronomy_SearchLunarApsis]. *)
Record apsis_state : Type := mk_apsis_state {
  ap_iter : Z;
  ap_t1 : astro_time_t;
  ap_m1 : astro_func_result_t
}.

(** The part of the loop body that runs once the slopes [m1], [m2] at the
    ends of [[t1, t2]] have a product that is not positive. *)
Definition Apsis_bracketed (fuel : nat) (t1 t2 : astro_time_t) (m1 m2 : float)
  : option astro_apsis_t :=
  let finish (search : option astro_search_result_t) (kind : astro_apsis_kind_t) :=
    match search with
    | None => None
    | Some search =>
        if negb (status_eqb (search_status search) ASTRO_SUCCESS) then
          Some (ApsisError (search_status search))
        else
          let dist_au := MoonDistance (search_time search) in
          Some (mk_apsis ASTRO_SUCCESS (search_time search) kind dist_au
                         (dist_au * KM_PER_AU))
    end in
  if (m1 <? 0.0) || fgt m2 0.0 then
    finish (Astronomy_Search fuel (fun t => Some (distance_slope 1 t)) t1 t2 1.0)
           APSIS_PERICENTER
  else if fgt m1 0.0 || (m2 <? 0.0) then
    finish (Astronomy_Search fuel (fun t => Some (distance_slope (-1) t)) t1 t2 1.0)
           APSIS_APOCENTER
  else Some (ApsisError ASTRO_INTERNAL_ERROR).

(** One test of the [for] condition and one pass through the body. *)
Definition Apsis_body (fuel : nat) (s : apsis_state)
  : option (loop_step apsis_state astro_apsis_t) :=
  if double_of_int (ap_iter s) * increment <? 2.0 * MEAN_SYNODIC_MONTH then
    let t1 := ap_t1 s in
    let m1 := ap_m1 s in
    let t2 := Astronomy_AddDays t1 increment in
    let m2 := distance_slope 1 t2 in
    if negb (status_eqb (func_status m2) ASTRO_SUCCESS) then
      Some (Return (ApsisError (func_status m2)))
    else if func_value m1 * func_value m2 <=? 0.0 then
      match Apsis_bracketed fuel t1 t2 (func_value m1) (func_value m2) with
      | None => None
      | Some r => Some (Return r)
      end
    else Some (Continue (mk_apsis_state (ap_iter s + 1) t2 m2))
  else Some (Return (ApsisError ASTRO_INTERNAL_ERROR)).

Fixpoint Apsis_loop (fuel loops : nat) (s : apsis_state) : option astro_apsis_t :=
  match loops with
  | O => None
  | S loops' =>
      match Apsis_body fuel s with
      | None => None
      | Some (Return r) => Some r
      | Some (Continue s') => Apsis_loop fuel loops' s'
      end
  end.

Definition Astronomy_SearchLunarApsis (fuel : nat) (startTime : astro_time_t)
  : option astro_apsis_t :=
  let t1 := startTime in
  let m1 := distance_slope 1 t1 in
  if negb (status_eqb (func_status m1) ASTRO_SUCCESS) then
    Some (ApsisError (func_status m1))
  else Apsis_loop fuel fuel (mk_apsis_state 0 t1 m1).

Definition skip : float := 11.0.

Definition Astronomy_NextLunarApsis (fuel : nat) (apsis : astro_apsis_t)
  : option astro_apsis_t :=
  if negb (status_eqb (apsis_status apsis) ASTRO_SUCCESS) then
    Some (ApsisError ASTRO_INVALID_PARAMETER)
  else
    let time := Astronomy_AddDays (apsis_time apsis) skip in
    match Astronomy_SearchLunarApsis fuel time with
    | None => None
    | Some next =>
        if status_eqb (apsis_status next) ASTRO_SUCCESS then
          match apsis_kind apsis with
          | APSIS_APOCENTER =>
              if negb (apsis_kind_eqb (apsis_kind next) APSIS_PERICENTER) then
                Some (ApsisError ASTRO_INTERNAL_ERROR)
              else Some next
          | APSIS_PERICENTER =>
              if negb (apsis_kind_eqb (apsis_kind next) APSIS_APOCENTER) then
                Some (ApsisError ASTRO_INTERNAL_ERROR)
              else Some next
          | APSIS_INVALID => Some (ApsisError ASTRO_INVALID_PARAMETER)
          end
        else Some next
    end.

(** *** Hour angle *)

Record hour_angle_state : Type := mk_hour_angle_state {
  hs_iter : Z;
  hs_time : astro_time_t
}.

(** The body of the [for(;;)] loop of [Astronomy_SearchHourAngle]. *)
Definition HourAngle_body (body : astro_body_t) (observer : astro_observer_t)
    (hourAngle : float) (s : hour_angle_state)
  : loop_step hour_angle_state astro_hour_angle_t :=
  let iter := (hs_iter s + 1)%Z in
  let time := hs_time s in
  let gast := sidereal_time time in
  let ofdate := Astronomy_Equator body time observer EQUATOR_OF_DATE ABERRATION in
  if negb (status_eqb (equ_status ofdate) ASTRO_SUCCESS) then
    Return (HourAngleError (equ_status ofdate))
  else
    let delta_sidereal_hours :=
      fmod ((hourAngle + ra ofdate - longitude observer / 15) - gast) 24.0 in
    let delta_sidereal_hours :=
      if (iter =? 1)%Z then
        if delta_sidereal_hours <? 0 then delta_sidereal_hours + 24
        else delta_sidereal_hours
      else
        if delta_sidereal_hours <? -12.0 then delta_sidereal_hours + 24.0
        else if fgt delta_sidereal_hours 12.0 then delta_sidereal_hours - 24.0
        else delta_sidereal_hours in
    if abs delta_sidereal_hours * 3600.0 <? 0.1 then
      Return (mk_hour_angle ASTRO_SUCCESS time
                (Astronomy_Horizon time observer (ra ofdate) (dec ofdate)
                                   REFRACTION_NORMAL))
    else
      let delta_days := (delta_sidereal_hours / 24.0) * SOLAR_DAYS_PER_SIDEREAL_DAY in
      Continue (mk_hour_angle_state iter (Astronomy_AddDays time delta_days)).

Fixpoint HourAngle_loop (fuel : nat) (body : astro_body_t) (observer : astro_observer_t)
    (hourAngle : float) (s : hour_angle_state) : option astro_hour_angle_t :=
  match fuel with
  | O => None
  | S fuel' =>
      match HourAngle_body body observer hourAngle s with
      | Return r => Some r
      | Continue s' => HourAngle_loop fuel' body observer hourAngle s'
      end
  end.

Definition Astronomy_SearchHourAngle (fuel : nat) (body : astro_body_t)
    (observer : astro_observer_t) (hourAngle : float) (dateStart : astro_time_t)
  : option astro_hour_angle_t :=
  HourAngle_loop fuel body observer hourAngle (mk_hour_angle_state 0 dateStart).

(** *** Rise and set *)

Definition peak_altitude (p : context_peak_altitude_t) (time : astro_time_t)
  : astro_func_result_t :=
  let ofdate :=
    Astronomy_Equator (ctx_body p) time (ctx_observer p) EQUATOR_OF_DATE ABERRATION in
  if negb (status_eqb (equ_status ofdate) ASTRO_SUCCESS) then
    FuncError (equ_status ofdate)
  else
    let hor :=
      Astronomy_Horizon time (ctx_observer p) (ra ofdate) (dec ofdate) REFRACTION_NONE in
    mk_func_result ASTRO_SUCCESS
      (double_of_int (ctx_direction p)
       * (altitude hor + RAD2DEG * (ctx_body_radius_au p / dist ofdate)
          + REFRACTION_NEAR_HORIZON)).

(** [if (evt.status != ASTRO_SUCCESS) return SearchError(evt.status);] *)
Definition CHECK_EVENT {A : Type} (early : astro_search_result_t -> A)
    (evt : option astro_hour_angle_t) (k : astro_hour_angle_t -> option A)
  : option A :=
  match evt with
  | None => None
  | Some e =>
      if negb (status_eqb (ha_status e) ASTRO_SUCCESS) then
        Some (early (SearchError (ha_status e)))
      else k e
  end.

(** The variables the retry loop of [Astronomy_SearchRiseSet] carries. *)
Record rise_set_state : Type := mk_rise_set_state {
  rs_time_before : astro_time_t;
  rs_alt_before : float;
  rs_time_after : astro_time_t;
  rs_alt_after : float
}.

(** The part of the retry loop after the search attempt: find the next
    pair of before and after events. *)
Definition RiseSet_advance (fuel : nat) (context : context_peak_altitude_t)
    (ha_before ha_after : float) (time_start : astro_time_t) (limitDays : float)
    (s : rise_set_state)
  : option (loop_step rise_set_state astro_search_result_t) :=
  let body := ctx_body context in
  let observer := ctx_observer context in
  CHECK_EVENT Return
    (Astronomy_SearchHourAngle fuel body observer ha_before (rs_time_after s))
    (fun evt_before =>
  CHECK_EVENT Return
    (Astronomy_SearchHourAngle fuel body observer ha_after (ha_time evt_before))
    (fun evt_after =>
  if fge (ut (ha_time evt_before)) (ut time_start + limitDays) then
    Some (Return (SearchError ASTRO_SEARCH_FAILURE))
  else
    CALLFUNC Return (Some (peak_altitude context (ha_time evt_before)))
      (fun alt_before =>
    CALLFUNC Return (Some (peak_altitude context (ha_time evt_after)))
      (fun alt_after =>
    Some (Continue (mk_rise_set_state (ha_time evt_before) alt_before
                                      (ha_time evt_after) alt_after)))))).

(** The body of the [for(;;)] loop of [Astronomy_SearchRiseSet]. *)
Definition RiseSet_body (fuel : nat) (context : context_peak_altitude_t)
    (ha_before ha_after : float) (time_start : astro_time_t) (limitDays : float)
    (s : rise_set_state)
  : option (loop_step rise_set_state astro_search_result_t) :=
  if (rs_alt_before s <=? 0.0) && fgt (rs_alt_after s) 0.0 then
    match Astronomy_Search fuel (fun t => Some (peak_altitude context t))
                           (rs_time_before s) (rs_time_after s) 1.0 with
    | None => None
    | Some result =>
        if negb (status_eqb (search_status result) ASTRO_SEARCH_FAILURE) then
          Some (Return result)
        else RiseSet_advance fuel context ha_before ha_after time_start limitDays s
    end
  else RiseSet_advance fuel context ha_before ha_after time_start limitDays s.

Fixpoint RiseSet_loop (fuel loops : nat) (context : context_peak_altitude_t)
    (ha_before ha_after : float) (time_start : astro_time_t) (limitDays : float)
    (s : rise_set_state) : option astro_search_result_t :=
  match loops with
  | O => None
  | S loops' =>
      match RiseSet_body fuel context ha_before ha_after time_start limitDays s with
      | None => None
      | Some (Return r) => Some r
      | Some (Continue s') =>
          RiseSet_loop fuel loops' context ha_before ha_after time_start limitDays s'
      end
  end.

Definition body_radius_au (body : astro_body_t) : float :=
  match body with
  | BODY_SUN => SUN_RADIUS_AU
  | BODY_MOON => MOON_RADIUS_AU
  | _ => 0.0
  end.

Definition Astronomy_SearchRiseSet (fuel : nat) (body : astro_body_t)
    (observer : astro_observer_t) (direction : astro_direction_t)
    (dateStart : astro_time_t) (limitDays : float)
  : option astro_search_result_t :=
  let run (ha_before ha_after : float) :=
    let context := mk_context_peak_altitude body direction observer (body_radius_au body) in
    let time_start := dateStart in
    CALLFUNC (fun r => r) (Some (peak_altitude context time_start)) (fun alt_before =>
      let continue_from (time_before : astro_time_t) (alt_before : float) :=
        CHECK_EVENT (fun r => r)
          (Astronomy_SearchHourAngle fuel body observer ha_after time_before)
          (fun evt_after =>
        CALLFUNC (fun r => r) (Some (peak_altitude context (ha_time evt_after)))
          (fun alt_after =>
        RiseSet_loop fuel fuel context ha_before ha_after time_start limitDays
          (mk_rise_set_state time_before alt_before (ha_time evt_after) alt_after))) in
      if fgt alt_before 0.0 then
        CHECK_EVENT (fun r => r)
          (Astronomy_SearchHourAngle fuel body observer ha_before time_start)
          (fun evt_before =>
        CALLFUNC (fun r => r) (Some (peak_altitude context (ha_time evt_before)))
          (fun alt_before' => continue_from (ha_time evt_before) alt_before'))
      else continue_from time_start alt_before) in
  if (direction =? DIRECTION_RISE)%Z then run 12.0 0.0
  else if (direction =? DIRECTION_SET)%Z then run 0.0 12.0
  else Some (SearchError ASTRO_INVALID_PARAMETER).

End Orchestrators.

(** * The rest of the search code *)

From Stdlib Require String.

(** ** Calendar dates *)

(** C [a / b] on [long] and [int]: the quotient truncated toward zero. *)
Definition c_quot (a b : Z) : Z := Z.quot a b.

(** The integer part of a finite double, truncated toward zero.  [None] for
    NaN and the infinities. *)
Definition trunc_Z (x : float) : option Z :=
  match Prim2SF x with
  | S754_zero _ => Some 0%Z
  | S754_finite s m e =>
      let n := Z.shiftl (Zpos m) e in
      Some (if s then - n else n)%Z
  | S754_infinity _ | S754_nan => None
  end.

Definition LONG_MIN : Z := (- 2 ^ 63)%Z.
Definition LONG_MAX : Z := (2 ^ 63 - 1)%Z.

(** [(long) x] and [(int) x]; where C leaves the conversion undefined (NaN,
    infinity, out of range) the model returns the least value of the type, as
    x86-64 does. *)
Definition long_of_double (x : float) : Z :=
  match trunc_Z x with
  | Some n => if ((LONG_MIN <=? n) && (n <=? LONG_MAX))%Z then n else LONG_MIN
  | None => LONG_MIN
  end.

Definition int_of_double (x : float) : Z :=
  match trunc_Z x with
  | Some n => if ((INT_MIN <=? n) && (n <=? INT_MAX))%Z then n else INT_MIN
  | None => INT_MIN
  end.

(** Modelled from the spec: [astro_utc_t], declared in [astronomy.h]; the
    fields are the ones [Astronomy_UtcFromTime] fills. *)
Record astro_utc_t : Type := mk_utc {
  utc_year : Z;
  utc_month : Z;
  utc_day : Z;
  utc_hour : Z;
  utc_minute : Z;
  utc_second : float
}.

(** The day number [jd12h] that [Astronomy_MakeTime] computes (the Julian
    day that begins at noon of the calendar date). *)
Definition MakeTime_jd12h (year month day : Z) : Z :=
  (day - 32075
   + c_quot (1461 * (year + 4800 + c_quot (month - 14) 12)) 4
   + c_quot (367 * (month - 2 - c_quot (month - 14) 12 * 12)) 12
   - c_quot (3 * c_quot (year + 4900 + c_quot (month - 14) 12) 100) 4)%Z.

Definition Astronomy_MakeTime (year month day hour minute : Z) (second : float)
  : astro_time_t :=
  let jd12h := MakeTime_jd12h year month day in
  let y2000 := (jd12h - 2451545)%Z in
  let time_ut :=
    double_of_int y2000 - 0.5 + (double_of_int hour / 24.0)
    + (double_of_int minute / (24.0 * 60.0)) + (second / (24.0 * 3600.0)) in
  mk_time time_ut (TerrestrialTime time_ut).

Definition Astronomy_TimeFromUtc (utc : astro_utc_t) : astro_time_t :=
  Astronomy_MakeTime (utc_year utc) (utc_month utc) (utc_day utc)
                     (utc_hour utc) (utc_minute utc) (utc_second utc).

Definition Astronomy_UtcFromTime (time : astro_time_t) : astro_utc_t :=
  let djd := ut time + 2451545.5 in
  let jd := long_of_double djd in
  let x := 24.0 * fmod djd 1.0 in
  let hour := int_of_double x in
  let x := 60.0 * fmod x 1.0 in
  let minute := int_of_double x in
  let second := 60.0 * fmod x 1.0 in
  let k := (jd + 68569)%Z in
  let n := c_quot (4 * k) 146097 in
  let k := (k - c_quot (146097 * n + 3) 4)%Z in
  let m := c_quot (4000 * (k + 1)) 1461001 in
  let k := (k - c_quot (1461 * m) 4 + 31)%Z in
  let month := c_quot (80 * k) 2447 in
  let day := (k - c_quot (2447 * month) 80)%Z in
  let k := c_quot month 11 in
  let month := (month + 2 - 12 * k)%Z in
  let year := (100 * (n - 49) + m + k)%Z in
  mk_utc year month day hour minute second.

Definition Astronomy_MakeObserver (latitude longitude height : float)
  : astro_observer_t :=
  mk_observer latitude longitude height.

(** ** Bodies *)

Module BodyNames.
Import String.
Local Open Scope string_scope.

Definition Astronomy_BodyName (body : astro_body_t) : string :=
  match body with
  | BODY_MERCURY => "Mercury"
  | BODY_VENUS => "Venus"
  | BODY_EARTH => "Earth"
  | BODY_MARS => "Mars"
  | BODY_JUPITER => "Jupiter"
  | BODY_SATURN => "Saturn"
  | BODY_URANUS => "Uranus"
  | BODY_NEPTUNE => "Neptune"
  | BODY_PLUTO => "Pluto"
  | BODY_SUN => "Sun"
  | BODY_MOON => "Moon"
  | BODY_INVALID => EmptyString
  end.

(** [name] is [None] for the null pointer; [!strcmp(name, s)] is equality of
    the two strings. *)
Definition Astronomy_BodyCode (name : option string) : astro_body_t :=
  match name with
  | None => BODY_INVALID
  | Some name =>
      if String.eqb name "Mercury" then BODY_MERCURY
      else if String.eqb name "Venus" then BODY_VENUS
      else if String.eqb name "Earth" then BODY_EARTH
      else if String.eqb name "Mars" then BODY_MARS
      else if String.eqb name "Jupiter" then BODY_JUPITER
      else if String.eqb name "Saturn" then BODY_SATURN
      else if String.eqb name "Uranus" then BODY_URANUS
      else if String.eqb name "Neptune" then BODY_NEPTUNE
      else if String.eqb name "Pluto" then BODY_PLUTO
      else if String.eqb name "Sun" then BODY_SUN
      else if String.eqb name "Moon" then BODY_MOON
      else BODY_INVALID
  end.

End BodyNames.

Definition EARTH_ORBITAL_PERIOD : float := 365.256.

Definition IsSuperiorPlanet (body : astro_body_t) : bool :=
  match body with
  | BODY_MARS | BODY_JUPITER | BODY_SATURN | BODY_URANUS | BODY_NEPTUNE
  | BODY_PLUTO => true
  | _ => false
  end.

Definition PlanetOrbitalPeriod (body : astro_body_t) : float :=
  match body with
  | BODY_MERCURY => 87.969
  | BODY_VENUS => 224.701
  | BODY_EARTH => EARTH_ORBITAL_PERIOD
  | BODY_MARS => 686.980
  | BODY_JUPITER => 4332.589
  | BODY_SATURN => 10759.22
  | BODY_URANUS => 30685.4
  | BODY_NEPTUNE => 60189.0
  | BODY_PLUTO => 90560.0
  | _ => 0.0
  end.

Definition SynodicPeriod (body : astro_body_t) : astro_func_result_t :=
  let Te := 365.256 in
  match body with
  | BODY_EARTH => FuncError ASTRO_EARTH_NOT_ALLOWED
  | BODY_MOON => mk_func_result ASTRO_SUCCESS MEAN_SYNODIC_MONTH
  | _ =>
      let Tp := PlanetOrbitalPeriod body in
      if Tp <=? 0.0 then FuncError ASTRO_INVALID_BODY
      else mk_func_result ASTRO_SUCCESS (abs (Te / (Te / Tp - 1.0)))
  end.

(** ** Records of the remaining orchestrators *)




(** Modelled from the spec: [astro_illum_t] of [astronomy.h], with the fields
    that [IllumError] fills. *)
Record astro_illum_t : Type := mk_illum {
  illum_status : astro_status_t;
  illum_time : astro_time_t;
  mag : float;
  phase_angle : float;
  helio_dist : float;
  ring_tilt : float
}.

Definition IllumError (status : astro_status_t) : astro_illum_t :=
  mk_illum status NAN_time nan nan nan nan.

(** Modelled from the spec: [astro_ecliptic_t] of [astronomy.h], with the
    fields that [EclError] fills. *)
Record astro_ecliptic_t : Type := mk_ecliptic {
  ecl_status : astro_status_t;
  ex : float;
  ey : float;
  ez : float;
  elat : float;
  elon : float
}.

(** Modelled from the spec: [astro_seasons_t] of [astronomy.h], with the
    fields that [Astronomy_Seasons] fills. *)
Record astro_seasons_t : Type := mk_seasons {
  seasons_status : astro_status_t;
  mar_equinox : astro_time_t;
  jun_solstice : astro_time_t;
  sep_equinox : astro_time_t;
  dec_solstice : astro_time_t
}.

(** ** Seasons, relative longitude, elongation and magnitude

    As before the ephemeris routines are the variables of the section. *)
Section MoreOrchestrators.

Variable Astronomy_SunPosition : astro_time_t -> astro_ecliptic_t.

(** Heliocentric ecliptic longitude of a body. *)
Variable Astronomy_EclipticLongitude : astro_body_t -> astro_time_t -> astro_angle_result_t.

(** Angle between a body and the Sun as seen from the Earth. *)
Variable Astronomy_AngleFromSun : astro_body_t -> astro_time_t -> astro_angle_result_t.

Variable Astronomy_LongitudeFromSun : astro_body_t -> astro_time_t -> astro_angle_result_t.

Variable Astronomy_Illumination : astro_body_t -> astro_time_t -> astro_illum_t.

(** *** Seasons *)

Definition sun_offset (fuel : nat) (targetLon : float) : astro_search_func_t :=
  fun time =>
    let ecl := Astronomy_SunPosition time in
    if negb (status_eqb (ecl_status ecl) ASTRO_SUCCESS) then
      Some (FuncError (ecl_status ecl))
    else
      match LongitudeOffset fuel (elon ecl - targetLon) with
      | None => None
      | Some value => Some (mk_func_result ASTRO_SUCCESS value)
      end.

Definition Astronomy_SearchSunLongitude (fuel : nat) (targetLon : float)
    (dateStart : astro_time_t) (limitDays : float) : option astro_search_result_t :=
  let t2 := Astronomy_AddDays dateStart limitDays in
  Astronomy_Search fuel (sun_offset fuel targetLon) dateStart t2 1.0.

(** [FindSeasonChange] returns the status and stores the time through its
    last argument; the model returns both. *)
Definition FindSeasonChange (fuel : nat) (targetLon : float) (year month day : Z)
  : option (astro_status_t * astro_time_t) :=
  let startDate := Astronomy_MakeTime year month day 0 0 0.0 in
  match Astronomy_SearchSunLongitude fuel targetLon startDate 4.0 with
  | None => None
  | Some result => Some (search_status result, search_time result)
  end.

Definition Astronomy_Seasons (fuel : nat) (year : Z) : option astro_seasons_t :=
  let update (seasons_status status : astro_status_t) :=
    if negb (status_eqb status ASTRO_SUCCESS) then status else seasons_status in
  let seasons_status := ASTRO_SUCCESS in
  match FindSeasonChange fuel 0 year 3 19 with
  | None => None
  | Some (status, mar) =>
      let seasons_status := update seasons_status status in
      match FindSeasonChange fuel 90 year 6 19 with
      | None => None
      | Some (status, jun) =>
          let seasons_status := update seasons_status status in
          match FindSeasonChange fuel 180 year 9 21 with
          | None => None
          | Some (status, sep) =>
              let seasons_status := update seasons_status status in
              match FindSeasonChange fuel 270 year 12 20 with
              | None => None
              | Some (status, dec) =>
                  let seasons_status := update seasons_status status in
                  Some (mk_seasons seasons_status mar jun sep dec)
              end
          end
      end
  end.

(** *** Relative longitude *)

Definition rlon_offset (fuel : nat) (body : astro_body_t) (time : astro_time_t)
    (direction : Z) (targetRelLon : float) : option astro_func_result_t :=
  let plon := Astronomy_EclipticLongitude body time in
  if negb (status_eqb (angle_status plon) ASTRO_SUCCESS) then
    Some (FuncError (angle_status plon))
  else
    let elon := Astronomy_EclipticLongitude BODY_EARTH time in
    if negb (status_eqb (angle_status elon) ASTRO_SUCCESS) then
      Some (FuncError (angle_status elon))
    else
      let diff := double_of_int direction * (angle elon - angle plon) in
      match LongitudeOffset fuel (diff - targetRelLon) with
      | None => None
      | Some value => Some (mk_func_result ASTRO_SUCCESS value)
      end.

(** The loop variables of [Astronomy_SearchRelativeLongitude]. *)
Record rlon_state : Type := mk_rlon_state {
  rl_iter : Z;
  rl_time : astro_time_t;
  rl_error_angle : float;
  rl_syn : float
}.

(** The step in days that a pass takes from the state [s]. *)
Definition rlon_day_adjust (s : rlon_state) : float :=
  (- rl_error_angle s / 360.0) * rl_syn s.

(** The synodic period after a pass that measured [error_angle] where the
    pass before had measured [prev_angle]. *)
Definition rlon_adjust_period (syn prev_angle error_angle : float) : float :=
  if (abs prev_angle <? 30.0) && fne prev_angle error_angle then
    let ratio := prev_angle / (prev_angle - error_angle) in
    if fgt ratio 0.5 && (ratio <? 2.0) then syn * ratio else syn
  else syn.

(** One test of the [for] condition and one pass through the body. *)
Definition RelativeLongitude_body (fuel : nat) (body : astro_body_t) (direction : Z)
    (targetRelLon : float) (s : rlon_state)
  : option (loop_step rlon_state astro_search_result_t) :=
  if (rl_iter s <? 100)%Z then
    let day_adjust := rlon_day_adjust s in
    let time := Astronomy_AddDays (rl_time s) day_adjust in
    if abs day_adjust * SECONDS_PER_DAY <? 1.0 then
      Some (Return (search_success time))
    else
      let prev_angle := rl_error_angle s in
      CALLFUNC Return (rlon_offset fuel body time direction targetRelLon)
        (fun error_angle =>
           Some (Continue (mk_rlon_state (rl_iter s + 1) time error_angle
                             (rlon_adjust_period (rl_syn s) prev_angle error_angle))))
  else Some (Return (SearchError ASTRO_NO_CONVERGE)).

Fixpoint RelativeLongitude_loop (fuel loops : nat) (body : astro_body_t) (direction : Z)
    (targetRelLon : float) (s : rlon_state) : option astro_search_result_t :=
  match loops with
  | O => None
  | S loops' =>
      match RelativeLongitude_body fuel body direction targetRelLon s with
      | None => None
      | Some (Return r) => Some r
      | Some (Continue s') =>
          RelativeLongitude_loop fuel loops' body direction targetRelLon s'
      end
  end.

Definition Astronomy_SearchRelativeLongitude (fuel : nat) (body : astro_body_t)
    (targetRelLon : float) (startDate : astro_time_t) : option astro_search_result_t :=
  match body with
  | BODY_EARTH => Some (SearchError ASTRO_EARTH_NOT_ALLOWED)
  | BODY_MOON => Some (SearchError ASTRO_INVALID_BODY)
  | _ =>
      let syn := SynodicPeriod body in
      if negb (status_eqb (func_status syn) ASTRO_SUCCESS) then
        Some (SearchError (func_status syn))
      else
        let direction := if IsSuperiorPlanet body then 1%Z else (-1)%Z in
        CALLFUNC (fun r => r) (rlon_offset fuel body startDate direction targetRelLon)
          (fun error_angle =>
             let error_angle :=
               if fgt error_angle 0 then error_angle - 360 else error_angle in
             RelativeLongitude_loop fuel fuel body direction targetRelLon
               (mk_rlon_state 0 startDate error_angle (func_value syn)))
  end.

(** *** Elongation *)










(** *** Peak magnitude *)






End MoreOrchestrators.

(** ** Vectors *)

(** Modelled from the spec: [astro_vector_t], declared in [astronomy.h]; the
    fields are the ones [VecError] fills. *)
Record astro_vector_t : Type := mk_vector {
  vec_status : astro_status_t;
  vec_x : float;
  vec_y : float;
  vec_z : float;
  vec_t : astro_time_t
}.

Definition Astronomy_VectorLength (vector : astro_vector_t) : float :=
  sqrt (vec_x vector * vec_x vector + vec_y vector * vec_y vector
        + vec_z vector * vec_z vector).

Definition VecError (status : astro_status_t) (time : astro_time_t) : astro_vector_t :=
  mk_vector status nan nan nan time.

(** * Definitions used by the statements *)

(** What the binary search knows about [mjd] at the ends of [lo .. hi + 1]. *)
Definition DeltaT_above (mjd : float) (lo : Z) : Prop :=
  (lo = 0%Z /\ (mjd <=? DT_mjd 0) = false) \/ fgt mjd (DT_mjd lo) = true.

Definition DeltaT_below (mjd : float) (hi : Z) : Prop :=
  (hi = (DT_LENGTH - 2)%Z /\ fge mjd (DT_mjd (DT_LENGTH - 1)) = false)
  \/ (mjd <? DT_mjd (hi + 1)) = true.

(** A callback result that reports success with the value [v]. *)
Definition func_ok (v : float) : option astro_func_result_t :=
  Some (mk_func_result ASTRO_SUCCESS v).

(** The state of [Astronomy_Search] after [n] passes through the loop body
    that all went round again; [None] when an earlier pass returned or a
    callback did not return. *)
Fixpoint Search_steps (n : nat) (func : astro_search_func_t) (dt_days : float)
    (s : search_state) : option search_state :=
  match n with
  | O => Some s
  | S n' =>
      match Search_body func dt_days s with
      | Some (Continue s') => Search_steps n' func dt_days s'
      | _ => None
      end
  end.

(** The half width of a window, in days of the uniform scale. *)
Definition half_width (t1 t2 : astro_time_t) : float := (tt t2 - tt t1) / 2.0.

(** The midpoint [tmid] the engine computes for a window. *)
Definition midpoint (t1 t2 : astro_time_t) : astro_time_t :=
  Astronomy_AddDays t1 (half_width t1 t2).



(** The three samples lie on one side of zero, as the bisection tests it. *)
Definition same_side (f1 fmid f2 : float) : Prop :=
  ((f1 <? 0.0) = true /\ (fmid <? 0.0) = true /\ (f2 <? 0.0) = true)
  \/ (fge f1 0.0 = true /\ fge fmid 0.0 = true /\ fge f2 0.0 = true).

(** The kind opposite to an apsis kind. *)
Definition opposite_kind (k : astro_apsis_kind_t) : astro_apsis_kind_t :=
  match k with
  | APSIS_PERICENTER => APSIS_APOCENTER
  | APSIS_APOCENTER => APSIS_PERICENTER
  | APSIS_INVALID => APSIS_INVALID
  end.


Section ScanStatements.

Variable CalcMoon_dist : float -> float.



(** The states of the scan after [n] windows without a bracket. *)
Fixpoint Apsis_steps (fuel n : nat) (s : apsis_state) : option apsis_state :=
  match n with
  | O => Some s
  | S n' =>
      match Apsis_body CalcMoon_dist fuel s with
      | Some (Continue s') => Apsis_steps fuel n' s'
      | _ => None
      end
  end.

End ScanStatements.

Section LoopStatements.

Variable sidereal_time : astro_time_t -> float.
Variable Astronomy_Equator :
  astro_body_t -> astro_time_t -> astro_observer_t ->
  astro_equator_date_t -> astro_aberration_t -> astro_equatorial_t.
Variable Astronomy_Horizon :
  astro_time_t -> astro_observer_t -> float -> float ->
  astro_refraction_t -> astro_horizon_t.

(** The state of the hour angle loop after [n] passes that went round
    again. *)
Fixpoint HourAngle_steps (n : nat) (body : astro_body_t) (observer : astro_observer_t)
    (hourAngle : float) (s : hour_angle_state) : option hour_angle_state :=
  match n with
  | O => Some s
  | S n' =>
      match HourAngle_body sidereal_time Astronomy_Equator Astronomy_Horizon
                           body observer hourAngle s with
      | Continue s' => HourAngle_steps n' body observer hourAngle s'
      | Return _ => None
      end
  end.

(** The state of the rise/set retry loop after [n] retries. *)
Fixpoint RiseSet_steps (fuel n : nat) (context : context_peak_altitude_t)
    (ha_before ha_after : float) (time_start : astro_time_t) (limitDays : float)
    (s : rise_set_state) : option rise_set_state :=
  match n with
  | O => Some s
  | S n' =>
      match RiseSet_body sidereal_time Astronomy_Equator Astronomy_Horizon
                         fuel context ha_before ha_after time_start limitDays s with
      | Some (Continue s') =>
          RiseSet_steps fuel n' context ha_before ha_after time_start limitDays s'
      | _ => None
      end
  end.

(** The correction, in sidereal hours, that one pass of the hour angle loop
    computes at [time]; [first] tells the first pass from the later ones. *)
Definition hour_angle_residual (body : astro_body_t) (observer : astro_observer_t)
    (hourAngle : float) (first : bool) (time : astro_time_t) : float :=
  let gast := sidereal_time time in
  let ofdate := Astronomy_Equator body time observer EQUATOR_OF_DATE ABERRATION in
  let delta := fmod ((hourAngle + ra ofdate - longitude observer / 15) - gast) 24.0 in
  if first then
    if delta <? 0 then delta + 24 else delta
  else
    if delta <? -12.0 then delta + 24.0
    else if fgt delta 12.0 then delta - 24.0
    else delta.

(** The exit test of the hour angle loop, at the state [s], with the result
    [r] it returns: the coordinates could not be computed, or the correction
    is below a tenth of a second. *)
Definition HourAngle_exit (body : astro_body_t) (observer : astro_observer_t)
    (hourAngle : float) (s : hour_angle_state) (r : astro_hour_angle_t) : Prop :=
  let time := hs_time s in
  let ofdate := Astronomy_Equator body time observer EQUATOR_OF_DATE ABERRATION in
  (equ_status ofdate <> ASTRO_SUCCESS /\ r = HourAngleError (equ_status ofdate))
  \/ (equ_status ofdate = ASTRO_SUCCESS
      /\ (abs (hour_angle_residual body observer hourAngle (hs_iter s + 1 =? 1)%Z time)
          * 3600.0 <? 0.1) = true
      /\ r = mk_hour_angle ASTRO_SUCCESS time
               (Astronomy_Horizon time observer (ra ofdate) (dec ofdate) REFRACTION_NORMAL)).

(** The exits of the rise/set retry loop, at the state [s], with the result
    [r]: the engine answered the bracket with a status other than
    [ASTRO_SEARCH_FAILURE]; a status that is not success was propagated; or
    the next before-event is at or past the limit. *)
Definition RiseSet_exit (fuel : nat) (context : context_peak_altitude_t)
    (ha_before : float) (time_start : astro_time_t) (limitDays : float)
    (s : rise_set_state) (r : astro_search_result_t) : Prop :=
  ((rs_alt_before s <=? 0.0) && fgt (rs_alt_after s) 0.0 = true
   /\ Astronomy_Search fuel
        (fun t => Some (peak_altitude Astronomy_Equator Astronomy_Horizon context t))
        (rs_time_before s) (rs_time_after s) 1.0 = Some r
   /\ search_status r <> ASTRO_SEARCH_FAILURE)
  \/ (exists status, status <> ASTRO_SUCCESS /\ r = SearchError status)
  \/ (exists evt_before,
        Astronomy_SearchHourAngle sidereal_time Astronomy_Equator Astronomy_Horizon
          fuel (ctx_body context) (ctx_observer context) ha_before (rs_time_after s)
        = Some evt_before
        /\ fge (ut (ha_time evt_before)) (ut time_start + limitDays) = true
        /\ r = SearchError ASTRO_SEARCH_FAILURE).

End LoopStatements.
(** ** Statements about the calendar *)

(** The calendar fields that [Astronomy_UtcFromTime] computes from the day
    number [jd]: the integer part of the function, from [k = jd + 68569L]
    on. *)
Definition UtcFromTime_date (jd : Z) : Z * Z * Z :=
  let k := (jd + 68569)%Z in
  let n := c_quot (4 * k) 146097 in
  let k := (k - c_quot (146097 * n + 3) 4)%Z in
  let m := c_quot (4000 * (k + 1)) 1461001 in
  let k := (k - c_quot (1461 * m) 4 + 31)%Z in
  let month := c_quot (80 * k) 2447 in
  let day := (k - c_quot (2447 * month) 80)%Z in
  let k := c_quot month 11 in
  let month := (month + 2 - 12 * k)%Z in
  let year := (100 * (n - 49) + m + k)%Z in
  (year, month, day).

(** The Gregorian calendar: leap years and the lengths of the months. *)
Definition is_leap_year (year : Z) : bool :=
  ((year mod 4 =? 0) && negb (year mod 100 =? 0) || (year mod 400 =? 0))%Z.

Definition days_in_month (year month : Z) : Z :=
  if (month =? 2)%Z then (if is_leap_year year then 29 else 28)%Z
  else if ((month =? 4) || (month =? 6) || (month =? 9) || (month =? 11))%Z then 30%Z
  else 31%Z.

(** A date of the Gregorian calendar in a year that [int] holds and that is
    not before -4700. *)
Definition calendar_date (year month day : Z) : Prop :=
  (-4700 <= year <= INT_MAX /\ 1 <= month <= 12
   /\ 1 <= day <= days_in_month year month)%Z.

(** The integers [from], [from + 1], ..., [from + n - 1]. *)
Fixpoint Z_range (n : nat) (from : Z) : list Z :=
  match n with
  | O => []
  | S n' => from :: Z_range n' (from + 1)
  end.

(** The date survives [MakeTime_jd12h] followed by [UtcFromTime_date]. *)
Definition date_round_trip (year month day : Z) : bool :=
  let '(y, m, d) := UtcFromTime_date (MakeTime_jd12h year month day) in
  ((y =? year) && (m =? month) && (d =? day))%Z.

Definition month_round_trip (year month : Z) : bool :=
  forallb (date_round_trip year month)
          (Z_range (Z.to_nat (days_in_month year month)) 1).

Definition year_round_trip (year : Z) : bool :=
  forallb (month_round_trip year) (Z_range 12 1).

(** [x] is the double [+0.0]. *)
Definition is_positive_zero (x : float) : bool :=
  match Prim2SF x with
  | S754_zero false => true
  | _ => false
  end.

(** Midnight of the date survives [Astronomy_MakeTime] followed by
    [Astronomy_UtcFromTime], with all six fields. *)
Definition midnight_round_trip (year month day : Z) : bool :=
  let utc := Astronomy_UtcFromTime (Astronomy_MakeTime year month day 0 0 0.0) in
  ((utc_year utc =? year) && (utc_month utc =? month) && (utc_day utc =? day)
   && (utc_hour utc =? 0) && (utc_minute utc =? 0))%Z
  && is_positive_zero (utc_second utc).

Definition midnight_month_round_trip (year month : Z) : bool :=
  forallb (midnight_round_trip year month)
          (Z_range (Z.to_nat (days_in_month year month)) 1).

Definition midnight_year_round_trip (year : Z) : bool :=
  forallb (midnight_month_round_trip year) (Z_range 12 1).

(** One minute past midnight on the fourth of July 2019. *)
Definition minute_past_midnight : astro_utc_t := mk_utc 2019 7 4 0 1 0.0.

(** ** Statements about failures *)

(** Where the status of a failed search comes from: the iteration cap, the
    bisection that finds no ascending half, or an evaluation of the
    callback that has this status. *)
Definition Search_failure_source (func : astro_search_func_t) (status : astro_status_t)
  : Prop :=
  status = ASTRO_NO_CONVERGE \/ status = ASTRO_SEARCH_FAILURE
  \/ exists (t : astro_time_t) (r : astro_func_result_t),
       func t = Some r /\ func_status r = status.

(** ** Statements about the remaining orchestrators *)

(** The status that [Astronomy_Seasons] reports for the statuses of its four
    searches, in the order of the calls: the last one that is not success. *)
Definition last_failure (statuses : list astro_status_t) : astro_status_t :=
  fold_left (fun acc status =>
               if negb (status_eqb status ASTRO_SUCCESS) then status else acc)
            statuses ASTRO_SUCCESS.

(** The bodies that have a relative longitude to search for: the planets
    other than the Earth. *)
Definition is_other_planet (body : astro_body_t) : bool :=
  match body with
  | BODY_MERCURY | BODY_VENUS | BODY_MARS | BODY_JUPITER | BODY_SATURN
  | BODY_URANUS | BODY_NEPTUNE | BODY_PLUTO => true
  | _ => false
  end.

Section RelativeLongitudeStatements.

Variable Astronomy_EclipticLongitude : astro_body_t -> astro_time_t -> astro_angle_result_t.

(** The state of the loop of [Astronomy_SearchRelativeLongitude] after [n]
    passes that went round again. *)
Fixpoint RelativeLongitude_steps (fuel n : nat) (body : astro_body_t) (direction : Z)
    (targetRelLon : float) (s : rlon_state) : option rlon_state :=
  match n with
  | O => Some s
  | S n' =>
      match RelativeLongitude_body Astronomy_EclipticLongitude fuel body direction
              targetRelLon s with
      | Some (Continue s') =>
          RelativeLongitude_steps fuel n' body direction targetRelLon s'
      | _ => None
      end
  end.

End RelativeLongitudeStatements.

(** Where the status of a failed search for a relative longitude comes
    from: the cap of 100 passes, or a longitude of the body or of the Earth
    that the ephemeris could not give. *)
Definition RelativeLongitude_failure_source
    (Astronomy_EclipticLongitude : astro_body_t -> astro_time_t -> astro_angle_result_t)
    (body : astro_body_t) (status : astro_status_t) : Prop :=
  status = ASTRO_NO_CONVERGE
  \/ exists (b : astro_body_t) (t : astro_time_t),
       (b = body \/ b = BODY_EARTH)
       /\ angle_status (Astronomy_EclipticLongitude b t) = status.

(** The two shapes of a lunar apsis record: the error record of a status
    that is not success, or a success with a kind and the distances of the
    Moon at its time. *)
Definition apsis_result_shape (CalcMoon_dist : float -> float) (a : astro_apsis_t)
  : Prop :=
  (apsis_status a <> ASTRO_SUCCESS /\ a = ApsisError (apsis_status a))
  \/ (apsis_status a = ASTRO_SUCCESS
      /\ (apsis_kind a = APSIS_PERICENTER \/ apsis_kind a = APSIS_APOCENTER)
      /\ apsis_dist_au a = MoonDistance CalcMoon_dist (apsis_time a)
      /\ apsis_dist_km a = apsis_dist_au a * KM_PER_AU).

(** The two fields of a time agree: [tt] is the Terrestrial Time of [ut]. *)
Definition time_consistent (t : astro_time_t) : Prop :=
  tt t = TerrestrialTime (ut t).

(** * Concrete inputs for the examples *)

(** A window of 1000 days in the year 1660, where Delta-T falls by 1.6
    seconds: the two time scales drift apart across the window. *)
Definition drift_t1 : astro_time_t := UniversalTime (-124000).
Definition drift_t2 : astro_time_t := UniversalTime (-123000).

(** A straight line that rises by 100 per day and crosses zero 0.0864
    seconds after [drift_t1]. *)
Definition steep_line : astro_search_func_t :=
  fun t => func_ok (100 * (ut t - (-123999.999999))).

(** What the engine answers for [steep_line] on the window, with a tolerance
    of 10 seconds. *)
Definition drift_result : astro_search_result_t :=
  match Astronomy_Search 21 steep_line drift_t1 drift_t2 10.0 with
  | Some r => r
  | None => SearchError ASTRO_NO_CONVERGE
  end.

(** A line that crosses zero at day -100 and is positive ever after. *)
Definition offset_line : astro_search_func_t :=
  fun t => func_ok (ut t + 100).

(** A window of 0.0864 seconds and a window of one day, both after the
    crossing of [offset_line]. *)
Definition short_t1 : astro_time_t := UniversalTime 0.
Definition short_t2 : astro_time_t := UniversalTime 1e-6.
Definition day_t2 : astro_time_t := UniversalTime 1.

(** A hump: negative at both ends of [[0, 10]], positive between days 4
    and 6. *)
Definition hump : astro_search_func_t :=
  fun t => func_ok (1 - (ut t - 5) * (ut t - 5)).
Definition hump_t2 : astro_time_t := UniversalTime 10.

(** ** Stand-ins for the ephemeris routines *)

(** A Moon that gains 12.190749 degrees a day on the Sun, normalized to
    [[0, 360)] as [Astronomy_LongitudeFromSun] does. *)
Definition mean_MoonPhase (t : astro_time_t) : astro_angle_result_t :=
  let a := fmod (12.190749 * ut t) 360.0 in
  mk_angle_result ASTRO_SUCCESS (if a <? 0.0 then a + 360.0 else a).

(** A smooth wave of period 4 built from two parabolic arcs: [1] at [u = 1],
    [-1] at [u = 3]. *)
Definition wave (u : float) : float :=
  if u <? 2 then 1 - (u - 1) * (u - 1) else (u - 3) * (u - 3) - 1.

(** A lunar distance in astronomical units that swings by 5 percent with the
    given period in days: farthest a quarter period after day 0, nearest at
    three quarters. *)
Definition wave_Moon_dist (period : float) (centuries : float) : float :=
  let d := fmod (centuries * 36525.0) period in
  let d := if d <? 0 then d + period else d in
  0.00257 * (1 + 0.05 * wave (4 * d / period)).

(** The anomalistic month, a period of 238 days and a period of 400 days. *)
Definition month_Moon_dist : float -> float := wave_Moon_dist 27.55.
Definition still_Moon_dist : float -> float := wave_Moon_dist 400.

(** Greenwich sidereal time in hours, advancing 24.0657 hours a day. *)
Definition mean_sidereal_time (t : astro_time_t) : float :=
  let g := fmod (6.6974 + 24.06570982441908 * ut t) 24.0 in
  if g <? 0 then g + 24.0 else g.

(** A body fixed at right ascension 0 on the celestial equator. *)
Definition fixed_Equator (_ : astro_body_t) (_ : astro_time_t) (_ : astro_observer_t)
    (_ : astro_equator_date_t) (_ : astro_aberration_t) : astro_equatorial_t :=
  mk_equatorial ASTRO_SUCCESS 0 0 1.

(** The altitude seen from the equator, falling 15 degrees for every hour of
    hour angle. *)
Definition equatorial_Horizon (t : astro_time_t) (observer : astro_observer_t)
    (ra dec : float) (_ : astro_refraction_t) : astro_horizon_t :=
  let h := fmod (mean_sidereal_time t + longitude observer / 15 - ra) 24.0 in
  let h := if h <? -12 then h + 24 else if fgt h 12 then h - 24 else h in
  mk_horizon 0 (90 - 15 * abs h) ra dec.

Definition greenwich : astro_observer_t := mk_observer 0 0 0.

(** Day zero, and a time so far away that one day is less than the gap
    between neighbouring doubles. *)
Definition day_zero : astro_time_t := UniversalTime 0.
Definition far_future : astro_time_t := UniversalTime 1e17.

(** The first apsis after day zero of the stand-in Moon with a period of one
    anomalistic month, and the one after it. *)
Definition first_apsis : astro_apsis_t :=
  match Astronomy_SearchLunarApsis month_Moon_dist 21 day_zero with
  | Some a => a
  | None => ApsisError ASTRO_NO_CONVERGE
  end.

Definition second_apsis : astro_apsis_t :=
  match Astronomy_SearchLunarApsis month_Moon_dist 21
          (Astronomy_AddDays (apsis_time first_apsis) skip) with
  | Some a => a
  | None => ApsisError ASTRO_NO_CONVERGE
  end.

(** A new moon at day zero, and the quarter found 6 days after it. *)
Definition new_moon : astro_moon_quarter_t := mk_moon_quarter ASTRO_SUCCESS 0 day_zero.

Definition quarter_after_new_moon : astro_moon_quarter_t :=
  match Astronomy_SearchMoonQuarter mean_MoonPhase 21
          (Astronomy_AddDays (mq_time new_moon) 6.0) with
  | Some q => q
  | None => MoonQuarterError ASTRO_NO_CONVERGE
  end.

(** An engine that never returns. *)
Definition silent_engine (_ : astro_search_func_t) (_ _ : astro_time_t) (_ : float)
  : option astro_search_result_t := None.



(** The first culmination and the first rising after day zero. *)
Definition first_culmination : astro_hour_angle_t :=
  match Astronomy_SearchHourAngle mean_sidereal_time fixed_Equator equatorial_Horizon
          3 BODY_SUN greenwich 0 day_zero with
  | Some e => e
  | None => HourAngleError ASTRO_NO_CONVERGE
  end.

Definition first_rise : astro_search_result_t :=
  match Astronomy_SearchRiseSet mean_sidereal_time fixed_Equator equatorial_Horizon
          21 BODY_SUN greenwich DIRECTION_RISE day_zero 2 with
  | Some r => r
  | None => SearchError ASTRO_NO_CONVERGE
  end.

(** The answers of the engine for [offset_line] on the short window and for
    [hump] on [[0, 10]]. *)
Definition short_result : astro_search_result_t :=
  match Astronomy_Search 21 offset_line short_t1 short_t2 1.0 with
  | Some r => r
  | None => SearchError ASTRO_NO_CONVERGE
  end.

Definition hump_result : astro_search_result_t :=
  match Astronomy_Search 21 hump short_t1 hump_t2 1.0 with
  | Some r => r
  | None => SearchError ASTRO_NO_CONVERGE
  end.

(** A step from -1 to 1 at day 3.3: no slope to interpolate. *)
Definition step_up : astro_search_func_t :=
  fun t => func_ok (if ut t <? 3.3 then -1 else 1).
(** ** Stand-ins for the remaining ephemeris routines *)

(** A Sun on the mean longitude of the year 2000: 280.46 degrees at day zero,
    0.98564736 degrees a day. *)
Definition mean_SunPosition (t : astro_time_t) : astro_ecliptic_t :=
  let a := fmod (280.46 + 0.98564736 * ut t) 360.0 in
  mk_ecliptic ASTRO_SUCCESS 0 0 0 0 (if a <? 0.0 then a + 360.0 else a).

Definition seasons_2000 : astro_seasons_t :=
  match Astronomy_Seasons mean_SunPosition 21 2000 with
  | Some s => s
  | None => mk_seasons ASTRO_NO_CONVERGE NAN_time NAN_time NAN_time NAN_time
  end.

(** Planets on circles: heliocentric longitudes that advance uniformly with
    the orbital periods of [PlanetOrbitalPeriod], all zero at day zero. *)
Definition circular_EclipticLongitude (body : astro_body_t) (t : astro_time_t)
  : astro_angle_result_t :=
  let a := fmod (360.0 * (ut t / PlanetOrbitalPeriod body)) 360.0 in
  mk_angle_result ASTRO_SUCCESS (if a <? 0.0 then a + 360.0 else a).

(** Planets that do not move: every heliocentric longitude is zero. *)
Definition frozen_EclipticLongitude (_ : astro_body_t) (_ : astro_time_t)
  : astro_angle_result_t :=
  mk_angle_result ASTRO_SUCCESS 0.

(** An ephemeris that is out of its range everywhere. *)
Definition no_EclipticLongitude (_ : astro_body_t) (_ : astro_time_t)
  : astro_angle_result_t :=
  mk_angle_result ASTRO_BAD_TIME nan.

Definition no_AngleFromSun (_ : astro_body_t) (_ : astro_time_t) : astro_angle_result_t :=
  mk_angle_result ASTRO_BAD_TIME nan.

Definition no_Illumination (_ : astro_body_t) (_ : astro_time_t) : astro_illum_t :=
  IllumError ASTRO_BAD_TIME.





(** The answers for Venus on circles from day 100. *)
Definition venus_quadrature : astro_search_result_t :=
  match Astronomy_SearchRelativeLongitude circular_EclipticLongitude 101 BODY_VENUS 90
          (UniversalTime 100) with
  | Some r => r
  | None => SearchError ASTRO_INTERNAL_ERROR
  end.



(** The answer for Venus among planets that do not move. *)
Definition frozen_quadrature : astro_search_result_t :=
  match Astronomy_SearchRelativeLongitude frozen_EclipticLongitude 101 BODY_VENUS 90
          day_zero with
  | Some r => r
  | None => SearchError ASTRO_INTERNAL_ERROR
  end.

(** A callback that cannot be evaluated between days 0.25 and 0.75. *)
Definition failing_midway : astro_search_func_t :=
  fun t =>
    if fgt (ut t) 0.25 && (ut t <? 0.75) then Some (FuncError ASTRO_BAD_TIME)
    else func_ok (ut t - 0.5).

(** * Properties *)

(** ** Order facts of binary64, from the specification of the primitives *)

Lemma SFcompare_Lt_swap (x y : spec_float) :
  SFcompare x y = Some Lt -> SFcompare y x = Some Gt.
Proof.
  destruct x as [sx| sx| |sx mx ex], y as [sy| sy| |sy my ey]; simpl;
    try discriminate; try (destruct sx; try destruct sy; simpl; congruence).
  assert (Hm : Pos.compare_cont Eq my mx = CompOpp (Pos.compare_cont Eq mx my)).
  { now rewrite Pos.compare_cont_antisym. }
  rewrite (Z.compare_antisym ex ey), Hm.
  destruct sx, sy; try congruence;
    destruct (ex ?= ey)%Z; simpl; try congruence;
    destruct (Pos.compare_cont Eq mx my); simpl; congruence.
Qed.

Lemma ltb_asym (x y : float) : (x <? y) = true -> (y <? x) = false.
Proof.
  rewrite !ltb_spec. unfold SFltb.
  destruct (SFcompare (Prim2SF x) (Prim2SF y)) as [[| |]|] eqn:E; try discriminate.
  intros _. now rewrite (SFcompare_Lt_swap _ _ E).
Qed.

Lemma ltb_not_ge (x y : float) : (x <? y) = true -> (y <=? x) = false.
Proof.
  rewrite ltb_spec, leb_spec. unfold SFltb, SFleb.
  destruct (SFcompare (Prim2SF x) (Prim2SF y)) as [[| |]|] eqn:E; try discriminate.
  intros _. now rewrite (SFcompare_Lt_swap _ _ E).
Qed.

Lemma ltb_leb (x y : float) : (x <? y) = true -> (x <=? y) = true.
Proof.
  rewrite ltb_spec, leb_spec. unfold SFltb, SFleb.
  destruct (SFcompare (Prim2SF x) (Prim2SF y)) as [[| |]|]; congruence.
Qed.

(** ** [DeltaT] never calls [FatalError] *)

Lemma DeltaT_search_returns (fuel : nat) :
  forall (mjd : float) (lo hi : Z),
    DeltaT_above mjd lo -> DeltaT_below mjd hi ->
    (0 <= lo)%Z -> (lo <= hi + 1)%Z -> (hi <= DT_LENGTH - 2)%Z ->
    (hi - lo + 1 < Z.of_nat fuel)%Z ->
    exists dt, DeltaT_search fuel mjd lo hi = Some dt.
Proof.
  induction fuel as [|fuel IH]; intros mjd lo hi Ha Hb H0 Hlh Hhi Hfuel.
  - lia.
  - cbn [DeltaT_search].
    destruct (lo >? hi)%Z eqn:Egt.
    + (* the bounds have crossed: excluded by what is known about [mjd] *)
      exfalso. apply Z.gtb_lt in Egt.
      assert (lo = hi + 1)%Z as -> by lia.
      unfold DeltaT_above, DeltaT_below, fgt, fge in *.
      destruct Ha as [[Hl Hg]|Ha], Hb as [[Hh Hg']|Hb].
      * subst hi. vm_compute in Hl. discriminate.
      * rewrite Hl in Hb. apply ltb_leb in Hb. congruence.
      * subst hi. replace (DT_LENGTH - 2 + 1)%Z with (DT_LENGTH - 1)%Z in Ha by lia.
        apply ltb_leb in Ha. congruence.
      * apply ltb_asym in Ha. congruence.
    + assert (Hle : (lo <= hi)%Z) by (rewrite Z.gtb_ltb in Egt; apply Z.ltb_ge in Egt; lia).
      set (c := ((lo + hi) / 2)%Z).
      assert (Hc : (lo <= c <= hi)%Z).
      { unfold c. split.
        - apply Z.div_le_lower_bound; lia.
        - apply Z.div_le_upper_bound; lia. }
      destruct (mjd <? DT_mjd c) eqn:E1.
      * apply IH; try lia.
        -- exact Ha.
        -- right. now replace (c - 1 + 1)%Z with c by lia.
      * destruct (fgt mjd (DT_mjd (c + 1))) eqn:E2.
        -- apply IH; try lia.
           ++ right. exact E2.
           ++ exact Hb.
        -- eauto.
Qed.

(** The [None] branch of [DeltaT] is dead code: the search always finds the
    two rows that enclose [mjd]. *)
Lemma DeltaT_no_fatal_error (mjd : float) :
  (mjd <=? DT_mjd 0) = false ->
  fge mjd (DT_mjd (DT_LENGTH - 1)) = false ->
  exists dt, DeltaT_search (length DT) mjd 0 (DT_LENGTH - 2) = Some dt.
Proof.
  intros H1 H2. apply DeltaT_search_returns.
  - left. split; [reflexivity | exact H1].
  - left. split; [reflexivity | exact H2].
  - lia.
  - vm_compute. discriminate.
  - lia.
  - vm_compute. reflexivity.
Qed.

(** ** The quadratic bracket refiner *)

(** Splits on every test and every callback result in the goal. *)
Ltac split_tests :=
  repeat match goal with
  | |- context [match ?x with Some _ => _ | None => _ end] => destruct x eqn:?
  | |- context [if ?c then _ else _] => destruct c eqn:?
  | |- context [let '(_, _) := ?p in _] => destruct p eqn:?
  end.



(** The parabola [x^2 + 2 x - 3] has the roots [1] and [-3]: sampled at
    [-1, 0, 1] around [tm = 10] with half width [dt = 2], the refiner returns
    the root [1], the time [12] and the slope [(2 * 1 + 2) / 2 = 2]. *)
Example QuadInterp_unique_root :
  QuadInterp 10 2 (-4) (-3) 0 = Some (1, 12, 2).
Proof. vm_compute. reflexivity. Qed.

(** The parabola [x^2 - 1/4] has both roots in [[-1, 1]]: rejected. *)
Example QuadInterp_two_roots :
  QuadInterp 10 2 0.75 (-0.25) 0.75 = None.
Proof. vm_compute. reflexivity. Qed.

(** An accepted root of a proper parabola lies in [[-1, 1]]. *)
Lemma QuadInterp_parabola_in_unit (tm dt fa fm fb x t df : float) :
  (quad_Q fa fm fb =? 0.0) = false ->
  QuadInterp tm dt fa fm fb = Some (x, t, df) ->
  in_unit x = true.
Proof.
  intros HQ. unfold QuadInterp. fold (quad_Q fa fm fb). rewrite HQ.
  cbv zeta.
  repeat match goal with
  | |- context [if ?c then _ else _] => destruct c eqn:?
  end; intros H; inversion H; subst; assumption.
Qed.

(** ** The core search engine *)

Lemma status_eqb_eq (a b : astro_status_t) : status_eqb a b = true <-> a = b.
Proof. destruct a, b; simpl; split; congruence. Qed.

Lemma status_eqb_neq (a b : astro_status_t) : status_eqb a b = false <-> a <> b.
Proof. destruct a, b; simpl; split; congruence. Qed.

Lemma status_eqb_refl (a : astro_status_t) : status_eqb a a = true.
Proof. now apply status_eqb_eq. Qed.

Lemma CALLFUNC_ok {A : Type} (early : astro_search_result_t -> A) (v : float)
    (k : float -> option A) :
  CALLFUNC early (func_ok v) k = k v.
Proof. reflexivity. Qed.

Lemma CALLFUNC_error {A : Type} (early : astro_search_result_t -> A)
    (r : astro_func_result_t) (k : float -> option A) :
  func_status r <> ASTRO_SUCCESS ->
  CALLFUNC early (Some r) k = Some (early (SearchError (func_status r))).
Proof.
  intros H. unfold CALLFUNC. apply status_eqb_neq in H. now rewrite H.
Qed.

(** A pass that goes round again has counted one iteration, and the count
    stays within the limit. *)
Lemma Search_body_counts (func : astro_search_func_t) (dt_days : float)
    (s s' : search_state) :
  Search_body func dt_days s = Some (Continue s') ->
  st_iter s' = (st_iter s + 1)%Z /\ (st_iter s + 1 <= iter_limit)%Z.
Proof.
  unfold Search_body.
  destruct (st_iter s + 1 >? iter_limit)%Z eqn:Hcap; [discriminate|].
  assert (Hle : (st_iter s + 1 <= iter_limit)%Z).
  { rewrite Z.gtb_ltb in Hcap. apply Z.ltb_ge in Hcap. exact Hcap. }
  unfold Search_quad, Search_bisect, CALLFUNC.
  split_tests; intros H; inversion H; subst; simpl; auto.
Qed.


Lemma Search_steps_count (n : nat) :
  forall (func : astro_search_func_t) (dt_days : float) (s s' : search_state),
    Search_steps n func dt_days s = Some s' ->
    st_iter s' = (st_iter s + Z.of_nat n)%Z
    /\ (n = O \/ (st_iter s + Z.of_nat n <= iter_limit)%Z).
Proof.
  induction n as [|n IH]; intros func dt_days s s' H.
  - simpl in H. inversion H; subst. split; [lia | now left].
  - cbn [Search_steps] in H.
    destruct (Search_body func dt_days s) as [[s1|r]|] eqn:Hb; try discriminate.
    apply Search_body_counts in Hb. destruct Hb as [Hi Hl].
    apply IH in H. destruct H as [Hi' Hl'].
    split; [lia|]. right. destruct Hl' as [->|Hl']; simpl; lia.
Qed.

(** A callback that always returns lets every pass return or go on. *)
Lemma Search_body_total (func : astro_search_func_t) (dt_days : float)
    (s : search_state) :
  (forall t, func t <> None) -> Search_body func dt_days s <> None.
Proof.
  intros Hf. unfold Search_body, Search_quad, CALLFUNC.
  destruct (st_calc_fmid s);
    split_tests; try discriminate;
    match goal with H : func ?t = None |- _ => now apply Hf in H end.
Qed.

Lemma Search_loop_returns (fuel : nat) :
  forall (func : astro_search_func_t) (dt_days : float) (s : search_state),
    (forall t, func t <> None) ->
    (st_iter s <= iter_limit)%Z ->
    (iter_limit - st_iter s < Z.of_nat fuel)%Z ->
    exists r, Search_loop fuel func dt_days s = Some r.
Proof.
  induction fuel as [|fuel IH]; intros func dt_days s Hf Hle Hfuel.
  - exfalso. lia.
  - cbn [Search_loop].
    destruct (Search_body func dt_days s) as [[s1|r]|] eqn:Hb.
    + apply Search_body_counts in Hb as [Hi Hl].
      apply IH; [exact Hf | lia | lia].
    + eauto.
    + now apply Search_body_total in Hb.
Qed.

Lemma func_ok_intro (r : astro_func_result_t) :
  status_eqb (func_status r) ASTRO_SUCCESS = true -> Some r = func_ok (func_value r).
Proof.
  intros H. apply status_eqb_eq in H. destruct r as [st v]. simpl in *. now subst.
Qed.

(** With a callback that returns, fuel for 21 passes lets the search
    return. *)
Lemma Astronomy_Search_returns (fuel : nat) (func : astro_search_func_t)
    (t1 t2 : astro_time_t) (dt_tolerance_seconds : float) :
  (forall t, func t <> None) -> (21 <= fuel)%nat ->
  exists r, Astronomy_Search fuel func t1 t2 dt_tolerance_seconds = Some r.
Proof.
  intros Hf Hfuel. unfold Astronomy_Search, CALLFUNC.
  destruct (func t1) as [r1|] eqn:E1; [|now apply Hf in E1].
  destruct (status_eqb (func_status r1) ASTRO_SUCCESS); [|eauto].
  destruct (func t2) as [r2|] eqn:E2; [|now apply Hf in E2].
  destruct (status_eqb (func_status r2) ASTRO_SUCCESS); [|eauto].
  apply Search_loop_returns; [exact Hf | | ]; unfold iter_limit; simpl; lia.
Qed.


(** C10.  A window whose half width is below the tolerance: the callback is
    evaluated at [t1], then at [t2], an error status of either is returned at
    once, and otherwise the answer is success at the midpoint, whatever the
    two values are. *)
Theorem Search_narrow_window (fuel : nat) (func : astro_search_func_t)
    (t1 t2 : astro_time_t) (dt_tolerance_seconds : float) :
  (abs (half_width t1 t2) <? tolerance_days dt_tolerance_seconds) = true ->
  (forall r1, func t1 = Some r1 -> func_status r1 <> ASTRO_SUCCESS ->
      Astronomy_Search (S fuel) func t1 t2 dt_tolerance_seconds
      = Some (SearchError (func_status r1)))
  /\ (forall f1 r2, func t1 = func_ok f1 -> func t2 = Some r2 ->
      func_status r2 <> ASTRO_SUCCESS ->
      Astronomy_Search (S fuel) func t1 t2 dt_tolerance_seconds
      = Some (SearchError (func_status r2)))
  /\ (forall f1 f2, func t1 = func_ok f1 -> func t2 = func_ok f2 ->
      Astronomy_Search (S fuel) func t1 t2 dt_tolerance_seconds
      = Some (search_success (midpoint t1 t2))).
Proof.
  intros Hnarrow. unfold Astronomy_Search. repeat split.
  - intros r1 E1 Hs. rewrite E1. now apply CALLFUNC_error.
  - intros f1 r2 E1 E2 Hs. rewrite E1, E2, CALLFUNC_ok. now apply CALLFUNC_error.
  - intros f1 f2 E1 E2. rewrite E1, E2, !CALLFUNC_ok.
    cbn [Search_loop]. unfold Search_body. simpl.
    unfold half_width in Hnarrow. rewrite Hnarrow. reflexivity.
Qed.









(** C10 at a concrete window. *)
Lemma Search_narrow_window_witness :
  (forall r1, offset_line short_t1 = Some r1 -> func_status r1 <> ASTRO_SUCCESS ->
      Astronomy_Search 1 offset_line short_t1 short_t2 1.0
      = Some (SearchError (func_status r1)))
  /\ (forall f1 r2, offset_line short_t1 = func_ok f1 -> offset_line short_t2 = Some r2 ->
      func_status r2 <> ASTRO_SUCCESS ->
      Astronomy_Search 1 offset_line short_t1 short_t2 1.0
      = Some (SearchError (func_status r2)))
  /\ (forall f1 f2, offset_line short_t1 = func_ok f1 -> offset_line short_t2 = func_ok f2 ->
      Astronomy_Search 1 offset_line short_t1 short_t2 1.0
      = Some (search_success (midpoint short_t1 short_t2))).
Proof.
  apply (Search_narrow_window 0 offset_line short_t1 short_t2 1.0).
  vm_compute. reflexivity.
Defined.

(** C2, amended.  When the half width of the window is not below the
    tolerance, the callback has values on one side of zero at [t1], at the
    midpoint and at [t2], and the refiner rejects these three samples, the
    first pass ends the search with [ASTRO_SEARCH_FAILURE]. *)
Theorem Search_same_side_fails (fuel : nat) (func : astro_search_func_t)
    (t1 t2 : astro_time_t) (dt_tolerance_seconds f1 fmid f2 : float) :
  func t1 = func_ok f1 -> func t2 = func_ok f2 ->
  func (midpoint t1 t2) = func_ok fmid ->
  (abs (half_width t1 t2) <? tolerance_days dt_tolerance_seconds) = false ->
  QuadInterp (ut (midpoint t1 t2)) (ut t2 - ut (midpoint t1 t2)) f1 fmid f2 = None ->
  same_side f1 fmid f2 ->
  Astronomy_Search (S fuel) func t1 t2 dt_tolerance_seconds
  = Some (SearchError ASTRO_SEARCH_FAILURE).
Proof.
  intros E1 E2 Em Hwide Hq Hside.
  unfold Astronomy_Search. rewrite E1, E2, !CALLFUNC_ok.
  cbn [Search_loop]. unfold Search_body.
  cbn [Search_init st_iter st_t1 st_t2 st_f1 st_f2 st_fmid st_calc_fmid].
  change ((0 + 1 >? iter_limit)%Z) with false. cbv iota zeta.
  fold (half_width t1 t2). fold (midpoint t1 t2).
  rewrite Hwide, Em, CALLFUNC_ok, Hq.
  unfold Search_bisect.
  destruct Hside as [(H1 & Hm & H2)|(H1 & Hm & H2)]; unfold fge in *.
  - rewrite H1, (ltb_not_ge _ _ Hm), Hm, (ltb_not_ge _ _ H2). reflexivity.
  - assert (N1 : (f1 <? 0.0) = false).
    { destruct (f1 <? 0.0) eqn:E; [|reflexivity]. apply ltb_not_ge in E. congruence. }
    assert (Nm : (fmid <? 0.0) = false).
    { destruct (fmid <? 0.0) eqn:E; [|reflexivity]. apply ltb_not_ge in E. congruence. }
    rewrite N1, Nm. reflexivity.
Qed.

(** The failure of C2 for [offset_line] on a window of one day, which lies
    after its crossing. *)
Lemma Search_same_side_fails_witness :
  Astronomy_Search 1 offset_line short_t1 day_t2 1.0
  = Some (SearchError ASTRO_SEARCH_FAILURE).
Proof.
  apply (Search_same_side_fails 0 offset_line short_t1 day_t2 1.0
           100 (ut (midpoint short_t1 day_t2) + 100) 101).
  - vm_compute. reflexivity.
  - vm_compute. reflexivity.
  - vm_compute. reflexivity.
  - vm_compute. reflexivity.
  - vm_compute. reflexivity.
  - right. repeat split; vm_compute; reflexivity.
Defined.

(** C2 as the specification states it fails: [offset_line] is positive at
    both ends of the window (its only crossing is at day -100), and the
    engine reports success, because the window is narrower than the
    tolerance. *)
Lemma Search_same_sign_success :
  exists f1 f2 r,
    offset_line short_t1 = func_ok f1 /\ (0.0 <? f1) = true
    /\ offset_line short_t2 = func_ok f2 /\ (0.0 <? f2) = true
    /\ Astronomy_Search 21 offset_line short_t1 short_t2 1.0 = Some r
    /\ search_status r = ASTRO_SUCCESS.
Proof.
  exists (ut short_t1 + 100), (ut short_t2 + 100), short_result.
  repeat apply conj; vm_compute; reflexivity.
Qed.

(** A wide window with negative values at both ends can succeed too: the
    bisection finds the sign change between the left end and the midpoint of
    [hump] and the search converges on the rising crossing at day 4. *)
Example Search_hump_success :
  exists f1 f2 r,
    hump short_t1 = func_ok f1 /\ (f1 <? 0.0) = true
    /\ hump hump_t2 = func_ok f2 /\ (f2 <? 0.0) = true
    /\ Astronomy_Search 21 hump short_t1 hump_t2 1.0 = Some r
    /\ search_status r = ASTRO_SUCCESS
    /\ (3.99999 <? ut (search_time r)) = true
    /\ (ut (search_time r) <? 4.00001) = true.
Proof.
  exists (1 - (ut short_t1 - 5) * (ut short_t1 - 5)),
         (1 - (ut hump_t2 - 5) * (ut hump_t2 - 5)),
         hump_result.
  repeat apply conj; vm_compute; reflexivity.
Qed.

(** The cap is reached: on a step function with a tolerance of a
    microsecond the engine halves the window 20 times and the 21st pass
    reports [ASTRO_NO_CONVERGE]; fuel for 20 passes is not enough to see it
    return. *)
Example Search_no_converge :
  (exists s, Search_steps 20 step_up (tolerance_days 1e-6)
               (Search_init short_t1 hump_t2 (-1) 1) = Some s
             /\ st_iter s = 20%Z)
  /\ Astronomy_Search 21 step_up short_t1 hump_t2 1e-6
     = Some (SearchError ASTRO_NO_CONVERGE)
  /\ Astronomy_Search 20 step_up short_t1 hump_t2 1e-6 = None.
Proof.
  repeat apply conj.
  - destruct (Search_steps 20 step_up (tolerance_days 1e-6)
                (Search_init short_t1 hump_t2 (-1) 1)) as [s|] eqn:E.
    + exists s. split; [reflexivity|].
      apply Search_steps_count in E. destruct E as [E _]. exact E.
    + vm_compute in E. discriminate.
  - vm_compute. reflexivity.
  - vm_compute. reflexivity.
Qed.

(** ** The orchestrators *)

Section OrchestratorProperties.

Variable Astronomy_MoonPhase : astro_time_t -> astro_angle_result_t.
Variable CalcMoon_dist : float -> float.
Variable sidereal_time : astro_time_t -> float.
Variable Astronomy_Equator :
  astro_body_t -> astro_time_t -> astro_observer_t ->
  astro_equator_date_t -> astro_aberration_t -> astro_equatorial_t.
Variable Astronomy_Horizon :
  astro_time_t -> astro_observer_t -> float -> float ->
  astro_refraction_t -> astro_horizon_t.

Lemma apsis_kind_eqb_eq (a b : astro_apsis_kind_t) :
  apsis_kind_eqb a b = true <-> a = b.
Proof. destruct a, b; simpl; split; congruence. Qed.

(** *** Moon quarter *)

(** C8.  When the search for the quarter after [mq], started 6 days after
    [mq_time mq], succeeds with quarter [q'], then [Astronomy_NextMoonQuarter]
    returns that event if [q'] is [(1 + mq_quarter mq) % 4] and the error
    [ASTRO_WRONG_MOON_QUARTER] if it is not; so a success has the expected
    quarter, which for a quarter index from 0 to 3 is [(q + 1) mod 4]; and
    the error status differs from the statuses of a search that did not
    converge or did not find a crossing. *)
Theorem NextMoonQuarter_expected (fuel : nat) (mq found : astro_moon_quarter_t) :
  Astronomy_SearchMoonQuarter Astronomy_MoonPhase fuel
    (Astronomy_AddDays (mq_time mq) 6.0) = Some found ->
  mq_status found = ASTRO_SUCCESS ->
  let expected := c_rem (1 + mq_quarter mq) 4 in
  (mq_quarter found = expected ->
     Astronomy_NextMoonQuarter Astronomy_MoonPhase fuel mq = Some found)
  /\ (mq_quarter found <> expected ->
     Astronomy_NextMoonQuarter Astronomy_MoonPhase fuel mq
     = Some (MoonQuarterError ASTRO_WRONG_MOON_QUARTER))
  /\ (forall next, Astronomy_NextMoonQuarter Astronomy_MoonPhase fuel mq = Some next ->
        mq_status next = ASTRO_SUCCESS -> mq_quarter next = expected)
  /\ ((0 <= mq_quarter mq <= 3)%Z -> expected = ((mq_quarter mq + 1) mod 4)%Z)
  /\ ASTRO_WRONG_MOON_QUARTER <> ASTRO_NO_CONVERGE
  /\ ASTRO_WRONG_MOON_QUARTER <> ASTRO_SEARCH_FAILURE.
Proof.
  intros Hfound Hok expected. unfold Astronomy_NextMoonQuarter.
  rewrite Hfound, Hok. cbn [status_eqb andb]. fold expected.
  repeat split; try discriminate.
  - intros ->. now rewrite Z.eqb_refl.
  - intros Hne. apply Z.eqb_neq in Hne. now rewrite Hne.
  - intros next. destruct (mq_quarter found =? expected)%Z eqn:E; cbn [negb].
    + intros H _. inversion H; subst. now apply Z.eqb_eq.
    + intros H Hs. inversion H; subst. discriminate.
  - intros Hq. unfold expected, c_rem.
    rewrite Z.rem_mod_nonneg by lia. f_equal. lia.
Qed.

(** *** Moon phase *)


(** *** Lunar apsis *)

(** C7.  For an apsis [apsis] with status success and kind pericenter or
    apocenter: when the search started 11 days after it succeeds with an
    apsis [found], [Astronomy_NextLunarApsis] returns [found] if its kind is
    the opposite one and the error [ASTRO_INTERNAL_ERROR] if it is the same;
    so every success has the opposite kind, and two successive successes
    never have the same kind. *)
Theorem NextLunarApsis_alternates (fuel : nat) (apsis found : astro_apsis_t) :
  apsis_status apsis = ASTRO_SUCCESS ->
  apsis_kind apsis <> APSIS_INVALID ->
  Astronomy_SearchLunarApsis CalcMoon_dist fuel
    (Astronomy_AddDays (apsis_time apsis) skip) = Some found ->
  apsis_status found = ASTRO_SUCCESS ->
  (apsis_kind found = opposite_kind (apsis_kind apsis) ->
     Astronomy_NextLunarApsis CalcMoon_dist fuel apsis = Some found)
  /\ (apsis_kind found <> opposite_kind (apsis_kind apsis) ->
     Astronomy_NextLunarApsis CalcMoon_dist fuel apsis
     = Some (ApsisError ASTRO_INTERNAL_ERROR))
  /\ (forall next, Astronomy_NextLunarApsis CalcMoon_dist fuel apsis = Some next ->
        apsis_status next = ASTRO_SUCCESS ->
        apsis_kind next = opposite_kind (apsis_kind apsis)
        /\ apsis_kind next <> apsis_kind apsis).
Proof.
  intros Hok Hvalid Hfound Hfok. unfold Astronomy_NextLunarApsis.
  rewrite Hok, Hfound, Hfok. cbn [status_eqb negb].
  destruct (apsis_kind apsis) eqn:Ek; [| |contradiction]; cbn [opposite_kind].
  - repeat split.
    + intros ->. reflexivity.
    + intros Hne. destruct (apsis_kind found); [reflexivity|contradiction|reflexivity].
    + destruct (apsis_kind found) eqn:Ef; cbn [apsis_kind_eqb negb] in H;
        inversion H; subst; try discriminate; congruence.
    + destruct (apsis_kind found) eqn:Ef; cbn [apsis_kind_eqb negb] in H;
        inversion H; subst; try discriminate; congruence.
  - repeat split.
    + intros ->. reflexivity.
    + intros Hne. destruct (apsis_kind found); [contradiction|reflexivity|reflexivity].
    + destruct (apsis_kind found) eqn:Ef; cbn [apsis_kind_eqb negb] in H;
        inversion H; subst; try discriminate; congruence.
    + destruct (apsis_kind found) eqn:Ef; cbn [apsis_kind_eqb negb] in H;
        inversion H; subst; try discriminate; congruence.
Qed.

(** A success of [Astronomy_NextLunarApsis] has the kind opposite to its
    argument's, whatever else is known. *)
Lemma NextLunarApsis_success_kind (fuel : nat) (apsis next : astro_apsis_t) :
  Astronomy_NextLunarApsis CalcMoon_dist fuel apsis = Some next ->
  apsis_status next = ASTRO_SUCCESS ->
  apsis_kind apsis <> APSIS_INVALID
  /\ apsis_kind next = opposite_kind (apsis_kind apsis)
  /\ apsis_kind next <> apsis_kind apsis.
Proof.
  unfold Astronomy_NextLunarApsis.
  destruct (status_eqb (apsis_status apsis) ASTRO_SUCCESS); cbn [negb].
  2:{ intros H Hs. inversion H; subst. discriminate. }
  destruct (Astronomy_SearchLunarApsis _ _ _) as [found|]; [|discriminate].
  destruct (status_eqb (apsis_status found) ASTRO_SUCCESS) eqn:Ef.
  2:{ intros H Hs. inversion H; subst. apply status_eqb_neq in Ef. contradiction. }
  destruct (apsis_kind apsis); destruct (apsis_kind found) eqn:Ek;
    cbn [apsis_kind_eqb negb opposite_kind]; intros H Hs; inversion H; subst;
    try discriminate; rewrite Ek; repeat split; try discriminate; reflexivity.
Qed.

(** Three successive apsides: the kinds alternate. *)
Lemma NextLunarApsis_never_repeats (fuel fuel' : nat) (a b c : astro_apsis_t) :
  Astronomy_NextLunarApsis CalcMoon_dist fuel a = Some b ->
  apsis_status b = ASTRO_SUCCESS ->
  Astronomy_NextLunarApsis CalcMoon_dist fuel' b = Some c ->
  apsis_status c = ASTRO_SUCCESS ->
  apsis_kind b <> apsis_kind a /\ apsis_kind c <> apsis_kind b
  /\ apsis_kind c = apsis_kind a.
Proof.
  intros Hab Hb Hbc Hc.
  destruct (NextLunarApsis_success_kind _ _ _ Hab Hb) as (Ha & Eb & Nb).
  destruct (NextLunarApsis_success_kind _ _ _ Hbc Hc) as (_ & Ec & Nc).
  repeat split; try assumption.
  rewrite Ec, Eb. destruct (apsis_kind a); reflexivity.
Qed.

(** The [for] condition [iter * increment < 2.0 * MEAN_SYNODIC_MONTH] holds
    for [iter] from 0 to 11 and fails for 12. *)
Lemma apsis_scan_condition (i : Z) :
  (0 <= i <= 11)%Z ->
  (double_of_int i * increment <? 2.0 * MEAN_SYNODIC_MONTH) = true.
Proof.
  intros H. rewrite <- (Z2Nat.id i) by lia.
  assert (Hn : (Z.to_nat i <= 11)%nat) by lia.
  generalize dependent (Z.to_nat i). intros n Hn.
  do 12 (destruct n as [|n]; [vm_compute; reflexivity|]). lia.
Qed.

Lemma apsis_scan_condition_end :
  (double_of_int 12 * increment <? 2.0 * MEAN_SYNODIC_MONTH) = false.
Proof. vm_compute. reflexivity. Qed.


(** A bracketed window is handed to the engine, which returns. *)
Lemma Apsis_bracketed_returns (fuel : nat) (t1 t2 : astro_time_t) (m1 m2 : float) :
  (21 <= fuel)%nat ->
  exists r, Apsis_bracketed CalcMoon_dist fuel t1 t2 m1 m2 = Some r.
Proof.
  intros Hfuel. unfold Apsis_bracketed.
  destruct ((m1 <? 0.0) || fgt m2 0.0).
  - destruct (Astronomy_Search_returns fuel
                (fun t => Some (distance_slope CalcMoon_dist 1 t)) t1 t2 1.0) as [sr Hsr];
      [discriminate | exact Hfuel |].
    rewrite Hsr. destruct (negb _); eauto.
  - destruct (fgt m1 0.0 || (m2 <? 0.0)); [|eauto].
    destruct (Astronomy_Search_returns fuel
                (fun t => Some (distance_slope CalcMoon_dist (-1) t)) t1 t2 1.0) as [sr Hsr];
      [discriminate | exact Hfuel |].
    rewrite Hsr. destruct (negb _); eauto.
Qed.

(** A successful apsis is the answer of the engine on the bracketed window:
    for the slope when the distance stops falling (pericenter), for the
    negated slope when it stops rising (apocenter). *)
Lemma Apsis_bracketed_success (fuel : nat) (t1 t2 : astro_time_t) (m1 m2 : float)
    (r : astro_apsis_t) :
  Apsis_bracketed CalcMoon_dist fuel t1 t2 m1 m2 = Some r ->
  apsis_status r = ASTRO_SUCCESS ->
  exists direction sr,
    Astronomy_Search fuel (fun t => Some (distance_slope CalcMoon_dist direction t))
                     t1 t2 1.0 = Some sr
    /\ search_status sr = ASTRO_SUCCESS
    /\ apsis_time r = search_time sr
    /\ apsis_dist_au r = MoonDistance CalcMoon_dist (search_time sr)
    /\ ((direction = 1%Z /\ apsis_kind r = APSIS_PERICENTER
         /\ (m1 <? 0.0) || fgt m2 0.0 = true)
        \/ (direction = (-1)%Z /\ apsis_kind r = APSIS_APOCENTER
            /\ (m1 <? 0.0) || fgt m2 0.0 = false
            /\ fgt m1 0.0 || (m2 <? 0.0) = true)).
Proof.
  unfold Apsis_bracketed.
  destruct ((m1 <? 0.0) || fgt m2 0.0) eqn:Eperi.
  - destruct (Astronomy_Search _ _ _ _ _) as [sr|] eqn:Hsr; [|discriminate].
    destruct (status_eqb (search_status sr) ASTRO_SUCCESS) eqn:Es; cbn [negb].
    + intros H _. inversion H; subst. exists 1%Z, sr. cbn.
      apply status_eqb_eq in Es. repeat split; auto.
    + intros H Hs. inversion H; subst. cbn in Hs.
      apply status_eqb_neq in Es. contradiction.
  - destruct (fgt m1 0.0 || (m2 <? 0.0)) eqn:Eapo.
    + destruct (Astronomy_Search _ _ _ _ _) as [sr|] eqn:Hsr; [|discriminate].
      destruct (status_eqb (search_status sr) ASTRO_SUCCESS) eqn:Es; cbn [negb].
      * intros H _. inversion H; subst. exists (-1)%Z, sr. cbn.
        apply status_eqb_eq in Es. repeat split; auto.
      * intros H Hs. inversion H; subst. cbn in Hs.
        apply status_eqb_neq in Es. contradiction.
    + intros H Hs. inversion H; subst. discriminate.
Qed.

(** The scan is bounded by its 12 windows. *)
Lemma Apsis_loop_returns (loops : nat) :
  forall (fuel : nat) (s : apsis_state),
    (21 <= fuel)%nat ->
    (0 <= ap_iter s <= 12)%Z ->
    (12 - ap_iter s < Z.of_nat loops)%Z ->
    exists r, Apsis_loop CalcMoon_dist fuel loops s = Some r.
Proof.
  induction loops as [|loops IH]; intros fuel s Hfuel Hi Hloops; [lia|].
  cbn [Apsis_loop]. unfold Apsis_body.
  destruct (Z.eq_dec (ap_iter s) 12) as [E12|N12].
  - rewrite E12, apsis_scan_condition_end. eauto.
  - rewrite apsis_scan_condition by lia.
    cbn [distance_slope func_status status_eqb negb].
    destruct (_ <=? 0.0).
    + match goal with
      | |- context [Apsis_bracketed CalcMoon_dist fuel ?a ?b ?c ?d] =>
          destruct (Apsis_bracketed_returns fuel a b c d Hfuel) as [r Hr]; rewrite Hr
      end. eauto.
    + apply IH; cbn [ap_iter]; [exact Hfuel | lia | lia].
Qed.


(** The scan returns with fuel for 21 passes. *)
Lemma SearchLunarApsis_returns (fuel : nat) (startTime : astro_time_t) :
  (21 <= fuel)%nat ->
  exists r, Astronomy_SearchLunarApsis CalcMoon_dist fuel startTime = Some r.
Proof.
  intros Hfuel. unfold Astronomy_SearchLunarApsis.
  cbn [distance_slope func_status status_eqb negb].
  apply Apsis_loop_returns; cbn [ap_iter]; lia.
Qed.


(** *** Hour angle and rise/set *)

(** The hour angle loop returns in the pass in which its exit test holds,
    and only then. *)
Lemma HourAngle_body_exit (body : astro_body_t) (observer : astro_observer_t)
    (hourAngle : float) (s : hour_angle_state) (r : astro_hour_angle_t) :
  HourAngle_body sidereal_time Astronomy_Equator Astronomy_Horizon
                 body observer hourAngle s = Return r
  <-> HourAngle_exit sidereal_time Astronomy_Equator Astronomy_Horizon
                     body observer hourAngle s r.
Proof.
  unfold HourAngle_body, HourAngle_exit, hour_angle_residual. cbv zeta.
  destruct (status_eqb (equ_status (Astronomy_Equator body (hs_time s) observer
                                      EQUATOR_OF_DATE ABERRATION)) ASTRO_SUCCESS) eqn:Es;
    cbn [negb].
  - apply status_eqb_eq in Es. split.
    + intros H. right. split; [exact Es|].
      destruct (abs _ * 3600.0 <? 0.1); [|discriminate].
      inversion H; subst. split; reflexivity.
    + intros [[Hne _]|(_ & Hres & ->)]; [contradiction|].
      rewrite Hres. reflexivity.
  - apply status_eqb_neq in Es. split.
    + intros H. inversion H; subst. left. split; [exact Es|reflexivity].
    + intros [[_ ->]|(Hok & _)]; [reflexivity|contradiction].
Qed.

Lemma HourAngle_loop_iff (fuel : nat) :
  forall (body : astro_body_t) (observer : astro_observer_t) (hourAngle : float)
         (s : hour_angle_state) (r : astro_hour_angle_t),
    HourAngle_loop sidereal_time Astronomy_Equator Astronomy_Horizon
                   fuel body observer hourAngle s = Some r
    <-> exists n s',
          (n < fuel)%nat
          /\ HourAngle_steps sidereal_time Astronomy_Equator Astronomy_Horizon
                             n body observer hourAngle s = Some s'
          /\ HourAngle_body sidereal_time Astronomy_Equator Astronomy_Horizon
                            body observer hourAngle s' = Return r.
Proof.
  induction fuel as [|fuel IH]; intros body observer hourAngle s r.
  - split; [discriminate|]. intros (n & s' & Hn & _). lia.
  - cbn [HourAngle_loop]. split.
    + destruct (HourAngle_body _ _ _ body observer hourAngle s) as [s1|r1] eqn:Hb.
      * intros H. apply IH in H. destruct H as (n & s' & Hn & Hs & Hr).
        exists (S n), s'. repeat split; [lia| |exact Hr].
        cbn [HourAngle_steps]. now rewrite Hb.
      * intros H. inversion H; subst. exists O, s. repeat split; [lia|exact Hb].
    + intros (n & s' & Hn & Hs & Hr). destruct n as [|n].
      * inversion Hs; subst. now rewrite Hr.
      * cbn [HourAngle_steps] in Hs.
        destruct (HourAngle_body _ _ _ body observer hourAngle s) as [s1|r1] eqn:Hb;
          [|discriminate].
        apply IH. exists n, s'. repeat split; [lia|exact Hs|exact Hr].
Qed.

Lemma RiseSet_loop_iff (loops : nat) :
  forall (fuel : nat) (context : context_peak_altitude_t) (ha_before ha_after : float)
         (time_start : astro_time_t) (limitDays : float) (s : rise_set_state)
         (r : astro_search_result_t),
    RiseSet_loop sidereal_time Astronomy_Equator Astronomy_Horizon
                 fuel loops context ha_before ha_after time_start limitDays s = Some r
    <-> exists n s',
          (n < loops)%nat
          /\ RiseSet_steps sidereal_time Astronomy_Equator Astronomy_Horizon
                           fuel n context ha_before ha_after time_start limitDays s
             = Some s'
          /\ RiseSet_body sidereal_time Astronomy_Equator Astronomy_Horizon
                          fuel context ha_before ha_after time_start limitDays s'
             = Some (Return r).
Proof.
  induction loops as [|loops IH]; intros fuel context hb ha ts lim s r.
  - split; [discriminate|]. intros (n & s' & Hn & _). lia.
  - cbn [RiseSet_loop]. split.
    + destruct (RiseSet_body _ _ _ fuel context hb ha ts lim s) as [[s1|r1]|] eqn:Hb;
        [| |discriminate].
      * intros H. apply IH in H. destruct H as (n & s' & Hn & Hs & Hr).
        exists (S n), s'. repeat split; [lia| |exact Hr].
        cbn [RiseSet_steps]. now rewrite Hb.
      * intros H. inversion H; subst. exists O, s. repeat split; [lia|exact Hb].
    + intros (n & s' & Hn & Hs & Hr). destruct n as [|n].
      * inversion Hs; subst. now rewrite Hr.
      * cbn [RiseSet_steps] in Hs.
        destruct (RiseSet_body _ _ _ fuel context hb ha ts lim s) as [[s1|r1]|] eqn:Hb;
          try discriminate.
        apply IH. exists n, s'. repeat split; [lia|exact Hs|exact Hr].
Qed.

(** What the second half of a retry returns, when it returns. *)
Lemma RiseSet_advance_exit (fuel : nat) (context : context_peak_altitude_t)
    (ha_before ha_after : float) (time_start : astro_time_t) (limitDays : float)
    (s : rise_set_state) (r : astro_search_result_t) :
  RiseSet_advance sidereal_time Astronomy_Equator Astronomy_Horizon
                  fuel context ha_before ha_after time_start limitDays s
  = Some (Return r) ->
  (exists status, status <> ASTRO_SUCCESS /\ r = SearchError status)
  \/ (exists evt_before,
        Astronomy_SearchHourAngle sidereal_time Astronomy_Equator Astronomy_Horizon
          fuel (ctx_body context) (ctx_observer context) ha_before (rs_time_after s)
        = Some evt_before
        /\ fge (ut (ha_time evt_before)) (ut time_start + limitDays) = true
        /\ r = SearchError ASTRO_SEARCH_FAILURE).
Proof.
  unfold RiseSet_advance, CHECK_EVENT, CALLFUNC.
  destruct (Astronomy_SearchHourAngle _ _ _ fuel _ _ ha_before _) as [eb|] eqn:Eb;
    [|discriminate].
  destruct (status_eqb (ha_status eb) ASTRO_SUCCESS) eqn:Sb; cbn [negb].
  2:{ intros H. inversion H; subst. left. exists (ha_status eb).
      apply status_eqb_neq in Sb. now split. }
  destruct (Astronomy_SearchHourAngle _ _ _ fuel _ _ ha_after _) as [ea|] eqn:Ea;
    [|discriminate].
  destruct (status_eqb (ha_status ea) ASTRO_SUCCESS) eqn:Sa; cbn [negb].
  2:{ intros H. inversion H; subst. left. exists (ha_status ea).
      apply status_eqb_neq in Sa. now split. }
  destruct (fge (ut (ha_time eb)) (ut time_start + limitDays)) eqn:Elim.
  { intros H. inversion H; subst. right. exists eb. repeat split; assumption. }
  destruct (status_eqb (func_status (peak_altitude _ _ context (ha_time eb))) ASTRO_SUCCESS)
    eqn:S1.
  2:{ intros H. inversion H; subst. left. eexists. apply status_eqb_neq in S1.
      split; [exact S1|reflexivity]. }
  destruct (status_eqb (func_status (peak_altitude _ _ context (ha_time ea))) ASTRO_SUCCESS)
    eqn:S2.
  2:{ intros H. inversion H; subst. left. eexists. apply status_eqb_neq in S2.
      split; [exact S2|reflexivity]. }
  discriminate.
Qed.

Lemma RiseSet_body_exit (fuel : nat) (context : context_peak_altitude_t)
    (ha_before ha_after : float) (time_start : astro_time_t) (limitDays : float)
    (s : rise_set_state) (r : astro_search_result_t) :
  RiseSet_body sidereal_time Astronomy_Equator Astronomy_Horizon
               fuel context ha_before ha_after time_start limitDays s
  = Some (Return r) ->
  RiseSet_exit sidereal_time Astronomy_Equator Astronomy_Horizon
               fuel context ha_before time_start limitDays s r.
Proof.
  unfold RiseSet_body, RiseSet_exit.
  destruct ((rs_alt_before s <=? 0.0) && fgt (rs_alt_after s) 0.0) eqn:Ebr.
  - destruct (Astronomy_Search _ _ _ _ _) as [sr|] eqn:Hsr; [|discriminate].
    destruct (status_eqb (search_status sr) ASTRO_SEARCH_FAILURE) eqn:Es; cbn [negb].
    + intros H. right. eapply RiseSet_advance_exit. exact H.
    + intros H. inversion H; subst. left. apply status_eqb_neq in Es.
      repeat split; auto.
  - intros H. right. eapply RiseSet_advance_exit. exact H.
Qed.

(** C5, amended.  The engine and the lunar apsis scan are capped and return
    with fuel for 21 passes.  The hour angle loop and the rise/set retry loop
    have no cap: each returns exactly when one of its passes meets the exit
    test, whatever number of passes that takes. *)
Theorem search_loops_return (fuel : nat) :
  (forall func t1 t2 dt_tolerance_seconds,
      (forall t, func t <> None) -> (21 <= fuel)%nat ->
      exists r, Astronomy_Search fuel func t1 t2 dt_tolerance_seconds = Some r)
  /\ (forall startTime,
      (21 <= fuel)%nat ->
      exists r, Astronomy_SearchLunarApsis CalcMoon_dist fuel startTime = Some r)
  /\ (forall body observer hourAngle dateStart r,
      Astronomy_SearchHourAngle sidereal_time Astronomy_Equator Astronomy_Horizon
        fuel body observer hourAngle dateStart = Some r
      <-> exists n s,
            (n < fuel)%nat
            /\ HourAngle_steps sidereal_time Astronomy_Equator Astronomy_Horizon
                 n body observer hourAngle (mk_hour_angle_state 0 dateStart) = Some s
            /\ HourAngle_exit sidereal_time Astronomy_Equator Astronomy_Horizon
                 body observer hourAngle s r)
  /\ (forall loops context ha_before ha_after time_start limitDays s r,
      RiseSet_loop sidereal_time Astronomy_Equator Astronomy_Horizon
        fuel loops context ha_before ha_after time_start limitDays s = Some r
      <-> exists n s',
            (n < loops)%nat
            /\ RiseSet_steps sidereal_time Astronomy_Equator Astronomy_Horizon
                 fuel n context ha_before ha_after time_start limitDays s = Some s'
            /\ RiseSet_body sidereal_time Astronomy_Equator Astronomy_Horizon
                 fuel context ha_before ha_after time_start limitDays s'
               = Some (Return r)
            /\ RiseSet_exit sidereal_time Astronomy_Equator Astronomy_Horizon
                 fuel context ha_before time_start limitDays s' r).
Proof.
  split; [|split; [|split]].
  - intros func t1 t2 tol Hf Hfuel. now apply Astronomy_Search_returns.
  - intros startTime Hfuel. now apply SearchLunarApsis_returns.
  - intros body observer hourAngle dateStart r. unfold Astronomy_SearchHourAngle.
    rewrite HourAngle_loop_iff. split.
    + intros (n & s & Hn & Hs & Hr). exists n, s. repeat split; try assumption.
      now apply HourAngle_body_exit.
    + intros (n & s & Hn & Hs & Hr). exists n, s. repeat split; try assumption.
      now apply HourAngle_body_exit.
  - intros loops context hb ha ts lim s r. rewrite RiseSet_loop_iff. split.
    + intros (n & s' & Hn & Hs & Hr). exists n, s'. repeat split; try assumption.
      now apply RiseSet_body_exit in Hr.
    + intros (n & s' & Hn & Hs & Hr & _). exists n, s'. repeat split; assumption.
Qed.

End OrchestratorProperties.

(** ** The orchestrators on the stand-in ephemeris *)

(** C8 for the new moon of day zero. *)
Lemma NextMoonQuarter_expected_witness :
  let expected := c_rem (1 + mq_quarter new_moon) 4 in
  (mq_quarter quarter_after_new_moon = expected ->
     Astronomy_NextMoonQuarter mean_MoonPhase 21 new_moon = Some quarter_after_new_moon)
  /\ (mq_quarter quarter_after_new_moon <> expected ->
     Astronomy_NextMoonQuarter mean_MoonPhase 21 new_moon
     = Some (MoonQuarterError ASTRO_WRONG_MOON_QUARTER))
  /\ (forall next, Astronomy_NextMoonQuarter mean_MoonPhase 21 new_moon = Some next ->
        mq_status next = ASTRO_SUCCESS -> mq_quarter next = expected)
  /\ ((0 <= mq_quarter new_moon <= 3)%Z -> expected = ((mq_quarter new_moon + 1) mod 4)%Z)
  /\ ASTRO_WRONG_MOON_QUARTER <> ASTRO_NO_CONVERGE
  /\ ASTRO_WRONG_MOON_QUARTER <> ASTRO_SEARCH_FAILURE.
Proof.
  apply (NextMoonQuarter_expected mean_MoonPhase 21 new_moon quarter_after_new_moon).
  - vm_compute. reflexivity.
  - vm_compute. reflexivity.
Defined.

(** After the new moon of day zero comes the first quarter, 7.38 days
    later. *)
Example NextMoonQuarter_first_quarter :
  exists next,
    Astronomy_NextMoonQuarter mean_MoonPhase 21 new_moon = Some next
    /\ mq_status next = ASTRO_SUCCESS /\ mq_quarter next = 1%Z
    /\ (7.38 <? ut (mq_time next)) = true /\ (ut (mq_time next) <? 7.39) = true.
Proof.
  exists quarter_after_new_moon. repeat apply conj; vm_compute; reflexivity.
Qed.

(** Told that day zero was a full moon, the call reports the wrong
    quarter. *)
Example NextMoonQuarter_wrong_quarter :
  Astronomy_NextMoonQuarter mean_MoonPhase 21 (mk_moon_quarter ASTRO_SUCCESS 2 day_zero)
  = Some (MoonQuarterError ASTRO_WRONG_MOON_QUARTER).
Proof. vm_compute. reflexivity. Qed.



(** With a limit of 6 days the start of the window is beyond the limit and
    the failure is eager. *)
Example SearchMoonPhase_eager_failure :
  SearchMoonPhase_with mean_MoonPhase silent_engine 21 90 day_zero 6.0
  = Some (SearchError ASTRO_NO_MOON_QUARTER).
Proof. vm_compute. reflexivity. Qed.

(** C7 for the first two apsides after day zero. *)
Lemma NextLunarApsis_alternates_witness :
  (apsis_kind second_apsis = opposite_kind (apsis_kind first_apsis) ->
     Astronomy_NextLunarApsis month_Moon_dist 21 first_apsis = Some second_apsis)
  /\ (apsis_kind second_apsis <> opposite_kind (apsis_kind first_apsis) ->
     Astronomy_NextLunarApsis month_Moon_dist 21 first_apsis
     = Some (ApsisError ASTRO_INTERNAL_ERROR))
  /\ (forall next, Astronomy_NextLunarApsis month_Moon_dist 21 first_apsis = Some next ->
        apsis_status next = ASTRO_SUCCESS ->
        apsis_kind next = opposite_kind (apsis_kind first_apsis)
        /\ apsis_kind next <> apsis_kind first_apsis).
Proof.
  apply (NextLunarApsis_alternates month_Moon_dist 21 first_apsis second_apsis).
  - vm_compute. reflexivity.
  - vm_compute. discriminate.
  - vm_compute. reflexivity.
  - vm_compute. reflexivity.
Defined.

(** The stand-in Moon is farthest 6.89 days after day zero and nearest
    13.775 days later. *)
Example SearchLunarApsis_month :
  apsis_status first_apsis = ASTRO_SUCCESS
  /\ apsis_kind first_apsis = APSIS_APOCENTER
  /\ (6.88 <? ut (apsis_time first_apsis)) = true
  /\ (ut (apsis_time first_apsis) <? 6.89) = true
  /\ Astronomy_NextLunarApsis month_Moon_dist 21 first_apsis = Some second_apsis
  /\ apsis_kind second_apsis = APSIS_PERICENTER
  /\ (20.66 <? ut (apsis_time second_apsis)) = true
  /\ (ut (apsis_time second_apsis) <? 20.67) = true.
Proof. repeat apply conj; vm_compute; reflexivity. Qed.


(** Without a change of slope in 60 days the scan ends in the internal
    error. *)
Example SearchLunarApsis_no_change :
  Astronomy_SearchLunarApsis still_Moon_dist 21 day_zero
  = Some (ApsisError ASTRO_INTERNAL_ERROR).
Proof. vm_compute. reflexivity. Qed.

(** *** Loops without a cap *)

(** At [far_future] the correction of at most one day is absorbed by the
    addition: the pass leaves the time where it was. *)
Lemma HourAngle_body_far_future (hourAngle : float) (i : Z) :
  hourAngle = 0 \/ hourAngle = 12.0 ->
  HourAngle_body mean_sidereal_time fixed_Equator equatorial_Horizon
                 BODY_SUN greenwich hourAngle (mk_hour_angle_state i far_future)
  = Continue (mk_hour_angle_state (i + 1) far_future).
Proof.
  intros [-> | ->]; unfold HourAngle_body; cbn [hs_iter hs_time];
    destruct (i + 1 =? 1)%Z; vm_compute; reflexivity.
Qed.

Lemma HourAngle_loop_far_future (fuel : nat) :
  forall (hourAngle : float) (i : Z),
    hourAngle = 0 \/ hourAngle = 12.0 ->
    HourAngle_loop mean_sidereal_time fixed_Equator equatorial_Horizon
                   fuel BODY_SUN greenwich hourAngle (mk_hour_angle_state i far_future)
    = None.
Proof.
  induction fuel as [|fuel IH]; intros hourAngle i H; [reflexivity|].
  cbn [HourAngle_loop]. rewrite HourAngle_body_far_future by exact H.
  now apply IH.
Qed.

(** A time that is not a number stays one. *)
Lemma HourAngle_loop_nan (fuel : nat) :
  forall i : Z,
    HourAngle_loop mean_sidereal_time fixed_Equator equatorial_Horizon
                   fuel BODY_SUN greenwich 0 (mk_hour_angle_state i NAN_time)
    = None.
Proof.
  induction fuel as [|fuel IH]; intros i; [reflexivity|].
  cbn [HourAngle_loop].
  replace (HourAngle_body mean_sidereal_time fixed_Equator equatorial_Horizon
             BODY_SUN greenwich 0 (mk_hour_angle_state i NAN_time))
    with (@Continue hour_angle_state astro_hour_angle_t
            (mk_hour_angle_state (i + 1) NAN_time)).
  - apply IH.
  - unfold HourAngle_body; cbn [hs_iter hs_time];
      destruct (i + 1 =? 1)%Z; vm_compute; reflexivity.
Qed.

(** An offset of magnitude [1e20] absorbs the addition of 360 degrees. *)
Lemma LongitudeOffset_raise_huge (fuel : nat) :
  LongitudeOffset_raise fuel (-1e20) = None.
Proof.
  induction fuel as [|fuel IH]; [reflexivity|].
  cbn [LongitudeOffset_raise].
  change (-1e20 <=? -180.0) with true. cbv iota.
  change (-1e20 + 360.0) with (-1e20). exact IH.
Qed.

(** C5 as the specification states it fails: no amount of fuel makes the
    hour angle search return from [far_future], a finite time, or from a time
    that is not a number; the rise search from [far_future] inherits this;
    and the moon phase search for the target longitude [1e20] never leaves
    the normalization loop of [LongitudeOffset]. *)
Lemma unbounded_loops_do_not_return :
  (forall fuel,
      Astronomy_SearchHourAngle mean_sidereal_time fixed_Equator equatorial_Horizon
        fuel BODY_SUN greenwich 0 far_future = None)
  /\ (forall fuel,
      Astronomy_SearchHourAngle mean_sidereal_time fixed_Equator equatorial_Horizon
        fuel BODY_SUN greenwich 0 NAN_time = None)
  /\ (forall fuel,
      Astronomy_SearchRiseSet mean_sidereal_time fixed_Equator equatorial_Horizon
        fuel BODY_SUN greenwich DIRECTION_RISE far_future 1 = None)
  /\ (forall fuel,
      Astronomy_SearchMoonPhase mean_MoonPhase fuel 1e20 day_zero 30 = None).
Proof.
  repeat split; intros fuel.
  - apply HourAngle_loop_far_future. now left.
  - apply HourAngle_loop_nan.
  - unfold Astronomy_SearchRiseSet. cbn [Z.eqb DIRECTION_RISE Pos.eqb].
    unfold CALLFUNC at 1.
    change (status_eqb (func_status (peak_altitude fixed_Equator equatorial_Horizon
              (mk_context_peak_altitude BODY_SUN DIRECTION_RISE greenwich
                 (body_radius_au BODY_SUN)) far_future)) ASTRO_SUCCESS) with true.
    cbv iota.
    destruct (fgt _ 0.0); unfold CHECK_EVENT, Astronomy_SearchHourAngle;
      rewrite HourAngle_loop_far_future; auto.
  - unfold Astronomy_SearchMoonPhase, SearchMoonPhase_with, moon_offset.
    change (status_eqb (angle_status (mean_MoonPhase day_zero)) ASTRO_SUCCESS) with true.
    cbn [negb]. unfold LongitudeOffset.
    change (angle (mean_MoonPhase day_zero) - 1e20) with (-1e20).
    now rewrite LongitudeOffset_raise_huge.
Qed.

(** From day zero the hour angle search converges and the rise search
    finds the rising 0.467 days later. *)
Example SearchRiseSet_day_zero :
  exists evt r,
    Astronomy_SearchHourAngle mean_sidereal_time fixed_Equator equatorial_Horizon
      3 BODY_SUN greenwich 0 day_zero = Some evt
    /\ ha_status evt = ASTRO_SUCCESS
    /\ Astronomy_SearchRiseSet mean_sidereal_time fixed_Equator equatorial_Horizon
         21 BODY_SUN greenwich DIRECTION_RISE day_zero 2 = Some r
    /\ search_status r = ASTRO_SUCCESS
    /\ (0.467 <? ut (search_time r)) = true /\ (ut (search_time r) <? 0.468) = true.
Proof.
  exists first_culmination, first_rise. repeat apply conj; vm_compute; reflexivity.
Qed.
(** * More properties *)

(** ** Delta-T *)

(** X1.  [DeltaT] never reaches its call of [FatalError]: for every argument,
    NaN and the infinities included, it answers from the first row, from the
    last row, or from the rows that the binary search finds. *)
Theorem DeltaT_never_fatal (mjd : float) :
  ((mjd <=? DT_mjd 0) = true /\ DeltaT mjd = DT_dt 0)
  \/ ((mjd <=? DT_mjd 0) = false /\ fge mjd (DT_mjd (DT_LENGTH - 1)) = true
      /\ DeltaT mjd = DT_dt (DT_LENGTH - 1))
  \/ ((mjd <=? DT_mjd 0) = false /\ fge mjd (DT_mjd (DT_LENGTH - 1)) = false
      /\ DeltaT_search (length DT) mjd 0 (DT_LENGTH - 2) = Some (DeltaT mjd)).
Proof.
  unfold DeltaT.
  destruct (mjd <=? DT_mjd 0) eqn:E1; [left; auto|].
  destruct (fge mjd (DT_mjd (DT_LENGTH - 1))) eqn:E2; [right; left; auto|].
  right; right.
  destruct (DeltaT_no_fatal_error mjd E1 E2) as [dt Hdt].
  rewrite Hdt. auto.
Qed.

(** ** Body names *)

(** X2.  [Astronomy_BodyCode] inverts [Astronomy_BodyName]: the code of the name
    of a body is the body (the empty name of an invalid body gives
    [BODY_INVALID]); a name that has the code of a valid body is the name of
    that body, letter for letter; and the null pointer gives
    [BODY_INVALID]. *)
Theorem BodyCode_inverts_BodyName :
  (forall body : astro_body_t,
     BodyNames.Astronomy_BodyCode (Some (BodyNames.Astronomy_BodyName body)) = body)
  /\ (forall (name : String.string) (body : astro_body_t),
        BodyNames.Astronomy_BodyCode (Some name) = body ->
        body <> BODY_INVALID ->
        BodyNames.Astronomy_BodyName body = name)
  /\ BodyNames.Astronomy_BodyCode None = BODY_INVALID.
Proof.
  repeat apply conj.
  - intros body. destruct body; reflexivity.
  - intros name body H Hne. unfold BodyNames.Astronomy_BodyCode in H.
    repeat match type of H with
    | (if String.eqb ?a ?b then _ else _) = _ =>
        destruct (String.eqb_spec a b) as [->|_]; [subst body; reflexivity|]
    end.
    congruence.
  - reflexivity.
Qed.


(** ** The calendar *)

Lemma Z_range_In (n : nat) : forall from x : Z,
  (from <= x < from + Z.of_nat n)%Z -> In x (Z_range n from).
Proof.
  induction n as [|n IH]; intros from x H; [lia|].
  cbn [Z_range]. destruct (Z.eq_dec from x) as [->|Hne].
  - now left.
  - right. apply IH. lia.
Qed.



Lemma month_cases (m : Z) : (1 <= m <= 12)%Z ->
  (m = 1 \/ m = 2 \/ m = 3 \/ m = 4 \/ m = 5 \/ m = 6 \/ m = 7 \/ m = 8 \/ m = 9
   \/ m = 10 \/ m = 11 \/ m = 12)%Z.
Proof. lia. Qed.

(** 400 years are 146097 days. *)
Lemma MakeTime_jd12h_period (year month day : Z) :
  (-4700 <= year)%Z -> (1 <= month <= 12)%Z ->
  MakeTime_jd12h (year + 400) month day
  = (MakeTime_jd12h year month day + 146097)%Z.
Proof.
  intros Hy Hm. unfold MakeTime_jd12h, c_quot.
  assert (Hq : (Z.quot (month - 14) 12 = -1 \/ Z.quot (month - 14) 12 = 0)%Z).
  { destruct (month_cases month Hm) as
      [->|[->|[->|[->|[->|[->|[->|[->|[->|[->|[->| ->]]]]]]]]]]];
      vm_compute; auto. }
  destruct Hq as [-> | ->].
  - replace (year + 400 + 4800 + -1)%Z with (year + 4799 + 400)%Z by lia.
    replace (year + 400 + 4900 + -1)%Z with (year + 4899 + 4 * 100)%Z by lia.
    replace (year + 4800 + -1)%Z with (year + 4799)%Z by lia.
    replace (year + 4900 + -1)%Z with (year + 4899)%Z by lia.
    rewrite (Z.quot_div_nonneg (year + 4899 + 4 * 100) 100) by lia.
    rewrite (Z.quot_div_nonneg (year + 4899) 100) by lia.
    rewrite Z.div_add by lia.
    set (c := ((year + 4899) / 100)%Z).
    assert (0 <= c)%Z by (apply Z.div_pos; lia).
    rewrite (Z.quot_div_nonneg (1461 * (year + 4799 + 400)) 4) by lia.
    rewrite (Z.quot_div_nonneg (1461 * (year + 4799)) 4) by lia.
    rewrite (Z.quot_div_nonneg (3 * (c + 4)) 4) by lia.
    rewrite (Z.quot_div_nonneg (3 * c) 4) by lia.
    replace (1461 * (year + 4799 + 400))%Z with (1461 * (year + 4799) + 146100 * 4)%Z by lia.
    replace (3 * (c + 4))%Z with (3 * c + 3 * 4)%Z by lia.
    rewrite !Z.div_add by lia. lia.
  - replace (year + 400 + 4800 + 0)%Z with (year + 4800 + 400)%Z by lia.
    replace (year + 400 + 4900 + 0)%Z with (year + 4900 + 4 * 100)%Z by lia.
    replace (year + 4800 + 0)%Z with (year + 4800)%Z by lia.
    replace (year + 4900 + 0)%Z with (year + 4900)%Z by lia.
    rewrite (Z.quot_div_nonneg (year + 4900 + 4 * 100) 100) by lia.
    rewrite (Z.quot_div_nonneg (year + 4900) 100) by lia.
    rewrite Z.div_add by lia.
    set (c := ((year + 4900) / 100)%Z).
    assert (0 <= c)%Z by (apply Z.div_pos; lia).
    rewrite (Z.quot_div_nonneg (1461 * (year + 4800 + 400)) 4) by lia.
    rewrite (Z.quot_div_nonneg (1461 * (year + 4800)) 4) by lia.
    rewrite (Z.quot_div_nonneg (3 * (c + 4)) 4) by lia.
    rewrite (Z.quot_div_nonneg (3 * c) 4) by lia.
    replace (1461 * (year + 4800 + 400))%Z with (1461 * (year + 4800) + 146100 * 4)%Z by lia.
    replace (3 * (c + 4))%Z with (3 * c + 3 * 4)%Z by lia.
    rewrite !Z.div_add by lia. lia.
Qed.

Lemma MakeTime_jd12h_nonneg (year month day : Z) :
  (-4700 <= year)%Z -> (1 <= month <= 12)%Z -> (1 <= day)%Z ->
  (0 <= MakeTime_jd12h year month day)%Z.
Proof.
  intros Hy Hm Hd. unfold MakeTime_jd12h, c_quot.
  assert (Hq : (Z.quot (month - 14) 12 = -1 /\ month <= 2
                \/ Z.quot (month - 14) 12 = 0 /\ 3 <= month)%Z).
  { destruct (month_cases month Hm) as
      [->|[->|[->|[->|[->|[->|[->|[->|[->|[->|[->| ->]]]]]]]]]]];
      vm_compute; intuition discriminate. }
  assert (Hc : forall y, (199 <= y)%Z ->
            (Z.quot (3 * Z.quot y 100) 4 <= Z.quot (1461 * (y - 100)) 4 - 32075)%Z).
  { intros y Hy'. rewrite (Z.quot_div_nonneg y 100) by lia.
    assert (0 <= y / 100)%Z by (apply Z.div_pos; lia).
    rewrite !Z.quot_div_nonneg by lia.
    pose proof (Z.mul_div_le y 100 ltac:(lia)).
    apply Z.div_le_upper_bound; [lia|].
    pose proof (Z.div_mod (1461 * (y - 100)) 4 ltac:(lia)).
    pose proof (Z.mod_pos_bound (1461 * (y - 100)) 4 ltac:(lia)). lia. }
  destruct Hq as [[Hq Hmq] | [Hq Hmq]]; rewrite Hq in *.
  - pose proof (Z.quot_pos (367 * (month - 2 - -1 * 12)) 12 ltac:(lia) ltac:(lia)).
    specialize (Hc (year + 4900 + -1)%Z ltac:(lia)).
    replace (year + 4900 + -1 - 100)%Z with (year + 4800 + -1)%Z in Hc by lia. lia.
  - pose proof (Z.quot_pos (367 * (month - 2 - 0 * 12)) 12 ltac:(lia) ltac:(lia)).
    specialize (Hc (year + 4900 + 0)%Z ltac:(lia)).
    replace (year + 4900 + 0 - 100)%Z with (year + 4800 + 0)%Z in Hc by lia. lia.
Qed.

Lemma UtcFromTime_date_period (jd : Z) :
  (0 <= jd)%Z ->
  UtcFromTime_date (jd + 146097)
  = let '(y, m, d) := UtcFromTime_date jd in ((y + 400)%Z, m, d).
Proof.
  intros Hjd. unfold UtcFromTime_date, c_quot.
  assert (Hn : (Z.quot (4 * (jd + 146097 + 68569)) 146097
                = Z.quot (4 * (jd + 68569)) 146097 + 4)%Z).
  { rewrite !Z.quot_div_nonneg by lia.
    replace (4 * (jd + 146097 + 68569))%Z with (4 * (jd + 68569) + 4 * 146097)%Z by lia.
    now rewrite Z.div_add by lia. }
  rewrite Hn. set (n := Z.quot (4 * (jd + 68569)) 146097).
  assert (Hk : (jd + 146097 + 68569 - Z.quot (146097 * (n + 4) + 3) 4
                = jd + 68569 - Z.quot (146097 * n + 3) 4)%Z).
  { assert (0 <= n)%Z by (unfold n; apply Z.quot_pos; lia).
    rewrite !Z.quot_div_nonneg by lia.
    replace (146097 * (n + 4) + 3)%Z with (146097 * n + 3 + 146097 * 4)%Z by lia.
    rewrite Z.div_add by lia. lia. }
  rewrite Hk. f_equal. f_equal. lia.
Qed.

Lemma is_leap_year_period (year : Z) : is_leap_year (year + 400) = is_leap_year year.
Proof.
  unfold is_leap_year.
  replace (year + 400)%Z with (year + 100 * 4)%Z at 1 by lia.
  replace (year + 400)%Z with (year + 4 * 100)%Z at 1 by lia.
  replace (year + 400)%Z with (year + 1 * 400)%Z by lia.
  now rewrite !Z.mod_add by lia.
Qed.

Lemma days_in_month_period (year month : Z) :
  days_in_month (year + 400) month = days_in_month year month.
Proof. unfold days_in_month. now rewrite is_leap_year_period. Qed.

Lemma days_in_month_bounds (year month : Z) : (28 <= days_in_month year month <= 31)%Z.
Proof.
  unfold days_in_month.
  destruct (month =? 2)%Z; [destruct (is_leap_year year); lia|].
  destruct ((month =? 4) || (month =? 6) || (month =? 9) || (month =? 11))%Z; lia.
Qed.

(** The first 400 years, by evaluation. *)
Lemma first_cycle_round_trip :
  forallb year_round_trip (Z_range 400 (-4700)) = true.
Proof. vm_compute. reflexivity. Qed.

Lemma date_round_trip_first_cycle (year month day : Z) :
  (-4700 <= year < -4300)%Z -> (1 <= month <= 12)%Z ->
  (1 <= day <= days_in_month year month)%Z ->
  UtcFromTime_date (MakeTime_jd12h year month day) = (year, month, day).
Proof.
  intros Hy Hm Hd.
  pose proof first_cycle_round_trip as H.
  rewrite forallb_forall in H.
  assert (Hiy : In year (Z_range 400 (-4700))).
  { apply Z_range_In. change (Z.of_nat 400) with 400%Z. lia. }
  specialize (H year Hiy).
  unfold year_round_trip in H. rewrite forallb_forall in H.
  assert (Him : In month (Z_range 12 1)).
  { apply Z_range_In. change (Z.of_nat 12) with 12%Z. lia. }
  specialize (H month Him).
  unfold month_round_trip in H. rewrite forallb_forall in H.
  assert (Hin : In day (Z_range (Z.to_nat (days_in_month year month)) 1)).
  { apply Z_range_In. rewrite Z2Nat.id by lia. lia. }
  specialize (H day Hin).
  unfold date_round_trip in H.
  destruct (UtcFromTime_date (MakeTime_jd12h year month day)) as [[y m] d].
  apply andb_prop in H as [H Hd']. apply andb_prop in H as [Hy' Hm'].
  apply Z.eqb_eq in Hy', Hm', Hd'. now subst.
Qed.


Lemma date_round_trip_cycles (q : nat) : forall year month day : Z,
  (-4700 + 400 * Z.of_nat q <= year < -4300 + 400 * Z.of_nat q)%Z ->
  (1 <= month <= 12)%Z -> (1 <= day <= days_in_month year month)%Z ->
  UtcFromTime_date (MakeTime_jd12h year month day) = (year, month, day).
Proof.
  induction q as [|q IH]; intros year month day Hy Hm Hd.
  - apply date_round_trip_first_cycle; lia.
  - replace year with (year - 400 + 400)%Z in * by lia.
    rewrite days_in_month_period in Hd.
    rewrite MakeTime_jd12h_period by lia.
    rewrite UtcFromTime_date_period by (apply MakeTime_jd12h_nonneg; lia).
    rewrite IH by lia. reflexivity.
Qed.

(** X4.  [Astronomy_UtcFromTime] recovers the calendar date that
    [Astronomy_MakeTime] encoded: when the whole days of [time.ut + 2451545.5]
    are the day number that [Astronomy_MakeTime] computes for a Gregorian
    date (of a year from -4700 on), the year, month and day of the result are
    that date, whatever the time of day. *)
Theorem UtcFromTime_recovers_date (time : astro_time_t) (year month day : Z) :
  calendar_date year month day ->
  long_of_double (ut time + 2451545.5) = MakeTime_jd12h year month day ->
  utc_year (Astronomy_UtcFromTime time) = year
  /\ utc_month (Astronomy_UtcFromTime time) = month
  /\ utc_day (Astronomy_UtcFromTime time) = day.
Proof.
  intros (Hy & Hm & Hd) Hjd.
  assert (H : UtcFromTime_date (MakeTime_jd12h year month day) = (year, month, day)).
  { apply (date_round_trip_cycles (Z.to_nat ((year + 4700) / 400))); try assumption.
    rewrite Z2Nat.id by (apply Z.div_pos; lia).
    pose proof (Z.div_mod (year + 4700) 400 ltac:(lia)).
    pose proof (Z.mod_pos_bound (year + 4700) 400 ltac:(lia)). lia. }
  unfold Astronomy_UtcFromTime. cbn [utc_year utc_month utc_day].
  rewrite Hjd. unfold UtcFromTime_date in H.
  injection H as H1 H2 H3. auto.
Qed.

(** ** The calendar at midnight *)

Lemma is_positive_zero_eq (x : float) : is_positive_zero x = true -> x = 0.0.
Proof.
  unfold is_positive_zero. intros H.
  rewrite <- (SF2Prim_Prim2SF x).
  destruct (Prim2SF x) as [[|]| | |]; try discriminate. reflexivity.
Qed.

Lemma modern_midnight_round_trip :
  forallb midnight_year_round_trip (Z_range 201 1900) = true.
Proof. vm_compute. reflexivity. Qed.

(** X5.  From 1900 to 2100 the round trip is exact at midnight: the time that
    [Astronomy_MakeTime] makes of a Gregorian date at 00:00:00 is taken apart
    by [Astronomy_UtcFromTime] into that date, hour 0, minute 0 and
    [+0.0] seconds. *)
Theorem UtcFromTime_MakeTime_midnight (year month day : Z) :
  (1900 <= year <= 2100)%Z -> (1 <= month <= 12)%Z ->
  (1 <= day <= days_in_month year month)%Z ->
  Astronomy_UtcFromTime (Astronomy_MakeTime year month day 0 0 0.0)
  = mk_utc year month day 0 0 0.0.
Proof.
  intros Hy Hm Hd.
  pose proof modern_midnight_round_trip as H.
  rewrite forallb_forall in H.
  assert (Hiy : In year (Z_range 201 1900)).
  { apply Z_range_In. change (Z.of_nat 201) with 201%Z. lia. }
  specialize (H year Hiy).
  unfold midnight_year_round_trip in H. rewrite forallb_forall in H.
  assert (Him : In month (Z_range 12 1)).
  { apply Z_range_In. change (Z.of_nat 12) with 12%Z. lia. }
  specialize (H month Him).
  unfold midnight_month_round_trip in H. rewrite forallb_forall in H.
  assert (Hin : In day (Z_range (Z.to_nat (days_in_month year month)) 1)).
  { apply Z_range_In. rewrite Z2Nat.id by lia. lia. }
  specialize (H day Hin).
  unfold midnight_round_trip in H.
  destruct (Astronomy_UtcFromTime (Astronomy_MakeTime year month day 0 0 0.0))
    as [y m d h mi s].
  cbn [utc_year utc_month utc_day utc_hour utc_minute utc_second] in H.
  repeat match type of H with
  | (_ && _) = true => apply andb_prop in H; destruct H as [H ?]
  end.
  repeat match goal with
  | E : (_ =? _)%Z = true |- _ => apply Z.eqb_eq in E
  | E : is_positive_zero _ = true |- _ => apply is_positive_zero_eq in E
  end.
  subst. reflexivity.
Qed.

(** X6.  The round trip is not exact for every time of day:
    [Astronomy_UtcFromTime] takes the time that [Astronomy_TimeFromUtc] makes
    of 2019-07-04 00:01:00 apart into minute 0 and less than 60 seconds. *)
Theorem UtcFromTime_TimeFromUtc_not_inverse :
  exists utc : astro_utc_t,
    calendar_date (utc_year utc) (utc_month utc) (utc_day utc)
    /\ (0 <= utc_hour utc <= 23)%Z /\ (0 <= utc_minute utc <= 59)%Z
    /\ (0.0 <=? utc_second utc) = true /\ (utc_second utc <? 60.0) = true
    /\ utc_minute (Astronomy_UtcFromTime (Astronomy_TimeFromUtc utc))
       <> utc_minute utc
    /\ (utc_second (Astronomy_UtcFromTime (Astronomy_TimeFromUtc utc)) <? 60.0) = true.
Proof.
  exists minute_past_midnight. unfold calendar_date.
  repeat apply conj; vm_compute; congruence.
Qed.

(** ** NaN samples *)

Lemma is_nan_spec (x : float) : is_nan x = true <-> Prim2SF x = S754_nan.
Proof.
  unfold is_nan. rewrite eqb_spec.
  destruct (Prim2SF x) as [s|s| |s m e]; cbn.
  - split; discriminate.
  - destruct s; split; discriminate.
  - split; reflexivity.
  - unfold SFeqb, SFcompare. rewrite Z.compare_refl, Pos.compare_cont_refl.
    destruct s; split; discriminate.
Qed.

Lemma nan_add_l (x y : float) : is_nan x = true -> is_nan (x + y) = true.
Proof.
  rewrite !is_nan_spec, add_spec. intros ->. reflexivity.
Qed.

Lemma nan_add_r (x y : float) : is_nan y = true -> is_nan (x + y) = true.
Proof.
  rewrite !is_nan_spec, add_spec. intros ->.
  destruct (Prim2SF x) as [s|s| |s m e]; reflexivity.
Qed.

Lemma nan_sub_l (x y : float) : is_nan x = true -> is_nan (x - y) = true.
Proof.
  rewrite !is_nan_spec, sub_spec. intros ->. reflexivity.
Qed.

Lemma nan_sub_r (x y : float) : is_nan y = true -> is_nan (x - y) = true.
Proof.
  rewrite !is_nan_spec, sub_spec. intros ->.
  destruct (Prim2SF x) as [s|s| |s m e]; reflexivity.
Qed.

Lemma nan_mul_l (x y : float) : is_nan x = true -> is_nan (x * y) = true.
Proof.
  rewrite !is_nan_spec, mul_spec. intros ->. reflexivity.
Qed.

Lemma nan_mul_r (x y : float) : is_nan y = true -> is_nan (x * y) = true.
Proof.
  rewrite !is_nan_spec, mul_spec. intros ->.
  destruct (Prim2SF x) as [s|s| |s m e]; reflexivity.
Qed.

Lemma nan_div_l (x y : float) : is_nan x = true -> is_nan (x / y) = true.
Proof.
  rewrite !is_nan_spec, div_spec. intros ->. reflexivity.
Qed.

Lemma nan_div_r (x y : float) : is_nan y = true -> is_nan (x / y) = true.
Proof.
  rewrite !is_nan_spec, div_spec. intros ->.
  destruct (Prim2SF x) as [s|s| |s m e]; reflexivity.
Qed.

Lemma nan_sqrt (x : float) : is_nan x = true -> is_nan (sqrt x) = true.
Proof.
  rewrite !is_nan_spec, sqrt_spec. intros ->. reflexivity.
Qed.

Lemma nan_eqb_l (x y : float) : is_nan x = true -> (x =? y) = false.
Proof.
  rewrite is_nan_spec, eqb_spec. intros ->. reflexivity.
Qed.

Lemma nan_leb_l (x y : float) : is_nan x = true -> (x <=? y) = false.
Proof.
  rewrite is_nan_spec, leb_spec. intros ->. reflexivity.
Qed.

Lemma nan_leb_r (x y : float) : is_nan y = true -> (x <=? y) = false.
Proof.
  rewrite is_nan_spec, leb_spec. intros ->.
  destruct (Prim2SF x) as [s|s| |s m e]; try reflexivity; destruct s; reflexivity.
Qed.

Lemma nan_ltb_l (x y : float) : is_nan x = true -> (x <? y) = false.
Proof.
  rewrite is_nan_spec, ltb_spec. intros ->. reflexivity.
Qed.

Lemma nan_ltb_r (x y : float) : is_nan y = true -> (x <? y) = false.
Proof.
  rewrite is_nan_spec, ltb_spec. intros ->.
  destruct (Prim2SF x) as [s|s| |s m e]; try reflexivity; destruct s; reflexivity.
Qed.

(** X7.  [QuadInterp] rejects whenever one of the three samples is NaN. *)
Theorem QuadInterp_rejects_nan (tm dt fa fm fb : float) :
  is_nan fa = true \/ is_nan fm = true \/ is_nan fb = true ->
  QuadInterp tm dt fa fm fb = None.
Proof.
  intros H.
  assert (HQ : is_nan ((fb + fa) / 2.0 - fm) = true).
  { destruct H as [H|[H|H]].
    - apply nan_sub_l, nan_div_l, nan_add_r, H.
    - apply nan_sub_r, H.
    - apply nan_sub_l, nan_div_l, nan_add_l, H. }
  unfold QuadInterp.
  set (Q := (fb + fa) / 2.0 - fm) in *. set (R := (fb - fa) / 2.0).
  rewrite (nan_eqb_l Q 0.0 HQ).
  assert (Hu : is_nan (R * R - 4 * Q * fm) = true).
  { apply nan_sub_r, nan_mul_l, nan_mul_r, HQ. }
  rewrite (nan_leb_l _ 0.0 Hu).
  assert (H2Q : is_nan (2.0 * Q) = true) by apply nan_mul_r, HQ.
  rewrite (nan_leb_r (-1.0) ((- R + sqrt (R * R - 4 * Q * fm)) / (2.0 * Q)))
    by apply nan_div_r, H2Q.
  rewrite (nan_leb_r (-1.0) ((- R - sqrt (R * R - 4 * Q * fm)) / (2.0 * Q)))
    by apply nan_div_r, H2Q.
  reflexivity.
Qed.

(** ** The length of a vector *)

Lemma sqrt_not_negative (x : float) : (sqrt x <? 0.0) = false.
Proof.
  rewrite ltb_spec, sqrt_spec. unfold SF64sqrt, SFsqrt.
  destruct (Prim2SF x) as [s|s| |s m e];
    [destruct s; reflexivity | destruct s; reflexivity | reflexivity |].
  destruct s; [reflexivity|].
  destruct (SFsqrt_core_binary prec emax (Z.pos m) e) as [[mz ez] lz].
  unfold binary_round_aux.
  destruct (shr_fexp prec emax mz ez lz) as [mrs' e'].
  destruct (shr_fexp prec emax _ e' loc_Exact) as [mrs'' e''].
  destruct (shr_m mrs''); [reflexivity | | reflexivity].
  destruct (e'' <=? emax - prec)%Z; reflexivity.
Qed.

(** X21.  [Astronomy_VectorLength] never returns a negative number, whatever
    the components; it returns NaN when a component is NaN, as in the vector
    that [VecError] makes. *)
Theorem VectorLength_not_negative (vector : astro_vector_t) :
  (Astronomy_VectorLength vector <? 0.0) = false
  /\ (is_nan (vec_x vector) = true \/ is_nan (vec_y vector) = true
      \/ is_nan (vec_z vector) = true ->
      is_nan (Astronomy_VectorLength vector) = true)
  /\ (forall status time,
        is_nan (Astronomy_VectorLength (VecError status time)) = true).
Proof.
  repeat apply conj.
  - apply sqrt_not_negative.
  - intros H. unfold Astronomy_VectorLength. apply nan_sqrt.
    destruct H as [H|[H|H]].
    + apply nan_add_l, nan_add_l, nan_mul_l, H.
    + apply nan_add_l, nan_add_r, nan_mul_l, H.
    + apply nan_add_r, nan_mul_l, H.
  - intros status time. reflexivity.
Qed.

(** ** Failures of the search *)

Lemma Search_body_failure (func : astro_search_func_t) (dt_days : float)
    (s : search_state) (r : astro_search_result_t) :
  Search_body func dt_days s = Some (Return r) ->
  search_status r <> ASTRO_SUCCESS ->
  search_time r = NAN_time /\ Search_failure_source func (search_status r).
Proof.
  unfold Search_body, Search_quad, Search_bisect, CALLFUNC, Search_failure_source.
  destruct (st_calc_fmid s);
    split_tests; intros H Hne; inversion H; subst; cbn in *;
    try congruence; split; try reflexivity; eauto 8.
Qed.

Lemma Search_loop_failure (fuel : nat) (func : astro_search_func_t) (dt_days : float) :
  forall (s : search_state) (r : astro_search_result_t),
    Search_loop fuel func dt_days s = Some r ->
    search_status r <> ASTRO_SUCCESS ->
    search_time r = NAN_time /\ Search_failure_source func (search_status r).
Proof.
  induction fuel as [|fuel IH]; intros s r; cbn [Search_loop]; [discriminate|].
  destruct (Search_body func dt_days s) as [[s'|r']|] eqn:Eb; try discriminate.
  - apply IH.
  - intros H; inversion H; subst. now apply (Search_body_failure func dt_days s).
Qed.

(** X8.  A search that fails hands back no time: both fields of the time are
    NaN, and the status is [ASTRO_NO_CONVERGE], [ASTRO_SEARCH_FAILURE] or the
    status that an evaluation of the callback returned. *)
Theorem Search_failure_has_no_time (fuel : nat) (func : astro_search_func_t)
    (t1 t2 : astro_time_t) (dt_tolerance_seconds : float) (r : astro_search_result_t) :
  Astronomy_Search fuel func t1 t2 dt_tolerance_seconds = Some r ->
  search_status r <> ASTRO_SUCCESS ->
  search_time r = NAN_time /\ Search_failure_source func (search_status r).
Proof.
  unfold Astronomy_Search, CALLFUNC.
  destruct (func t1) as [r1|] eqn:E1; [|discriminate].
  destruct (status_eqb (func_status r1) ASTRO_SUCCESS) eqn:S1.
  - destruct (func t2) as [r2|] eqn:E2; [|discriminate].
    destruct (status_eqb (func_status r2) ASTRO_SUCCESS) eqn:S2.
    + apply Search_loop_failure.
    + intros H _; inversion H; subst. cbn. split; [reflexivity|].
      right; right. eauto.
  - intros H _; inversion H; subst. cbn. split; [reflexivity|].
    right; right. eauto.
Qed.

(** ** Bodies *)

(** X3.  [SynodicPeriod] fails for the Earth with [ASTRO_EARTH_NOT_ALLOWED] and
    for the Sun and an invalid body with [ASTRO_INVALID_BODY]; for the Moon
    and the eight other planets it succeeds with a positive number of days
    that is not an infinity. *)
Theorem SynodicPeriod_status (body : astro_body_t) :
  func_status (SynodicPeriod body)
  = match body with
    | BODY_EARTH => ASTRO_EARTH_NOT_ALLOWED
    | BODY_SUN | BODY_INVALID => ASTRO_INVALID_BODY
    | _ => ASTRO_SUCCESS
    end
  /\ (func_status (SynodicPeriod body) = ASTRO_SUCCESS ->
      (0.0 <? func_value (SynodicPeriod body)) = true
      /\ (func_value (SynodicPeriod body) <? infinity) = true)
  /\ (func_status (SynodicPeriod body) <> ASTRO_SUCCESS ->
      is_nan (func_value (SynodicPeriod body)) = true).
Proof.
  destruct body; repeat apply conj; try reflexivity; intros H;
    try (vm_compute in H; congruence);
    try (exfalso; apply H; reflexivity);
    repeat apply conj; reflexivity.
Qed.

Lemma SynodicPeriod_other_planet (body : astro_body_t) :
  is_other_planet body = true ->
  status_eqb (func_status (SynodicPeriod body)) ASTRO_SUCCESS = true.
Proof. destruct body; vm_compute; congruence. Qed.

(** ** The remaining orchestrators *)

Lemma last_status_success (acc status : astro_status_t) :
  (if negb (status_eqb status ASTRO_SUCCESS) then status else acc) = ASTRO_SUCCESS
  <-> status = ASTRO_SUCCESS /\ acc = ASTRO_SUCCESS.
Proof.
  destruct (status_eqb status ASTRO_SUCCESS) eqn:E; cbn [negb].
  - apply status_eqb_eq in E. intuition.
  - apply status_eqb_neq in E. intuition.
Qed.

Section MoreOrchestratorProperties.

Variable Astronomy_SunPosition : astro_time_t -> astro_ecliptic_t.
Variable Astronomy_EclipticLongitude : astro_body_t -> astro_time_t -> astro_angle_result_t.
Variable Astronomy_AngleFromSun : astro_body_t -> astro_time_t -> astro_angle_result_t.
Variable Astronomy_LongitudeFromSun : astro_body_t -> astro_time_t -> astro_angle_result_t.
Variable Astronomy_Illumination : astro_body_t -> astro_time_t -> astro_illum_t.

(** *** Seasons *)

(** X9.  [Astronomy_Seasons] runs its four searches whatever the earlier ones
    answered and stores the time of each; its status is the status of the
    last search that failed, and success exactly when all four succeeded. *)
Theorem Seasons_status (fuel : nat) (year : Z) (s : astro_seasons_t) :
  Astronomy_Seasons Astronomy_SunPosition fuel year = Some s ->
  exists st1 st2 st3 st4 : astro_status_t,
    FindSeasonChange Astronomy_SunPosition fuel 0 year 3 19 = Some (st1, mar_equinox s)
    /\ FindSeasonChange Astronomy_SunPosition fuel 90 year 6 19 = Some (st2, jun_solstice s)
    /\ FindSeasonChange Astronomy_SunPosition fuel 180 year 9 21 = Some (st3, sep_equinox s)
    /\ FindSeasonChange Astronomy_SunPosition fuel 270 year 12 20 = Some (st4, dec_solstice s)
    /\ seasons_status s = last_failure [st1; st2; st3; st4]
    /\ (seasons_status s = ASTRO_SUCCESS <->
        st1 = ASTRO_SUCCESS /\ st2 = ASTRO_SUCCESS
        /\ st3 = ASTRO_SUCCESS /\ st4 = ASTRO_SUCCESS).
Proof.
  unfold Astronomy_Seasons.
  destruct (FindSeasonChange Astronomy_SunPosition fuel 0 year 3 19)
    as [[st1 t1]|]; [|discriminate].
  destruct (FindSeasonChange Astronomy_SunPosition fuel 90 year 6 19)
    as [[st2 t2]|]; [|discriminate].
  destruct (FindSeasonChange Astronomy_SunPosition fuel 180 year 9 21)
    as [[st3 t3]|]; [|discriminate].
  destruct (FindSeasonChange Astronomy_SunPosition fuel 270 year 12 20)
    as [[st4 t4]|]; [|discriminate].
  intros H; inversion H; subst; clear H. cbn [mar_equinox jun_solstice sep_equinox
    dec_solstice seasons_status].
  exists st1, st2, st3, st4. repeat apply conj; try reflexivity.
  - rewrite !last_status_success. intuition congruence.
  - intros (-> & -> & -> & ->). reflexivity.
Qed.

(** *** Relative longitude *)

(** X10.  [Astronomy_SearchRelativeLongitude] refuses the Earth with
    [ASTRO_EARTH_NOT_ALLOWED] and the Moon, the Sun and an invalid body with
    [ASTRO_INVALID_BODY]; it does so before it evaluates any longitude, so
    the answer does not depend on the ephemeris. *)
Theorem SearchRelativeLongitude_rejects_body (fuel : nat) (body : astro_body_t)
    (targetRelLon : float) (startDate : astro_time_t) :
  (body = BODY_EARTH ->
   Astronomy_SearchRelativeLongitude Astronomy_EclipticLongitude fuel body
     targetRelLon startDate = Some (SearchError ASTRO_EARTH_NOT_ALLOWED))
  /\ (body = BODY_MOON \/ body = BODY_SUN \/ body = BODY_INVALID ->
      Astronomy_SearchRelativeLongitude Astronomy_EclipticLongitude fuel body
        targetRelLon startDate = Some (SearchError ASTRO_INVALID_BODY)).
Proof.
  split.
  - intros ->. reflexivity.
  - intros [-> | [-> | ->]]; reflexivity.
Qed.

Lemma RelativeLongitude_body_counts (fuel : nat) (body : astro_body_t) (direction : Z)
    (targetRelLon : float) (s s' : rlon_state) :
  RelativeLongitude_body Astronomy_EclipticLongitude fuel body direction targetRelLon s
  = Some (Continue s') ->
  rl_iter s' = (rl_iter s + 1)%Z /\ (rl_iter s < 100)%Z.
Proof.
  unfold RelativeLongitude_body, CALLFUNC.
  destruct (rl_iter s <? 100)%Z eqn:Hlt; [|discriminate].
  apply Z.ltb_lt in Hlt.
  split_tests; intros H; inversion H; subst; cbn; auto.
Qed.

Lemma RelativeLongitude_body_returns (fuel : nat) (body : astro_body_t) (direction : Z)
    (targetRelLon : float) (s : rlon_state) :
  (forall t, rlon_offset Astronomy_EclipticLongitude fuel body t direction targetRelLon
             <> None) ->
  exists step,
    RelativeLongitude_body Astronomy_EclipticLongitude fuel body direction targetRelLon s
    = Some step.
Proof.
  intros Hret. unfold RelativeLongitude_body, CALLFUNC.
  destruct (rl_iter s <? 100)%Z; [|eauto].
  destruct (abs (rlon_day_adjust s) * SECONDS_PER_DAY <? 1.0); [eauto|].
  match goal with
  | |- context [rlon_offset ?e ?f ?b ?t ?d ?l] =>
      specialize (Hret t); destruct (rlon_offset e f b t d l)
  end; [|congruence].
  destruct (status_eqb _ _); eauto.
Qed.

Lemma RelativeLongitude_loop_returns (fuel : nat) (body : astro_body_t) (direction : Z)
    (targetRelLon : float) (loops : nat) :
  (forall t, rlon_offset Astronomy_EclipticLongitude fuel body t direction targetRelLon
             <> None) ->
  forall s : rlon_state,
    (rl_iter s <= 100)%Z -> (100 - rl_iter s < Z.of_nat loops)%Z ->
    exists r,
      RelativeLongitude_loop Astronomy_EclipticLongitude fuel loops body direction
        targetRelLon s = Some r.
Proof.
  intros Hret. induction loops as [|loops IH]; intros s Hcap Hfuel.
  - exfalso. lia.
  - cbn [RelativeLongitude_loop].
    destruct (RelativeLongitude_body_returns fuel body direction targetRelLon s Hret)
      as [[s'|r] Hb]; rewrite Hb; [|eauto].
    apply RelativeLongitude_body_counts in Hb as [Hi Hlt].
    apply IH; lia.
Qed.

(** X11.  [Astronomy_SearchRelativeLongitude] makes at most 100 passes: when
    every evaluation of the relative longitude returns, the function returns
    too (101 units of fuel are enough). *)
Theorem SearchRelativeLongitude_iteration_cap (fuel : nat) (body : astro_body_t)
    (targetRelLon : float) (startDate : astro_time_t) :
  (forall t,
     rlon_offset Astronomy_EclipticLongitude fuel body t
       (if IsSuperiorPlanet body then 1%Z else (-1)%Z) targetRelLon <> None) ->
  (100 < fuel)%nat ->
  exists r,
    Astronomy_SearchRelativeLongitude Astronomy_EclipticLongitude fuel body
      targetRelLon startDate = Some r.
Proof.
  intros Hret Hfuel. unfold Astronomy_SearchRelativeLongitude.
  set (direction := if IsSuperiorPlanet body then 1%Z else (-1)%Z) in *.
  assert (Hloop : exists r,
    (if negb (status_eqb (func_status (SynodicPeriod body)) ASTRO_SUCCESS)
     then Some (SearchError (func_status (SynodicPeriod body)))
     else CALLFUNC (fun r => r)
            (rlon_offset Astronomy_EclipticLongitude fuel body startDate direction
               targetRelLon)
            (fun error_angle =>
               RelativeLongitude_loop Astronomy_EclipticLongitude fuel fuel body
                 direction targetRelLon
                 (mk_rlon_state 0 startDate
                    (if fgt error_angle 0 then error_angle - 360 else error_angle)
                    (func_value (SynodicPeriod body))))) = Some r).
  { destruct (negb _); [eauto|]. unfold CALLFUNC.
    pose proof (Hret startDate) as H0.
    destruct (rlon_offset _ _ _ startDate _ _) as [r0|]; [|congruence].
    destruct (status_eqb _ _); [|eauto].
    apply RelativeLongitude_loop_returns; cbn [rl_iter]; [auto | lia | lia]. }
  destruct body; eauto.
Qed.

Lemma rlon_offset_failure (fuel : nat) (body : astro_body_t) (time : astro_time_t)
    (direction : Z) (targetRelLon : float) (r : astro_func_result_t) :
  rlon_offset Astronomy_EclipticLongitude fuel body time direction targetRelLon = Some r ->
  func_status r <> ASTRO_SUCCESS ->
  exists b, (b = body \/ b = BODY_EARTH)
            /\ angle_status (Astronomy_EclipticLongitude b time) = func_status r.
Proof.
  unfold rlon_offset. split_tests; intros H Hne; inversion H; subst; cbn in *;
    try congruence; eauto.
Qed.

Lemma RelativeLongitude_body_result (fuel : nat) (body : astro_body_t) (direction : Z)
    (targetRelLon : float) (s : rlon_state) (r : astro_search_result_t) :
  RelativeLongitude_body Astronomy_EclipticLongitude fuel body direction targetRelLon s
  = Some (Return r) ->
  (search_status r = ASTRO_SUCCESS
   /\ (rl_iter s < 100)%Z
   /\ (abs (rlon_day_adjust s) * SECONDS_PER_DAY <? 1.0) = true
   /\ search_time r = Astronomy_AddDays (rl_time s) (rlon_day_adjust s))
  \/ (search_status r <> ASTRO_SUCCESS
      /\ search_time r = NAN_time
      /\ RelativeLongitude_failure_source Astronomy_EclipticLongitude body
           (search_status r)).
Proof.
  unfold RelativeLongitude_body, CALLFUNC, RelativeLongitude_failure_source.
  destruct (rl_iter s <? 100)%Z eqn:Hlt.
  - apply Z.ltb_lt in Hlt.
    destruct (abs (rlon_day_adjust s) * SECONDS_PER_DAY <? 1.0) eqn:Hstep.
    + intros H; inversion H; subst. left. cbn. auto.
    + destruct (rlon_offset _ _ _ _ _ _) as [fr|] eqn:Ho; [|discriminate].
      destruct (status_eqb (func_status fr) ASTRO_SUCCESS) eqn:Hs; [discriminate|].
      apply status_eqb_neq in Hs.
      intros H; inversion H; subst. right. cbn. repeat apply conj; auto.
      right. destruct (rlon_offset_failure _ _ _ _ _ _ Ho Hs) as (b & Hb & Hst).
      eauto.
  - intros H; inversion H; subst. right. cbn. repeat apply conj; auto. discriminate.
Qed.

Lemma RelativeLongitude_loop_result (fuel : nat) (body : astro_body_t) (direction : Z)
    (targetRelLon : float) (loops : nat) :
  forall (s : rlon_state) (r : astro_search_result_t),
    RelativeLongitude_loop Astronomy_EclipticLongitude fuel loops body direction
      targetRelLon s = Some r ->
    (search_status r = ASTRO_SUCCESS
     /\ exists (n : nat) (s' : rlon_state),
          RelativeLongitude_steps Astronomy_EclipticLongitude fuel n body direction
            targetRelLon s = Some s'
          /\ rl_iter s' = (rl_iter s + Z.of_nat n)%Z
          /\ (rl_iter s' < 100)%Z
          /\ (abs (rlon_day_adjust s') * SECONDS_PER_DAY <? 1.0) = true
          /\ search_time r = Astronomy_AddDays (rl_time s') (rlon_day_adjust s'))
    \/ (search_status r <> ASTRO_SUCCESS
        /\ search_time r = NAN_time
        /\ RelativeLongitude_failure_source Astronomy_EclipticLongitude body
             (search_status r)).
Proof.
  induction loops as [|loops IH]; intros s r; cbn [RelativeLongitude_loop];
    [discriminate|].
  destruct (RelativeLongitude_body _ _ _ _ _ s) as [[s1|r']|] eqn:Hb; try discriminate.
  - intros H. apply IH in H as [(Hs & n & s' & Hsteps & Hi & Hrest)|H]; [left | right; exact H].
    split; [exact Hs|]. exists (S n), s'. cbn [RelativeLongitude_steps]. rewrite Hb.
    split; [exact Hsteps|]. split; [|exact Hrest].
    apply RelativeLongitude_body_counts in Hb as [Hc _]. lia.
  - intros H; inversion H; subst.
    destruct (RelativeLongitude_body_result _ _ _ _ _ _ Hb)
      as [(H1 & H2 & H3 & H4)|H2]; [left | right; exact H2].
    split; [exact H1|]. exists O, s. cbn [RelativeLongitude_steps].
    repeat apply conj; auto. lia.
Qed.

Lemma SearchRelativeLongitude_result (fuel : nat) (body : astro_body_t)
    (targetRelLon : float) (startDate : astro_time_t) (r : astro_search_result_t) :
  Astronomy_SearchRelativeLongitude Astronomy_EclipticLongitude fuel body
    targetRelLon startDate = Some r ->
  let direction := if IsSuperiorPlanet body then 1%Z else (-1)%Z in
  (search_status r = ASTRO_SUCCESS
   /\ is_other_planet body = true
   /\ exists (error_angle : float) (n : nat) (s : rlon_state),
        rlon_offset Astronomy_EclipticLongitude fuel body startDate direction
          targetRelLon = func_ok error_angle
        /\ RelativeLongitude_steps Astronomy_EclipticLongitude fuel n body direction
             targetRelLon
             (mk_rlon_state 0 startDate
                (if fgt error_angle 0 then error_angle - 360 else error_angle)
                (func_value (SynodicPeriod body))) = Some s
        /\ (n < 100)%nat
        /\ (abs (rlon_day_adjust s) * SECONDS_PER_DAY <? 1.0) = true
        /\ search_time r = Astronomy_AddDays (rl_time s) (rlon_day_adjust s))
  \/ (search_status r <> ASTRO_SUCCESS
      /\ search_time r = NAN_time
      /\ (is_other_planet body = false
          \/ RelativeLongitude_failure_source Astronomy_EclipticLongitude body
               (search_status r))).
Proof.
  intros H direction. destruct (is_other_planet body) eqn:Hp.
  - unfold Astronomy_SearchRelativeLongitude in H. fold direction in H.
    assert (H' :
      CALLFUNC (fun r => r)
        (rlon_offset Astronomy_EclipticLongitude fuel body startDate direction
           targetRelLon)
        (fun error_angle =>
           RelativeLongitude_loop Astronomy_EclipticLongitude fuel fuel body
             direction targetRelLon
             (mk_rlon_state 0 startDate
                (if fgt error_angle 0 then error_angle - 360 else error_angle)
                (func_value (SynodicPeriod body)))) = Some r).
    { rewrite (SynodicPeriod_other_planet body Hp) in H.
      destruct body; try discriminate Hp; exact H. }
    clear H. unfold CALLFUNC in H'.
    destruct (rlon_offset _ _ _ startDate _ _) as [fr|] eqn:Ho; [|discriminate].
    destruct (status_eqb (func_status fr) ASTRO_SUCCESS) eqn:Hs.
    + apply RelativeLongitude_loop_result in H'
        as [(H1 & n & s & Hsteps & Hi & Hlt & Hrest)|(H1 & H2 & H3)];
        [left | right; auto].
      split; [exact H1|]. split; [reflexivity|].
      exists (func_value fr), n, s. cbn [rl_iter] in Hi.
      destruct Hrest as [Hadj Htime].
      repeat apply conj.
      * now apply func_ok_intro.
      * exact Hsteps.
      * lia.
      * exact Hadj.
      * exact Htime.
    + apply status_eqb_neq in Hs. inversion H'; subst. right. cbn.
      repeat apply conj; auto. right. right.
      destruct (rlon_offset_failure _ _ _ _ _ _ Ho Hs) as (b & Hb & Hst). eauto.
  - right.
    unfold Astronomy_SearchRelativeLongitude in H.
    destruct body; try discriminate Hp; inversion H; subst; cbn;
      repeat apply conj; auto; discriminate.
Qed.

(** X12.  A successful [Astronomy_SearchRelativeLongitude] is for one of the
    eight planets other than the Earth.  Its time is reached from the start
    date by fewer than 100 passes of the loop followed by one more step, the
    estimate [(-error_angle / 360) * syn] of the remaining time, that is
    below one second of a day in size. *)
Theorem SearchRelativeLongitude_success (fuel : nat) (body : astro_body_t)
    (targetRelLon : float) (startDate : astro_time_t) (r : astro_search_result_t) :
  Astronomy_SearchRelativeLongitude Astronomy_EclipticLongitude fuel body
    targetRelLon startDate = Some r ->
  search_status r = ASTRO_SUCCESS ->
  let direction := if IsSuperiorPlanet body then 1%Z else (-1)%Z in
  is_other_planet body = true
  /\ exists (error_angle : float) (n : nat) (s : rlon_state),
       rlon_offset Astronomy_EclipticLongitude fuel body startDate direction
         targetRelLon = func_ok error_angle
       /\ RelativeLongitude_steps Astronomy_EclipticLongitude fuel n body direction
            targetRelLon
            (mk_rlon_state 0 startDate
               (if fgt error_angle 0 then error_angle - 360 else error_angle)
               (func_value (SynodicPeriod body))) = Some s
       /\ (n < 100)%nat
       /\ (abs (rlon_day_adjust s) * SECONDS_PER_DAY <? 1.0) = true
       /\ search_time r = Astronomy_AddDays (rl_time s) (rlon_day_adjust s).
Proof.
  intros H Hs direction.
  destruct (SearchRelativeLongitude_result _ _ _ _ _ H) as [(_ & H1)|(H1 & _)];
    [exact H1 | congruence].
Qed.

(** X13.  A failed [Astronomy_SearchRelativeLongitude] hands back no time (both
    fields are NaN); for a planet other than the Earth its status is
    [ASTRO_NO_CONVERGE] or the status with which the ephemeris refused a
    longitude of the planet or of the Earth. *)
Theorem SearchRelativeLongitude_failure (fuel : nat) (body : astro_body_t)
    (targetRelLon : float) (startDate : astro_time_t) (r : astro_search_result_t) :
  Astronomy_SearchRelativeLongitude Astronomy_EclipticLongitude fuel body
    targetRelLon startDate = Some r ->
  search_status r <> ASTRO_SUCCESS ->
  search_time r = NAN_time
  /\ (is_other_planet body = true ->
      RelativeLongitude_failure_source Astronomy_EclipticLongitude body
        (search_status r)).
Proof.
  intros H Hs.
  destruct (SearchRelativeLongitude_result _ _ _ _ _ H) as [(H1 & _)|(_ & H1 & H2)];
    [congruence|].
  split; [exact H1|]. intros Hp. destruct H2 as [H2|H2]; [congruence | exact H2].
Qed.

(** *** Elongation *)












(** *** Peak magnitude *)







End MoreOrchestratorProperties.

(** ** Results of the lunar apsis and the rise/set searches *)

Section ResultProperties.

Variable Astronomy_MoonPhase : astro_time_t -> astro_angle_result_t.
Variable CalcMoon_dist : float -> float.
Variable sidereal_time : astro_time_t -> float.
Variable Astronomy_Equator :
  astro_body_t -> astro_time_t -> astro_observer_t ->
  astro_equator_date_t -> astro_aberration_t -> astro_equatorial_t.
Variable Astronomy_Horizon :
  astro_time_t -> astro_observer_t -> float -> float ->
  astro_refraction_t -> astro_horizon_t.

Lemma Apsis_bracketed_result (fuel : nat) (t1 t2 : astro_time_t) (m1 m2 : float)
    (a : astro_apsis_t) :
  Apsis_bracketed CalcMoon_dist fuel t1 t2 m1 m2 = Some a ->
  apsis_result_shape CalcMoon_dist a.
Proof.
  unfold Apsis_bracketed, apsis_result_shape.
  destruct ((m1 <? 0.0) || fgt m2 0.0).
  - destruct (Astronomy_Search _ _ _ _ _) as [sr|]; [|discriminate].
    destruct (negb (status_eqb (search_status sr) ASTRO_SUCCESS)) eqn:Es.
    + apply negb_true_iff, status_eqb_neq in Es.
      intros H; inversion H; subst. left. split; [exact Es | reflexivity].
    + intros H; inversion H; subst. right. cbn. auto.
  - destruct (fgt m1 0.0 || (m2 <? 0.0)).
    + destruct (Astronomy_Search _ _ _ _ _) as [sr|]; [|discriminate].
      destruct (negb (status_eqb (search_status sr) ASTRO_SUCCESS)) eqn:Es.
      * apply negb_true_iff, status_eqb_neq in Es.
        intros H; inversion H; subst. left. split; [exact Es | reflexivity].
      * intros H; inversion H; subst. right. cbn. auto.
    + intros H; inversion H; subst. left. split; [discriminate | reflexivity].
Qed.

Lemma Apsis_loop_result (fuel : nat) (loops : nat) :
  forall (s : apsis_state) (a : astro_apsis_t),
    Apsis_loop CalcMoon_dist fuel loops s = Some a ->
    apsis_result_shape CalcMoon_dist a.
Proof.
  induction loops as [|loops IH]; intros s a; cbn [Apsis_loop]; [discriminate|].
  destruct (Apsis_body CalcMoon_dist fuel s) as [[s'|a']|] eqn:Hb; try discriminate.
  - apply IH.
  - intros H; inversion H; subst. revert Hb. unfold Apsis_body.
    destruct (_ <? _).
    + destruct (negb _) eqn:Es.
      * apply negb_true_iff, status_eqb_neq in Es.
        intros H'; inversion H'; subst. left. split; [exact Es | reflexivity].
      * destruct (_ <=? _); [|discriminate].
        destruct (Apsis_bracketed _ _ _ _ _ _) as [a'|] eqn:Ha; [|discriminate].
        intros H'; inversion H'; subst. exact (Apsis_bracketed_result _ _ _ _ _ _ Ha).
    + intros H'; inversion H'; subst. left. split; [discriminate | reflexivity].
Qed.

(** X17.  What [Astronomy_SearchLunarApsis] returns is either an error record
    (a status other than success, kind [APSIS_INVALID], NaN in the time and
    the distances) or a success whose kind is pericenter or apocenter and
    whose distances are the Moon's distance at the time of the record, in
    astronomical units and, multiplied by [KM_PER_AU], in kilometres. *)
Theorem SearchLunarApsis_result (fuel : nat) (startTime : astro_time_t)
    (a : astro_apsis_t) :
  Astronomy_SearchLunarApsis CalcMoon_dist fuel startTime = Some a ->
  (apsis_status a <> ASTRO_SUCCESS /\ a = ApsisError (apsis_status a))
  \/ (apsis_status a = ASTRO_SUCCESS
      /\ (apsis_kind a = APSIS_PERICENTER \/ apsis_kind a = APSIS_APOCENTER)
      /\ apsis_dist_au a = MoonDistance CalcMoon_dist (apsis_time a)
      /\ apsis_dist_km a = apsis_dist_au a * KM_PER_AU).
Proof.
  unfold Astronomy_SearchLunarApsis.
  destruct (negb _) eqn:Es.
  - apply negb_true_iff, status_eqb_neq in Es.
    intros H; inversion H; subst. left. split; [exact Es | reflexivity].
  - intros H. exact (Apsis_loop_result _ _ _ _ H).
Qed.

(** The engine hands back no time when it fails. *)
Lemma Astronomy_Search_failure_time (fuel : nat) (func : astro_search_func_t)
    (t1 t2 : astro_time_t) (dt_tolerance_seconds : float) (r : astro_search_result_t) :
  Astronomy_Search fuel func t1 t2 dt_tolerance_seconds = Some r ->
  search_status r <> ASTRO_SUCCESS ->
  search_time r = NAN_time.
Proof.
  unfold Astronomy_Search, CALLFUNC.
  destruct (func t1) as [r1|]; [|discriminate].
  destruct (status_eqb (func_status r1) ASTRO_SUCCESS).
  - destruct (func t2) as [r2|]; [|discriminate].
    destruct (status_eqb (func_status r2) ASTRO_SUCCESS).
    + intros H Hne. exact (proj1 (Search_loop_failure _ _ _ _ _ H Hne)).
    + intros H _; inversion H; subst. reflexivity.
  - intros H _; inversion H; subst. reflexivity.
Qed.

Lemma RiseSet_loop_result (fuel loops : nat) (context : context_peak_altitude_t)
    (ha_before ha_after : float) (time_start : astro_time_t) (limitDays : float)
    (s : rise_set_state) (r : astro_search_result_t) :
  RiseSet_loop sidereal_time Astronomy_Equator Astronomy_Horizon
    fuel loops context ha_before ha_after time_start limitDays s = Some r ->
  (search_status r <> ASTRO_SUCCESS /\ search_time r = NAN_time)
  \/ (search_status r = ASTRO_SUCCESS
      /\ exists time_before time_after,
           Astronomy_Search fuel
             (fun t => Some (peak_altitude Astronomy_Equator Astronomy_Horizon context t))
             time_before time_after 1.0 = Some r).
Proof.
  intros H. apply RiseSet_loop_iff in H as (n & s' & _ & _ & Hb).
  apply RiseSet_body_exit in Hb as [(_ & Hs & _)|[(status & Hne & ->)|(_ & _ & _ & ->)]].
  - destruct (status_eqb (search_status r) ASTRO_SUCCESS) eqn:Es.
    + apply status_eqb_eq in Es. right. eauto.
    + apply status_eqb_neq in Es. left. split; [exact Es|].
      exact (Astronomy_Search_failure_time _ _ _ _ _ _ Hs Es).
  - left. split; [exact Hne | reflexivity].
  - left. split; [discriminate | reflexivity].
Qed.

(** What [Astronomy_SearchRiseSet] does for a direction that is rise or set,
    with the hour angles [ha_before] and [ha_after] of that direction. *)
Lemma RiseSet_run_result (fuel : nat) (body : astro_body_t)
    (observer : astro_observer_t) (direction : astro_direction_t)
    (dateStart : astro_time_t) (limitDays ha_before ha_after : float)
    (r : astro_search_result_t) :
  let context := (mk_context_peak_altitude body direction observer (body_radius_au body)) in
  CALLFUNC (fun r => r)
    (Some (peak_altitude Astronomy_Equator Astronomy_Horizon context dateStart))
    (fun alt_before =>
       let continue_from (time_before : astro_time_t) (alt_before : float) :=
         CHECK_EVENT (fun r => r)
           (Astronomy_SearchHourAngle sidereal_time Astronomy_Equator Astronomy_Horizon
              fuel body observer ha_after time_before)
           (fun evt_after =>
              CALLFUNC (fun r => r)
                (Some (peak_altitude Astronomy_Equator Astronomy_Horizon context
                         (ha_time evt_after)))
                (fun alt_after =>
                   RiseSet_loop sidereal_time Astronomy_Equator Astronomy_Horizon
                     fuel fuel context ha_before ha_after dateStart limitDays
                     (mk_rise_set_state time_before alt_before (ha_time evt_after)
                        alt_after))) in
       if fgt alt_before 0.0 then
         CHECK_EVENT (fun r => r)
           (Astronomy_SearchHourAngle sidereal_time Astronomy_Equator Astronomy_Horizon
              fuel body observer ha_before dateStart)
           (fun evt_before =>
              CALLFUNC (fun r => r)
                (Some (peak_altitude Astronomy_Equator Astronomy_Horizon context
                         (ha_time evt_before)))
                (fun alt_before' => continue_from (ha_time evt_before) alt_before'))
       else continue_from dateStart alt_before) = Some r ->
  (search_status r <> ASTRO_SUCCESS /\ search_time r = NAN_time)
  \/ (search_status r = ASTRO_SUCCESS
      /\ exists time_before time_after,
           Astronomy_Search fuel
             (fun t => Some (peak_altitude Astronomy_Equator Astronomy_Horizon context t))
             time_before time_after 1.0 = Some r).
Proof.
  intros context. unfold CALLFUNC, CHECK_EVENT. cbv zeta.
  repeat match goal with
  | |- context [match ?x with Some _ => _ | None => _ end] =>
      lazymatch x with
      | RiseSet_loop _ _ _ _ _ _ _ _ _ _ _ => fail
      | _ => destruct x eqn:?
      end
  | |- context [if ?c then _ else _] => destruct c eqn:?
  end;
  try discriminate;
  try (intros H; apply RiseSet_loop_result in H; exact H);
  intros H; inversion H; subst; left; cbn; split; try reflexivity;
  repeat match goal with
  | E : status_eqb _ _ = false |- _ => apply status_eqb_neq in E
  | E : negb (status_eqb _ _) = true |- _ => apply negb_true_iff, status_eqb_neq in E
  end; assumption.
Qed.

(** X18.  [Astronomy_SearchRiseSet] answers a direction that is neither rise nor
    set with [ASTRO_INVALID_PARAMETER]; a failure hands back no time (both
    fields are NaN); a success is what the engine answered for the altitude
    of the body's upper limb, with refraction, between two times. *)
Theorem SearchRiseSet_result (fuel : nat) (body : astro_body_t)
    (observer : astro_observer_t) (direction : astro_direction_t)
    (dateStart : astro_time_t) (limitDays : float) (r : astro_search_result_t) :
  Astronomy_SearchRiseSet sidereal_time Astronomy_Equator Astronomy_Horizon
    fuel body observer direction dateStart limitDays = Some r ->
  (direction <> DIRECTION_RISE -> direction <> DIRECTION_SET ->
   r = SearchError ASTRO_INVALID_PARAMETER)
  /\ ((search_status r <> ASTRO_SUCCESS /\ search_time r = NAN_time)
      \/ (search_status r = ASTRO_SUCCESS
          /\ (direction = DIRECTION_RISE \/ direction = DIRECTION_SET)
          /\ exists time_before time_after,
               Astronomy_Search fuel
                 (fun t => Some (peak_altitude Astronomy_Equator Astronomy_Horizon
                                   (mk_context_peak_altitude body direction observer (body_radius_au body)) t))
                 time_before time_after 1.0 = Some r)).
Proof.
  unfold Astronomy_SearchRiseSet.
  destruct (direction =? DIRECTION_RISE)%Z eqn:Er.
  - apply Z.eqb_eq in Er. intros H. split; [intros; contradiction|].
    destruct (RiseSet_run_result _ _ _ _ _ _ _ _ _ H) as [Hf|(Hs & Hx)];
      [left | right]; auto.
  - destruct (direction =? DIRECTION_SET)%Z eqn:Es.
    + apply Z.eqb_eq in Es. intros H. split; [intros; contradiction|].
      destruct (RiseSet_run_result _ _ _ _ _ _ _ _ _ H) as [Hf|(Hs & Hx)];
        [left | right]; auto.
    + intros H; inversion H; subst. split; [reflexivity|].
      left. split; [discriminate | reflexivity].
Qed.

End ResultProperties.

(** ** The two time scales of a result *)

Lemma Search_body_made (func : astro_search_func_t) (dt_days : float)
    (s : search_state) (r : astro_search_result_t) :
  Search_body func dt_days s = Some (Return r) ->
  search_status r = ASTRO_SUCCESS ->
  exists u, search_time r = UniversalTime u.
Proof.
  unfold Search_body, Search_quad, Search_bisect, CALLFUNC.
  destruct (st_calc_fmid s);
    split_tests; intros H Hs; inversion H; subst;
    cbn [search_status search_success SearchError] in Hs;
    try discriminate;
    repeat match goal with
    | E : status_eqb _ _ = false |- _ => apply status_eqb_neq in E
    end;
    try contradiction;
    eexists; reflexivity.
Qed.

Lemma Search_loop_made (fuel : nat) (func : astro_search_func_t) (dt_days : float) :
  forall (s : search_state) (r : astro_search_result_t),
    Search_loop fuel func dt_days s = Some r ->
    search_status r = ASTRO_SUCCESS ->
    exists u, search_time r = UniversalTime u.
Proof.
  induction fuel as [|fuel IH]; intros s r; cbn [Search_loop]; [discriminate|].
  destruct (Search_body func dt_days s) as [[s'|r']|] eqn:Eb; try discriminate.
  - apply IH.
  - intros H; inversion H; subst. now apply (Search_body_made func dt_days s).
Qed.

(** The time of a successful search is made by [UniversalTime] (or by
    [Astronomy_AddDays], which fills the two fields in the same way). *)
Lemma Astronomy_Search_made (fuel : nat) (func : astro_search_func_t)
    (t1 t2 : astro_time_t) (dt_tolerance_seconds : float) (r : astro_search_result_t) :
  Astronomy_Search fuel func t1 t2 dt_tolerance_seconds = Some r ->
  search_status r = ASTRO_SUCCESS ->
  exists u, search_time r = UniversalTime u.
Proof.
  unfold Astronomy_Search, CALLFUNC.
  destruct (func t1) as [r1|]; [|discriminate].
  destruct (status_eqb (func_status r1) ASTRO_SUCCESS) eqn:S1.
  - destruct (func t2) as [r2|]; [|discriminate].
    destruct (status_eqb (func_status r2) ASTRO_SUCCESS) eqn:S2.
    + apply Search_loop_made.
    + apply status_eqb_neq in S2. intros H Hs; inversion H; subst. contradiction.
  - apply status_eqb_neq in S1. intros H Hs; inversion H; subst. contradiction.
Qed.

Lemma Astronomy_Search_consistent (fuel : nat) (func : astro_search_func_t)
    (t1 t2 : astro_time_t) (dt_tolerance_seconds : float) (r : astro_search_result_t) :
  Astronomy_Search fuel func t1 t2 dt_tolerance_seconds = Some r ->
  search_status r = ASTRO_SUCCESS ->
  time_consistent (search_time r).
Proof.
  intros H Hs. destruct (Astronomy_Search_made _ _ _ _ _ _ H Hs) as [u Hu].
  rewrite Hu. reflexivity.
Qed.

(** X19.  The time of a successful [Astronomy_Search] has its two fields in
    agreement, [tt] being the Terrestrial Time of [ut], also when the ends
    of the window it was given do not: every time the engine accepts comes
    from [Astronomy_AddDays] or [UniversalTime]. *)
Theorem Search_success_time_consistent (fuel : nat) (func : astro_search_func_t)
    (t1 t2 : astro_time_t) (dt_tolerance_seconds : float) (r : astro_search_result_t) :
  Astronomy_Search fuel func t1 t2 dt_tolerance_seconds = Some r ->
  search_status r = ASTRO_SUCCESS ->
  time_consistent (search_time r)
  /\ exists u, search_time r = UniversalTime u.
Proof.
  intros H Hs. destruct (Astronomy_Search_made _ _ _ _ _ _ H Hs) as [u Hu].
  split; [|eauto]. rewrite Hu. reflexivity.
Qed.

Section ConsistencyProperties.

Variable Astronomy_MoonPhase : astro_time_t -> astro_angle_result_t.
Variable CalcMoon_dist : float -> float.
Variable sidereal_time : astro_time_t -> float.
Variable Astronomy_Equator :
  astro_body_t -> astro_time_t -> astro_observer_t ->
  astro_equator_date_t -> astro_aberration_t -> astro_equatorial_t.
Variable Astronomy_Horizon :
  astro_time_t -> astro_observer_t -> float -> float ->
  astro_refraction_t -> astro_horizon_t.

Lemma SearchMoonPhase_consistent (fuel : nat) (targetLon : float)
    (dateStart : astro_time_t) (limitDays : float) (r : astro_search_result_t) :
  Astronomy_SearchMoonPhase Astronomy_MoonPhase fuel targetLon dateStart limitDays
  = Some r ->
  search_status r = ASTRO_SUCCESS ->
  time_consistent (search_time r).
Proof.
  unfold Astronomy_SearchMoonPhase, SearchMoonPhase_with.
  destruct (moon_offset _ _ _ _) as [funcres|]; [|discriminate].
  destruct (negb _) eqn:E1.
  { apply negb_true_iff, status_eqb_neq in E1.
    intros H Hs; inversion H; subst. contradiction. }
  destruct (fgt _ limitDays).
  { intros H Hs; inversion H; subst. discriminate. }
  apply Astronomy_Search_consistent.
Qed.

Lemma SearchMoonQuarter_consistent (fuel : nat) (dateStart : astro_time_t)
    (q : astro_moon_quarter_t) :
  Astronomy_SearchMoonQuarter Astronomy_MoonPhase fuel dateStart = Some q ->
  mq_status q = ASTRO_SUCCESS ->
  time_consistent (mq_time q).
Proof.
  unfold Astronomy_SearchMoonQuarter.
  destruct (negb _) eqn:E1.
  { apply negb_true_iff, status_eqb_neq in E1.
    intros H Hs; inversion H; subst. contradiction. }
  destruct (Astronomy_SearchMoonPhase _ _ _ _ _) as [sr|] eqn:Hsr; [|discriminate].
  destruct (negb (status_eqb (search_status sr) ASTRO_SUCCESS)) eqn:E2.
  { apply negb_true_iff, status_eqb_neq in E2.
    intros H Hs; inversion H; subst. contradiction. }
  apply negb_false_iff, status_eqb_eq in E2.
  intros H _; inversion H; subst. cbn.
  exact (SearchMoonPhase_consistent _ _ _ _ _ Hsr E2).
Qed.

Lemma SearchLunarApsis_consistent (fuel : nat) (startTime : astro_time_t)
    (a : astro_apsis_t) :
  Astronomy_SearchLunarApsis CalcMoon_dist fuel startTime = Some a ->
  apsis_status a = ASTRO_SUCCESS ->
  time_consistent (apsis_time a).
Proof.
  assert (Hbr : forall t1 t2 m1 m2,
            Apsis_bracketed CalcMoon_dist fuel t1 t2 m1 m2 = Some a ->
            apsis_status a = ASTRO_SUCCESS -> time_consistent (apsis_time a)).
  { intros t1 t2 m1 m2 H Hs.
    destruct (Apsis_bracketed_success _ _ _ _ _ _ _ H Hs)
      as (direction & sr & Hsr & Hok & Ht & _).
    rewrite Ht. exact (Astronomy_Search_consistent _ _ _ _ _ _ Hsr Hok). }
  assert (Hloop : forall loops s,
            Apsis_loop CalcMoon_dist fuel loops s = Some a ->
            apsis_status a = ASTRO_SUCCESS -> time_consistent (apsis_time a)).
  { induction loops as [|loops IH]; intros s; cbn [Apsis_loop]; [discriminate|].
    destruct (Apsis_body CalcMoon_dist fuel s) as [[s'|a']|] eqn:Hb; try discriminate.
    - apply IH.
    - intros H; inversion H; subst. revert Hb. unfold Apsis_body.
      destruct (_ <? _).
      + destruct (negb _) eqn:Es.
        * apply negb_true_iff, status_eqb_neq in Es.
          intros H' Hs; inversion H'; subst. contradiction.
        * destruct (_ <=? _); [|discriminate].
          destruct (Apsis_bracketed _ _ _ _ _ _) as [a'|] eqn:Ha; [|discriminate].
          intros H'; inversion H'; subst. exact (Hbr _ _ _ _ Ha).
      + intros H' Hs; inversion H'; subst. discriminate. }
  unfold Astronomy_SearchLunarApsis.
  destruct (negb _) eqn:Es.
  - apply negb_true_iff, status_eqb_neq in Es.
    intros H Hs; inversion H; subst. contradiction.
  - apply Hloop.
Qed.

(** X20.  The searches built on the engine hand back times whose two fields
    agree: the time of a successful moon phase, moon quarter (first or
    next), lunar apsis (first or next) and rise or set has [tt] equal to the
    Terrestrial Time of its [ut]. *)
Theorem search_times_consistent (fuel : nat) :
  (forall targetLon dateStart limitDays r,
     Astronomy_SearchMoonPhase Astronomy_MoonPhase fuel targetLon dateStart limitDays
     = Some r ->
     search_status r = ASTRO_SUCCESS -> time_consistent (search_time r))
  /\ (forall dateStart q,
        Astronomy_SearchMoonQuarter Astronomy_MoonPhase fuel dateStart = Some q ->
        mq_status q = ASTRO_SUCCESS -> time_consistent (mq_time q))
  /\ (forall mq q,
        Astronomy_NextMoonQuarter Astronomy_MoonPhase fuel mq = Some q ->
        mq_status q = ASTRO_SUCCESS -> time_consistent (mq_time q))
  /\ (forall startTime a,
        Astronomy_SearchLunarApsis CalcMoon_dist fuel startTime = Some a ->
        apsis_status a = ASTRO_SUCCESS -> time_consistent (apsis_time a))
  /\ (forall apsis a,
        Astronomy_NextLunarApsis CalcMoon_dist fuel apsis = Some a ->
        apsis_status a = ASTRO_SUCCESS -> time_consistent (apsis_time a))
  /\ (forall body observer direction dateStart limitDays r,
        Astronomy_SearchRiseSet sidereal_time Astronomy_Equator Astronomy_Horizon
          fuel body observer direction dateStart limitDays = Some r ->
        search_status r = ASTRO_SUCCESS -> time_consistent (search_time r)).
Proof.
  repeat apply conj.
  - intros targetLon dateStart limitDays r. apply SearchMoonPhase_consistent.
  - intros dateStart q. apply SearchMoonQuarter_consistent.
  - intros mq q. unfold Astronomy_NextMoonQuarter.
    destruct (Astronomy_SearchMoonQuarter _ _ _) as [next|] eqn:Hn; [|discriminate].
    destruct (_ && _).
    + intros H Hs; inversion H; subst. discriminate.
    + intros H; inversion H; subst. exact (SearchMoonQuarter_consistent _ _ _ Hn).
  - intros startTime a. apply SearchLunarApsis_consistent.
  - intros apsis a. unfold Astronomy_NextLunarApsis.
    destruct (negb _).
    { intros H Hs; inversion H; subst. discriminate. }
    destruct (Astronomy_SearchLunarApsis _ _ _) as [next|] eqn:Hn; [|discriminate].
    destruct (status_eqb (apsis_status next) ASTRO_SUCCESS) eqn:Es.
    + destruct (apsis_kind apsis).
      * destruct (negb _).
        -- intros H Hs; inversion H; subst. discriminate.
        -- intros H; inversion H; subst. exact (SearchLunarApsis_consistent _ _ _ Hn).
      * destruct (negb _).
        -- intros H Hs; inversion H; subst. discriminate.
        -- intros H; inversion H; subst. exact (SearchLunarApsis_consistent _ _ _ Hn).
      * intros H Hs; inversion H; subst. discriminate.
    + intros H; inversion H; subst. exact (SearchLunarApsis_consistent _ _ _ Hn).
  - intros body observer direction dateStart limitDays r.
    unfold Astronomy_SearchRiseSet.
    destruct (direction =? DIRECTION_RISE)%Z;
      [|destruct (direction =? DIRECTION_SET)%Z];
      intros H Hs;
      try (inversion H; subst; discriminate);
      destruct (RiseSet_run_result sidereal_time Astronomy_Equator Astronomy_Horizon
                  _ _ _ _ _ _ _ _ _ H) as [(Hne & _)|(_ & tb & ta & Hsr)];
      try contradiction;
      exact (Astronomy_Search_consistent _ _ _ _ _ _ Hsr Hs).
Qed.

End ConsistencyProperties.

(** * Examples for the properties with a precondition *)

Lemma UtcFromTime_recovers_date_witness :
  utc_year (Astronomy_UtcFromTime (Astronomy_MakeTime 2019 7 4 12 30 15.0)) = 2019%Z
  /\ utc_month (Astronomy_UtcFromTime (Astronomy_MakeTime 2019 7 4 12 30 15.0)) = 7%Z
  /\ utc_day (Astronomy_UtcFromTime (Astronomy_MakeTime 2019 7 4 12 30 15.0)) = 4%Z.
Proof.
  apply (UtcFromTime_recovers_date (Astronomy_MakeTime 2019 7 4 12 30 15.0) 2019 7 4).
  - unfold calendar_date. vm_compute. intuition discriminate.
  - vm_compute. reflexivity.
Defined.

(** The leap day of the year 2000. *)
Lemma UtcFromTime_MakeTime_midnight_witness :
  Astronomy_UtcFromTime (Astronomy_MakeTime 2000 2 29 0 0 0.0)
  = mk_utc 2000 2 29 0 0 0.0.
Proof.
  apply (UtcFromTime_MakeTime_midnight 2000 2 29).
  - lia.
  - lia.
  - vm_compute. intuition discriminate.
Defined.

Lemma QuadInterp_rejects_nan_witness :
  QuadInterp 0.0 1.0 nan 0.0 1.0 = None.
Proof. apply QuadInterp_rejects_nan. left. reflexivity. Defined.

(** The callback fails at the middle of the window. *)
Lemma Search_failure_has_no_time_witness :
  search_time (SearchError ASTRO_BAD_TIME) = NAN_time
  /\ Search_failure_source failing_midway
       (search_status (SearchError ASTRO_BAD_TIME)).
Proof.
  apply (Search_failure_has_no_time 21 failing_midway short_t1 day_t2 1.0
           (SearchError ASTRO_BAD_TIME)).
  - vm_compute. reflexivity.
  - vm_compute. discriminate.
Defined.

(** The mean Sun of the year 2000 reaches 180 degrees before the 21st of
    September: three searches succeed and the status is the one of the
    search that failed. *)
Lemma Seasons_status_witness :
  exists st1 st2 st3 st4 : astro_status_t,
    FindSeasonChange mean_SunPosition 21 0 2000 3 19
    = Some (st1, mar_equinox seasons_2000)
    /\ FindSeasonChange mean_SunPosition 21 90 2000 6 19
       = Some (st2, jun_solstice seasons_2000)
    /\ FindSeasonChange mean_SunPosition 21 180 2000 9 21
       = Some (st3, sep_equinox seasons_2000)
    /\ FindSeasonChange mean_SunPosition 21 270 2000 12 20
       = Some (st4, dec_solstice seasons_2000)
    /\ seasons_status seasons_2000 = last_failure [st1; st2; st3; st4]
    /\ (seasons_status seasons_2000 = ASTRO_SUCCESS <->
        st1 = ASTRO_SUCCESS /\ st2 = ASTRO_SUCCESS
        /\ st3 = ASTRO_SUCCESS /\ st4 = ASTRO_SUCCESS).
Proof.
  apply (Seasons_status mean_SunPosition 21 2000 seasons_2000).
  vm_compute. reflexivity.
Defined.

(** Among planets that do not move the relative longitude never changes:
    the search runs into the cap. *)
Lemma SearchRelativeLongitude_iteration_cap_witness :
  exists r,
    Astronomy_SearchRelativeLongitude frozen_EclipticLongitude 101 BODY_VENUS 90
      day_zero = Some r.
Proof.
  apply (SearchRelativeLongitude_iteration_cap frozen_EclipticLongitude 101
           BODY_VENUS 90 day_zero).
  - intros t. vm_compute. discriminate.
  - lia.
Defined.

Lemma SearchRelativeLongitude_success_witness :
  is_other_planet BODY_VENUS = true
  /\ exists (error_angle : float) (n : nat) (s : rlon_state),
       rlon_offset circular_EclipticLongitude 101 BODY_VENUS (UniversalTime 100)
         (if IsSuperiorPlanet BODY_VENUS then 1%Z else (-1)%Z) 90
       = func_ok error_angle
       /\ RelativeLongitude_steps circular_EclipticLongitude 101 n BODY_VENUS
            (if IsSuperiorPlanet BODY_VENUS then 1%Z else (-1)%Z) 90
            (mk_rlon_state 0 (UniversalTime 100)
               (if fgt error_angle 0 then error_angle - 360 else error_angle)
               (func_value (SynodicPeriod BODY_VENUS))) = Some s
       /\ (n < 100)%nat
       /\ (abs (rlon_day_adjust s) * SECONDS_PER_DAY <? 1.0) = true
       /\ search_time venus_quadrature
          = Astronomy_AddDays (rl_time s) (rlon_day_adjust s).
Proof.
  apply (SearchRelativeLongitude_success circular_EclipticLongitude 101 BODY_VENUS 90
           (UniversalTime 100) venus_quadrature).
  - vm_compute. reflexivity.
  - vm_compute. reflexivity.
Defined.

Lemma SearchRelativeLongitude_failure_witness :
  search_time frozen_quadrature = NAN_time
  /\ (is_other_planet BODY_VENUS = true ->
      RelativeLongitude_failure_source frozen_EclipticLongitude BODY_VENUS
        (search_status frozen_quadrature)).
Proof.
  apply (SearchRelativeLongitude_failure frozen_EclipticLongitude 101 BODY_VENUS 90
           day_zero frozen_quadrature).
  - vm_compute. reflexivity.
  - vm_compute. discriminate.
Defined.




Lemma SearchLunarApsis_result_witness :
  (apsis_status first_apsis <> ASTRO_SUCCESS
   /\ first_apsis = ApsisError (apsis_status first_apsis))
  \/ (apsis_status first_apsis = ASTRO_SUCCESS
      /\ (apsis_kind first_apsis = APSIS_PERICENTER
          \/ apsis_kind first_apsis = APSIS_APOCENTER)
      /\ apsis_dist_au first_apsis
         = MoonDistance month_Moon_dist (apsis_time first_apsis)
      /\ apsis_dist_km first_apsis = apsis_dist_au first_apsis * KM_PER_AU).
Proof.
  apply (SearchLunarApsis_result month_Moon_dist 21 day_zero).
  vm_compute. reflexivity.
Defined.

Lemma SearchRiseSet_result_witness :
  (DIRECTION_RISE <> DIRECTION_RISE -> DIRECTION_RISE <> DIRECTION_SET ->
   first_rise = SearchError ASTRO_INVALID_PARAMETER)
  /\ ((search_status first_rise <> ASTRO_SUCCESS /\ search_time first_rise = NAN_time)
      \/ (search_status first_rise = ASTRO_SUCCESS
          /\ (DIRECTION_RISE = DIRECTION_RISE \/ DIRECTION_RISE = DIRECTION_SET)
          /\ exists time_before time_after,
               Astronomy_Search 21
                 (fun t => Some (peak_altitude fixed_Equator equatorial_Horizon
                                   (mk_context_peak_altitude BODY_SUN DIRECTION_RISE
                                      greenwich (body_radius_au BODY_SUN)) t))
                 time_before time_after 1.0 = Some first_rise)).
Proof.
  apply (SearchRiseSet_result mean_sidereal_time fixed_Equator equatorial_Horizon
           21 BODY_SUN greenwich DIRECTION_RISE day_zero 2).
  vm_compute. reflexivity.
Defined.

Lemma Search_success_time_consistent_witness :
  time_consistent (search_time drift_result)
  /\ exists u, search_time drift_result = UniversalTime u.
Proof.
  apply (Search_success_time_consistent 21 steep_line drift_t1 drift_t2 10.0
           drift_result).
  - vm_compute. reflexivity.
  - vm_compute. reflexivity.
Defined.
